(** * Recall-augmented search and re-ranking pipeline

    A shallow embedding of [intent.py], [search.py], [recall.py] and of the
    re-sorting fragment of [app.py], followed by the properties of the
    pipeline that the specification states.

    Conventions of the embedding.
    - Python [str] values are Rocq [string]s, read as UTF-8 byte strings.
      Byte-wise lexicographic order on UTF-8 coincides with Python's
      code-point order.  [lower], [strip], the regular-expression classes
      [\w] and [\s] and [re.IGNORECASE] are the ASCII ones; they agree with
      Python on ASCII text and leave bytes above 127 alone.
    - Python [int] values are [Z].
    - A JSON object read with [.get] is a record of optional fields.
    - Code that talks to the network runs in a state monad over an abstract
      world; an outcome is a returned value, a raised exception (carried as
      the text of [str(e)]), or the exhaustion of the loop fuel. *)

From Stdlib Require Import ZArith Ascii String List Bool Lia.
From Stdlib Require Import Sorting.Sorted Sorting.Permutation.
From stdpp Require Import base gmap sets list strings.

Local Open Scope Z_scope.

(* ===================================================================== *)
(** * Python primitives *)
(* ===================================================================== *)

Module Py.

(** ** Characters *)

Definition code (c : ascii) : nat := nat_of_ascii c.

Definition in_range (lo hi : nat) (c : ascii) : bool :=
  (Nat.leb lo (code c)) && (Nat.leb (code c) hi).

Definition isupper (c : ascii) : bool := in_range 65 90 c.
Definition isalpha (c : ascii) : bool := in_range 65 90 c || in_range 97 122 c.
Definition isdigit (c : ascii) : bool := in_range 48 57 c.

(** [\w]: letters, digits and the underscore. *)
Definition isword (c : ascii) : bool :=
  isalpha c || isdigit c || Nat.eqb (code c) 95.

(** [\s] and [str.isspace]: TAB, LF, VT, FF, CR, FS, GS, RS, US, space. *)
Definition isspace (c : ascii) : bool :=
  in_range 9 13 c || in_range 28 31 c || Nat.eqb (code c) 32.

Definition lower_char (c : ascii) : ascii :=
  if isupper c then ascii_of_nat (code c + 32) else c.

(** ** [str.lower], [str.strip] *)

Fixpoint lower (s : string) : string :=
  match s with
  | EmptyString => EmptyString
  | String c s' => String (lower_char c) (lower s')
  end.

Fixpoint lstrip (s : string) : string :=
  match s with
  | EmptyString => EmptyString
  | String c s' => if isspace c then lstrip s' else s
  end.

Fixpoint rstrip (s : string) : string :=
  match s with
  | EmptyString => EmptyString
  | String c s' =>
      match rstrip s' with
      | EmptyString => if isspace c then EmptyString else String c EmptyString
      | r => String c r
      end
  end.

Definition strip (s : string) : string := rstrip (lstrip s).

(** Truthiness of a [str]. *)
Definition truthy (s : string) : bool :=
  match s with EmptyString => false | _ => true end.

(** ** [sub in s] *)

Fixpoint startswith (p s : string) : bool :=
  match p, s with
  | EmptyString, _ => true
  | String _ _, EmptyString => false
  | String a p', String b s' => Ascii.eqb a b && startswith p' s'
  end.

Fixpoint contains (sub s : string) : bool :=
  startswith sub s ||
  match s with
  | EmptyString => false
  | String _ s' => contains sub s'
  end.

(** ** Regular expressions used by the intent parser *)

(** A literal pattern matched at the head of [s] under [re.IGNORECASE]. *)
Fixpoint startswith_ci (p s : string) : bool :=
  match p, s with
  | EmptyString, _ => true
  | String _ _, EmptyString => false
  | String a p', String b s' =>
      Ascii.eqb (lower_char a) (lower_char b) && startswith_ci p' s'
  end.

Fixpoint skipn_str (n : nat) (s : string) : string :=
  match n, s with
  | O, _ => s
  | S _, EmptyString => EmptyString
  | S n', String _ s' => skipn_str n' s'
  end.

Definition head_str (s : string) : option ascii :=
  match s with EmptyString => None | String c _ => Some c end.

Fixpoint last_str (s : string) : option ascii :=
  match s with
  | EmptyString => None
  | String c EmptyString => Some c
  | String _ s' => last_str s'
  end.

(** [re.compile(re.escape(p), re.IGNORECASE).sub("", s)]: the leftmost
    matches, not overlapping, are deleted.  [skip] counts the characters
    of the current match that are still to be dropped. *)
Fixpoint sub_literal_go (p : string) (skip : nat) (s : string) : string :=
  match s with
  | EmptyString => EmptyString
  | String c s' =>
      match skip with
      | S k => sub_literal_go p k s'
      | O =>
          if startswith_ci p s
          then sub_literal_go p (Nat.pred (String.length p)) s'
          else String c (sub_literal_go p O s')
      end
  end.

Definition sub_literal (p s : string) : string :=
  match p with
  | EmptyString => s
  | _ => sub_literal_go p O s
  end.

(** [\b]: exactly one of the two neighbours is a word character; the two
    ends of the string count as non-word. *)
Definition wordside (c : option ascii) : bool :=
  match c with Some a => isword a | None => false end.

Definition boundary (before after : option ascii) : bool :=
  xorb (wordside before) (wordside after).

(** [\b + re.escape(w) + \b] matched at the head of [s], where [prev] is
    the character in front of [s].  The last character of the match is
    [w]'s last one up to case, so it has the same word class. *)
Definition match_word_at (w : string) (prev : option ascii) (s : string) : bool :=
  boundary prev (head_str s)
  && startswith_ci w s
  && boundary (last_str w) (head_str (skipn_str (String.length w) s)).

Fixpoint sub_word_go (w : string) (prev : option ascii) (skip : nat)
    (s : string) : string :=
  match s with
  | EmptyString => EmptyString
  | String c s' =>
      match skip with
      | S k => sub_word_go w (Some c) k s'
      | O =>
          if match_word_at w prev s
          then sub_word_go w (Some c) (Nat.pred (String.length w)) s'
          else String c (sub_word_go w (Some c) O s')
      end
  end.

Definition sub_word (w s : string) : string :=
  match w with
  | EmptyString => s
  | _ => sub_word_go w None O s
  end.

(** [re.sub(r'[^\w\s]', ' ', s)] on ASCII text: a byte above 127 is taken
    for punctuation, where Python keeps the letters among such characters. *)
Fixpoint sub_punct (s : string) : string :=
  match s with
  | EmptyString => EmptyString
  | String c s' =>
      String (if isword c || isspace c then c else " "%char) (sub_punct s')
  end.

(** [s.split()]: the maximal runs of non-space characters.  [cur] is the
    run being read, in reverse. *)
Fixpoint split_go (cur : list ascii) (s : string) : list string :=
  let flush :=
    match cur with
    | [] => []
    | _ => [string_of_list_ascii (rev cur)]
    end in
  match s with
  | EmptyString => flush
  | String c s' =>
      if isspace c then flush ++ split_go [] s' else split_go (c :: cur) s'
  end.

Definition split (s : string) : list string := split_go [] s.

(** [sep.join(l)] *)
Fixpoint join (sep : string) (l : list string) : string :=
  match l with
  | [] => EmptyString
  | [x] => x
  | x :: l' => String.append x (String.append sep (join sep l'))
  end.

(** ** [list.sort(key=..., reverse=...)]

    Python's sort is stable, also with [reverse=True]: items with equal
    keys keep their order.  For a total preorder on the keys the result
    of a stable sort is unique, so insertion sort stands for it. *)

Section Sort.
Context {A : Type} (le : A -> A -> bool).

Fixpoint insert (x : A) (l : list A) : list A :=
  match l with
  | [] => [x]
  | y :: l' => if le x y then x :: l else y :: insert x l'
  end.

Fixpoint stable_sort (l : list A) : list A :=
  match l with
  | [] => []
  | x :: l' => insert x (stable_sort l')
  end.
End Sort.

Definition sort_by {A K : Type} (key_le : K -> K -> bool) (key : A -> K)
    (reverse : bool) (l : list A) : list A :=
  stable_sort
    (fun a b => if reverse then key_le (key b) (key a) else key_le (key a) (key b))
    l.

(** [l[start:stop]] *)
Definition slice {A : Type} (l : list A) (start stop : Z) : list A :=
  let n := Z.of_nat (length l) in
  let norm i := if i <? 0 then Z.max (i + n) 0 else Z.min i n in
  let a := norm start in
  let b := norm stop in
  take (Z.to_nat (b - a)) (drop (Z.to_nat a) l).

End Py.

(* ===================================================================== *)
(** * intent.py *)
(* ===================================================================== *)

Module Intent.

Record intent := {
  original_query : string;
  keyword : string;
  sort : option string;
  type : option string
}.

(** [IntentParser.__init__] *)
Definition time_keywords : list string :=
  ["recent"; "latest"; "new"; "newest"; "current"; "latest research";
   "recent papers"].
Definition citation_keywords : list string :=
  ["popular"; "cited"; "best"; "top"; "famous"; "impactful"; "highly cited";
   "most cited"].
Definition author_keywords : list string :=
  ["author"; "researcher"; "scientist"; "who wrote"; "written by"; "people"].
Definition inst_keywords : list string :=
  ["institution"; "university"; "lab"; "laboratory"; "center"; "college";
   "school"].
Definition stop_phrases : list string :=
  ["research on"; "papers about"; "results for"; "show me"; "find";
   "search for"; "articles on"; "documents about"; "information on";
   "tell me about"; "papers on"; "results of"; "list of"].

(** [any(k in query_lower for k in keywords)] *)
Definition any_in (keywords : list string) (query_lower : string) : bool :=
  existsb (fun k => Py.contains k query_lower) keywords.

Definition sort_intent (query_lower : string) : option string :=
  if any_in citation_keywords query_lower then Some "citation"
  else if any_in time_keywords query_lower then Some "date"
  else None.

Definition type_intent (query_lower : string) : option string :=
  if any_in author_keywords query_lower then Some "author"
  else if any_in inst_keywords query_lower then Some "institution"
  else None.

Definition opt_is (o : option string) (v : string) : bool :=
  match o with Some s => String.eqb s v | None => false end.

Definition words_to_remove (srt typ : option string) : list string :=
  (if opt_is srt "date" then time_keywords else [])
  ++ (if opt_is srt "citation" then citation_keywords else [])
  ++ (if opt_is typ "author" then author_keywords else [])
  ++ (if opt_is typ "institution" then inst_keywords else []).

(** Step 3 of [parse]: the stop phrases are deleted in listed order, then
    the words of the matched intents, then punctuation becomes a space and
    the runs of white space collapse. *)
Definition clean (srt typ : option string) (query : string) : string :=
  let clean_query := fold_left (fun q phrase => Py.sub_literal phrase q)
                       stop_phrases query in
  let clean_query := fold_left (fun q word => Py.sub_word word q)
                       (words_to_remove srt typ) clean_query in
  let clean_query := Py.sub_punct clean_query in
  Py.join " " (Py.split clean_query).

Definition parse (query : string) : intent :=
  if negb (Py.truthy query) then
    {| original_query := ""; keyword := ""; sort := None; type := None |}
  else
    let query_lower := Py.lower query in
    let srt := sort_intent query_lower in
    let typ := type_intent query_lower in
    let kw := clean srt typ query in
    {| original_query := query;
       keyword := if negb (Py.truthy kw) then query else kw;
       sort := srt;
       type := typ |}.

End Intent.

(* ===================================================================== *)
(** * search.py *)
(* ===================================================================== *)

(** A work, author or institution record of the remote API, with the keys
    the pipeline reads.  [None] is a key that is absent or [null]: every
    read of these keys goes through [.get] and treats the two alike.
    [source_concept] is the key [_source_concept].

    The fields have the types of the API's schema: a string [id], an
    integer [cited_by_count], a string [publication_date].  The embedding
    is of the code on responses of this shape; on a response that is not a
    JSON object, or whose items carry other kinds of values under these
    keys, Python's comparison and hashing raise [TypeError], which is
    outside of what is modelled. *)
Module Item.
Record item := {
  id : option string;
  display_name : option string;
  cited_by_count : option Z;
  publication_date : option string;
  publication_year : option Z;
  source_concept : option string
}.
End Item.

Module Search.

(** A key of a decoded JSON object for which the code tells an absent key
    from a [null] one. *)
Inductive jfield (A : Type) : Type :=
| Absent
| Null
| Present (a : A).
Arguments Absent {A}.
Arguments Null {A}.
Arguments Present {A} a.

(** The decoded body of a response, and the dictionaries the search
    functions return. *)
Record data := {
  error : option string;
  results : jfield (list Item.item);
  meta_count : option Z
}.

(** [d.get("results", [])]; [None] is Python's [None]. *)
Definition get_results (d : data) : option (list Item.item) :=
  match results d with
  | Absent => Some []
  | Null => None
  | Present l => Some l
  end.

(** [d['results'] = l] *)
Definition set_results (d : data) (l : list Item.item) : data :=
  {| error := error d; results := Present l; meta_count := meta_count d |}.

Inductive pvalue : Type :=
| PStr (s : string)
| PInt (n : Z).

Record request := {
  url : string;
  params : gmap string pvalue;
  timeout : Z
}.

Definition API_BASE : string := "https://acemap.info/api/v1".

Definition ENDPOINTS : gmap string string :=
  <["institution" := String.append API_BASE "/institution/search"]>
    (<["author" := String.append API_BASE "/author/search"]>
       (<["work" := String.append API_BASE "/work/search"]> ∅)).

Definition build_params (search_type keyword : string) (page size : Z)
    (order : string) (sort : option string) : gmap string pvalue :=
  let params : gmap string pvalue :=
    <["size" := PInt size]>
      (<["page" := PInt page]> (<["keyword" := PStr keyword]> ∅)) in
  if String.eqb search_type "work" then
    let params := <["order" := PStr order]> params in
    match sort with
    | Some s => if Py.truthy s then <["sort" := PStr s]> params else params
    | None => params
    end
  else params.

(** ** Outcomes and the client monad *)

Inductive outcome (A : Type) : Type :=
| Ret (a : A)
| Raise (e : string)
| Exhausted.
Arguments Ret {A} a.
Arguments Raise {A} e.
Arguments Exhausted {A}.

(** What [requests.get], [raise_for_status] and [response.json] yield
    together: an exception or the decoded body. *)
Inductive reply : Type :=
| Failed (e : string)
| Body (d : data).

(** ** Sorting of the accumulated sample *)

(** [x.get('cited_by_count', 0) or 0] *)
Definition citation_key (x : Item.item) : Z :=
  match Item.cited_by_count x with
  | Some n => n
  | None => 0
  end.

Definition date_key (reverse : bool) (x : Item.item) : string :=
  let sentinel : string := if reverse then "9999" else "0000" in
  match Item.publication_date x with
  | Some d =>
      if Py.truthy d then d
      else let y := Item.publication_year x in sentinel
  | None => let y := Item.publication_year x in sentinel
  end.

Definition sort_results (sort order : string) (all_results : list Item.item)
    : list Item.item :=
  let reverse := String.eqb order "desc" in
  if String.eqb sort "cited_by_count" then
    Py.sort_by Z.leb citation_key reverse all_results
  else if String.eqb sort "publication_date" then
    Py.sort_by String.leb (date_key reverse) reverse all_results
  else all_results.

Definition target_count (page size : Z) : Z :=
  let t := Z.max (page * size) 200 in
  if 500 <? t then 500 else t.

Definition max_page_size : Z := 100.

Section Client.
Context {World : Type}.
Variable http_get : World -> request -> World * reply.

(** The world and the log of the requests sent so far. *)
Record state := {
  world : World;
  sent : list request
}.

Definition M (A : Type) : Type := state -> state * outcome A.

Definition ret {A} (a : A) : M A := fun s => (s, Ret a).
Definition raise {A} (e : string) : M A := fun s => (s, Raise e).
Definition out_of_fuel {A} : M A := fun s => (s, Exhausted).

Definition bind {A B} (m : M A) (k : A -> M B) : M B :=
  fun s =>
    match m s with
    | (s', Ret a) => k a s'
    | (s', Raise e) => (s', Raise e)
    | (s', Exhausted) => (s', Exhausted)
    end.

(** [try: m  except Exception as e: h(e)] *)
Definition try_except {A} (m : M A) (h : string -> M A) : M A :=
  fun s =>
    match m s with
    | (s', Raise e) => h e s'
    | r => r
    end.

(** One outbound call: [requests.get(...)], [raise_for_status()],
    [response.json()]. *)
Definition requests_get (req : request) : M data :=
  fun s =>
    let '(w', r) := http_get (world s) req in
    let s' := {| world := w'; sent := sent s ++ [req] |} in
    match r with
    | Failed e => (s', Raise e)
    | Body d => (s', Ret d)
    end.

(** The [while len(all_results) < target_count] loop.  [last] is the
    variable [data], unbound before the first response.  Each round
    that does not leave the loop adds at least [max_page_size] items,
    so the rounds are counted by [fuel]. *)
Fixpoint accumulate (fuel : nat) (endpoint search_type keyword : string)
    (target : Z) (all_results : list Item.item) (current_page : Z)
    (last : option data) : M (list Item.item * option data) :=
  if Z.of_nat (length all_results) <? target then
    match fuel with
    | O => out_of_fuel
    | S fuel' =>
        bind (requests_get
                {| url := endpoint;
                   params := build_params search_type keyword current_page
                               max_page_size "desc" None;
                   timeout := 20 |})
          (fun d =>
             match get_results d with
             | None => ret (all_results, Some d)
             | Some [] => ret (all_results, Some d)
             | Some page_results =>
                 let all_results := all_results ++ page_results in
                 if Z.of_nat (length page_results) <? max_page_size
                 then ret (all_results, Some d)
                 else accumulate fuel' endpoint search_type keyword target
                        all_results (current_page + 1) (Some d)
             end)
    end
  else ret (all_results, last).

(** The text of the [ValueError]; [', '.join(ENDPOINTS)] lists the keys
    in insertion order. *)
Definition invalid_type (search_type : string) : string :=
  String.append "无效的类型 '"
    (String.append search_type
       "'。请使用以下之一: work, author, institution").

Definition search_acemap (search_type keyword : string) (page size : Z)
    (order : string) (sort : option string) : M data :=
  match ENDPOINTS !! search_type with
  | None => raise (invalid_type search_type)
  | Some endpoint =>
      match sort with
      | Some srt =>
          if String.eqb search_type "work" && Py.truthy srt then
            bind (accumulate 5 endpoint search_type keyword
                    (target_count page size) [] 1 None)
              (fun '(all_results, last) =>
                 match last with
                 | None => raise "name 'data' is not defined"
                 | Some final_data =>
                     let all_results := sort_results srt order all_results in
                     let start_idx := (page - 1) * size in
                     let end_idx := start_idx + size in
                     ret (set_results final_data
                            (Py.slice all_results start_idx end_idx))
                 end)
          else
            requests_get
              {| url := endpoint;
                 params := build_params search_type keyword page size order sort;
                 timeout := 15 |}
      | None =>
          requests_get
            {| url := endpoint;
               params := build_params search_type keyword page size order sort;
               timeout := 15 |}
      end
  end.

(** The dictionary [{"work": ..., "author": ..., "institution": ...}]. *)
Record envelope := {
  work : data;
  author : data;
  institution : data
}.

(** [{"error": str(e), "results": []}] *)
Definition stand_in (e : string) : data :=
  {| error := Some e; results := Present []; meta_count := None |}.

Definition search_all (keyword : string) (sort : option string)
    (order : string) : M envelope :=
  bind (try_except (search_acemap "work" keyword 1 5 order sort)
          (fun e => ret (stand_in e)))
    (fun w =>
  bind (try_except (search_acemap "author" keyword 1 3 "desc" None)
          (fun e => ret (stand_in e)))
    (fun a =>
  bind (try_except (search_acemap "institution" keyword 1 3 "desc" None)
          (fun e => ret (stand_in e)))
    (fun i =>
  ret {| work := w; author := a; institution := i |}))).

End Client.

Arguments state World : clear implicits.
Arguments M World A : clear implicits.

End Search.

(* ===================================================================== *)
(** * recall.py *)
(* ===================================================================== *)

Module Recall.
Import Search.

(** A row of the knowledge-graph table [KGManager.df]. *)
Record triple := {
  subject : string;
  relation : string;
  object : string;
  paperid : string
}.

(** ** [collections.Counter]

    The entries are kept in the order of first insertion, which is the
    order [most_common] falls back on among equal counts. *)
Definition counter : Type := list (string * nat).

Fixpoint counter_add (x : string) (c : counter) : counter :=
  match c with
  | [] => [(x, 1%nat)]
  | (y, n) :: c' =>
      if String.eqb x y then (y, S n) :: c' else (y, n) :: counter_add x c'
  end.

Definition Counter (l : list string) : counter :=
  fold_left (fun c x => counter_add x c) l [].

(** [if k in c: del c[k]] *)
Definition counter_del (k : string) (c : counter) : counter :=
  List.filter (fun e => negb (String.eqb (fst e) k)) c.

(** [c.most_common(n)]: the entries by decreasing count, stable, cut to
    the first [n]. *)
Definition most_common (n : Z) (c : counter) : counter :=
  take (Z.to_nat n) (Py.sort_by Nat.leb snd true c).

(** [KGManager.find_related_concepts] *)
Definition find_related_concepts (df : list triple) (keyword : string)
    (top_k : Z) : list string :=
  match df with
  | [] => []
  | _ =>
      let keyword := Py.strip (Py.lower keyword) in
      let mask_sub t := String.eqb (Py.lower (subject t)) keyword in
      let mask_obj t := String.eqb (Py.lower (object t)) keyword in
      let related_from_sub := map object (List.filter mask_sub df) in
      let related_from_obj := map subject (List.filter mask_obj df) in
      let all_related := related_from_sub ++ related_from_obj in
      let all_related :=
        if Z.of_nat (length all_related) <? top_k then
          let mask_sub_contains t := Py.contains keyword (Py.lower (subject t)) in
          let mask_obj_contains t := Py.contains keyword (Py.lower (object t)) in
          let related_from_sub_c := map object (List.filter mask_sub_contains df) in
          let related_from_obj_c := map subject (List.filter mask_obj_contains df) in
          all_related ++ (related_from_sub_c ++ related_from_obj_c)
        else all_related in
      let counter := Counter all_related in
      let counter := counter_del keyword counter in
      map fst (most_common top_k counter)
  end.

(** [item["_source_concept"] = concept] *)
Definition tag (concept : string) (x : Item.item) : Item.item :=
  {| Item.id := Item.id x;
     Item.display_name := Item.display_name x;
     Item.cited_by_count := Item.cited_by_count x;
     Item.publication_date := Item.publication_date x;
     Item.publication_year := Item.publication_year x;
     Item.source_concept := Some concept |}.

(** Step 4 of [search_with_recall]: the items of [expanded_results] whose
    [id] has not been seen are appended to [final_list]. *)
Fixpoint merge (seen_ids : gset (option string))
    (final_list expanded_results : list Item.item) : list Item.item :=
  match expanded_results with
  | [] => final_list
  | item :: rest =>
      if decide (Item.id item ∈ seen_ids)
      then merge seen_ids final_list rest
      else merge ({[Item.id item]} ∪ seen_ids) (final_list ++ [item]) rest
  end.

Record recall := {
  original_keyword : string;
  related_concepts : list string;
  recall_results : list Item.item;
  total_count : Z
}.

Section Client.
Context {World : Type}.
Variable http_get : World -> request -> World * reply.

(** Step 3: the loop over the related concepts.  A concept whose search
    raises, or whose response has [results: null], adds nothing. *)
Fixpoint search_concepts (concepts : list string) (sort : option string)
    (order : string) (expanded_results : list Item.item)
    : M World (list Item.item) :=
  match concepts with
  | [] => ret expanded_results
  | concept :: rest =>
      bind
        (try_except
           (bind (search_acemap http_get "work" concept 1 2 order sort)
              (fun res =>
                 match get_results res with
                 | None => raise "'NoneType' object is not iterable"
                 | Some items =>
                     ret (expanded_results ++ map (tag concept) items)
                 end))
           (fun e => ret expanded_results))
        (fun expanded_results =>
           search_concepts rest sort order expanded_results)
  end.

Definition search_with_recall (keyword : string) (df : list triple)
    (sort : option string) (order : string) : M World recall :=
  bind (try_except (search_acemap http_get "work" keyword 1 5 order sort)
          (fun e =>
             ret {| error := None; results := Present [];
                    meta_count := None |}))
    (fun original_results =>
       let related_concepts := find_related_concepts df keyword 3 in
       bind (search_concepts related_concepts sort order [])
         (fun expanded_results =>
            match get_results original_results with
            | None => raise "'NoneType' object is not iterable"
            | Some final_list =>
                let seen_ids : gset (option string) :=
                  list_to_set (map Item.id final_list) in
                let final_list := merge seen_ids final_list expanded_results in
                ret {| original_keyword := keyword;
                       related_concepts := related_concepts;
                       recall_results := final_list;
                       total_count := Z.of_nat (length final_list) |}
            end)).

End Client.

End Recall.

(* ===================================================================== *)
(** * app.py: the enhanced work channel *)
(* ===================================================================== *)

Module App.
Import Search.

(** The second copy of [date_key], local to the page script. *)
Definition date_key (reverse : bool) (x : Item.item) : string :=
  let sentinel : string := if reverse then "9999" else "0000" in
  match Item.publication_date x with
  | Some d =>
      if Py.truthy d then d
      else let y := Item.publication_year x in sentinel
  | None => let y := Item.publication_year x in sentinel
  end.

(** [if sort_param: ...] applied to [recall_data.get("results", [])]. *)
Definition enhanced_work_items (sort_param : option string)
    (order_param : string) (recall_data : Recall.recall) : list Item.item :=
  let enhanced_work_items := Recall.recall_results recall_data in
  match sort_param with
  | None => enhanced_work_items
  | Some s =>
      if Py.truthy s then
        let reverse := String.eqb order_param "desc" in
        if String.eqb s "cited_by_count" then
          Py.sort_by Z.leb citation_key reverse enhanced_work_items
        else if String.eqb s "publication_date" then
          Py.sort_by String.leb (date_key reverse) reverse enhanced_work_items
        else enhanced_work_items
      else enhanced_work_items
  end.

Section Client.
Context {World : Type}.
Variable http_get : World -> request -> World * reply.

(** The work channel of the page: the recall search, then the re-sort
    of what it returned. *)
Definition enhanced_search (search_keyword : string)
    (df : list Recall.triple) (sort_param : option string)
    (order_param : string) : M World (list Item.item) :=
  bind (Recall.search_with_recall http_get search_keyword df sort_param
          order_param)
    (fun recall_data =>
       ret (enhanced_work_items sort_param order_param recall_data)).
End Client.

End App.

(* ===================================================================== *)
(** * Test upstreams *)
(* ===================================================================== *)

(** Small deterministic upstreams, used to run the pipeline on concrete
    inputs.  The world is the number of requests served so far. *)
Module Fixture.
Import Search.

Definition paper (i : string) (cited : option Z) (date : option string)
    (year : option Z) : Item.item :=
  {| Item.id := Some i;
     Item.display_name := None;
     Item.cited_by_count := cited;
     Item.publication_date := date;
     Item.publication_year := year;
     Item.source_concept := None |}.

Definition page_of (l : list Item.item) : reply :=
  Body {| error := None; results := Present l;
          meta_count := Some (Z.of_nat (length l)) |}.

Definition keyword_of (req : request) : string :=
  match params req !! "keyword" with
  | Some (PStr k) => k
  | _ => ""
  end.

(** An upstream that answers by keyword alone. *)
Definition by_keyword (answer : string -> reply) (w : nat) (req : request)
    : nat * reply :=
  (S w, answer (keyword_of req)).

Definition start : state nat := {| world := O; sent := [] |}.

(** Every page is full: one hundred copies of the same paper. *)
Definition endless (w : nat) (req : request) : nat * reply :=
  (S w, page_of (repeat (paper "w" (Some 1) None None) 100)).

(** "rock" yields one paper cited 5 times, "mineral" one cited 10 times. *)
Definition rocks (k : string) : reply :=
  if String.eqb k "rock" then page_of [paper "a" (Some 5) None None]
  else if String.eqb k "mineral" then page_of [paper "b" (Some 10) None None]
  else page_of [].

Definition rock_graph : list Recall.triple :=
  [ {| Recall.subject := "rock"; Recall.relation := "relates_to";
       Recall.object := "mineral"; Recall.paperid := "p1" |} ].

(** The original search answers twice the same paper. *)
Definition twice (k : string) : reply :=
  page_of [paper "w1" (Some 1) None None; paper "w1" (Some 1) None None].

(** The institution endpoint fails, the others answer. *)
Definition no_institution (w : nat) (req : request) : nat * reply :=
  (S w,
   if String.eqb (url req) (String.append API_BASE "/institution/search")
   then Failed "UpstreamError"
   else page_of [paper "a" (Some 5) None None]).

Definition dated : Item.item :=
  paper "d" None (Some "2020-01-01") (Some 2020).
Definition undated : Item.item := paper "u" None None (Some 1999).

(** The scenario of the specification for the neighbour index. *)
Definition scenario : list Recall.triple :=
  [ {| Recall.subject := "rock"; Recall.relation := "relates_to";
       Recall.object := "plate tectonics"; Recall.paperid := "p1" |};
    {| Recall.subject := "mineral"; Recall.relation := "relates_to";
       Recall.object := "rock"; Recall.paperid := "p2" |} ].

(** A table that spells a concept with a capital. *)
Definition capital : list Recall.triple :=
  [ {| Recall.subject := "Rock"; Recall.relation := "relates_to";
       Recall.object := "rocks"; Recall.paperid := "p1" |} ].

End Fixture.

(* ===================================================================== *)
(** * Vocabulary of the statements *)
(* ===================================================================== *)

Module Spec.
Import Search.

(** The item carries a usable [publication_date]. *)
Definition has_date (x : Item.item) : bool :=
  match Item.publication_date x with
  | Some d => Py.truthy d
  | None => false
  end.

Definition lacks_date (x : Item.item) : bool := negb (has_date x).

Definition date_of (x : Item.item) : string :=
  default EmptyString (Item.publication_date x).

Definition with_year (y : option Z) (x : Item.item) : Item.item :=
  {| Item.id := Item.id x;
     Item.display_name := Item.display_name x;
     Item.cited_by_count := Item.cited_by_count x;
     Item.publication_date := Item.publication_date x;
     Item.publication_year := y;
     Item.source_concept := Item.source_concept x |}.

(** The key given to an item without a date. *)
Definition sentinel (reverse : bool) : string :=
  if reverse then "9999" else "0000".

(** The comparison the date sort runs on. *)
Definition date_le (reverse : bool) (a b : Item.item) : bool :=
  if reverse then String.leb (date_key reverse b) (date_key reverse a)
  else String.leb (date_key reverse a) (date_key reverse b).

(** Above the sentinel: what every ISO date is. *)
Definition above_zero (x : Item.item) : Prop :=
  has_date x = true -> String.ltb "0000" (date_of x) = true.

(** No item without a date stands in front of an item with one. *)
Fixpoint dateless_last (l : list Item.item) : bool :=
  match l with
  | [] => true
  | x :: l' =>
      if has_date x then dateless_last l' else forallb lacks_date l'
  end.

(** No item with a date stands in front of an item without one. *)
Fixpoint dateless_first (l : list Item.item) : bool :=
  match l with
  | [] => true
  | x :: l' =>
      if has_date x then forallb has_date l' else dateless_first l'
  end.

Definition non_increasing (key : Item.item -> Z) (l : list Item.item) : Prop :=
  StronglySorted (fun a b => key b <= key a) l.

Definition non_decreasing_dates (l : list Item.item) : Prop :=
  StronglySorted (fun a b => String.leb (date_of a) (date_of b) = true) l.

Definition ids (l : list Item.item) : list (option string) :=
  map Item.id l.

(** The item carries a provenance tag naming one of [concepts]. *)
Definition tagged_from (concepts : list string) (x : Item.item) : Prop :=
  exists c, In c concepts /\ Item.source_concept x = Some c.

(** What a request asks of the server about ordering. *)
Definition asks_sort (req : request) : option pvalue := params req !! "sort".
Definition asks_order (req : request) : option pvalue := params req !! "order".

(** A reply carries at most [n] items. *)
Definition page_within (n : Z) (r : reply) : Prop :=
  match r with
  | Body d =>
      match get_results d with
      | Some l => Z.of_nat (length l) <= n
      | None => True
      end
  | Failed _ => True
  end.

(** What [search_all] keeps of a channel: the dictionary the search
    returned, or the stand-in carrying the text of the exception. *)
Inductive captured : outcome data -> data -> Prop :=
| captured_ret (d : data) : captured (Ret d) d
| captured_raise (e : string) : captured (Raise e) (stand_in e).

End Spec.

(* ===================================================================== *)
(** * app.py: the page *)
(* ===================================================================== *)

Module Page.
Import Search.

(** [sort_map.get(sort_option, (None, "desc"))] *)
Definition sort_map (sort_option : string) : option string * string :=
  if String.eqb sort_option "最佳匹配" then (None, "desc")
  else if String.eqb sort_option "引用最多" then (Some "cited_by_count", "desc")
  else if String.eqb sort_option "引用最少" then (Some "cited_by_count", "asc")
  else if String.eqb sort_option "最新发表" then (Some "publication_date", "desc")
  else if String.eqb sort_option "最早发表" then (Some "publication_date", "asc")
  else (None, "desc").

(** What the tabs are drawn from: [all_results] and [related_concepts]. *)
Record shown := {
  all_results : envelope;
  related_concepts : list string
}.

Section Client.
Context {World : Type}.
Variable http_get : World -> request -> World * reply.

(** The body of [if keyword:], without the drawing: the aggregate search,
    the recall search, and the work channel replaced by the recalled and
    re-sorted items.  [None] when the keyword is empty. *)
Definition run (keyword : string) (df : list Recall.triple)
    (sort_option : string) : M World (option shown) :=
  if Py.truthy keyword then
    let parsed_intent := Intent.parse keyword in
    let search_keyword := Intent.keyword parsed_intent in
    let '(sort_param, order_param) := sort_map sort_option in
    bind (search_all http_get search_keyword sort_param order_param)
      (fun all_results =>
    bind (Recall.search_with_recall http_get search_keyword df sort_param
            order_param)
      (fun recall_data =>
         let enhanced_work_items :=
           App.enhanced_work_items sort_param order_param recall_data in
         ret (Some
                {| all_results :=
                     {| work :=
                          {| error := None;
                             results := Present enhanced_work_items;
                             meta_count :=
                               Some (Z.of_nat (length enhanced_work_items)) |};
                        author := author all_results;
                        institution := institution all_results |};
                   related_concepts := Recall.related_concepts recall_data |})))
  else ret None.

End Client.

End Page.

(* ===================================================================== *)
(** * Further vocabulary *)
(* ===================================================================== *)

Module Terms.
Import Search.

(** Truthiness of [sort: str = None]. *)
Definition sort_given (sort : option string) : bool :=
  match sort with Some s => Py.truthy s | None => false end.

(** The request of the ranker for page [p]. *)
Definition loop_request (keyword : string) (p : Z) : request :=
  {| url := String.append API_BASE "/work/search";
     params := build_params "work" keyword p max_page_size "desc" None;
     timeout := 20 |}.

(** The request of a search that is passed through. *)
Definition plain_request (endpoint search_type keyword : string) (page size : Z)
    (order : string) (sort : option string) : request :=
  {| url := endpoint;
     params := build_params search_type keyword page size order sort;
     timeout := 15 |}.

(** The outcome of a single call, as [requests_get] reports it. *)
Definition outcome_of (r : reply) : outcome data :=
  match r with
  | Failed e => Raise e
  | Body d => Ret d
  end.

(** The item was in the results of some response of the upstream. *)
Definition from_upstream {World : Type}
    (http_get : World -> request -> World * reply) (x : Item.item) : Prop :=
  exists w req w' d l,
    http_get w req = (w', Body d) /\ get_results d = Some l /\ In x l.

(** The response is one the upstream gave. *)
Definition upstream_body {World : Type}
    (http_get : World -> request -> World * reply) (last : option data) : Prop :=
  exists d w req w', last = Some d /\ http_get w req = (w', Body d).

Definition non_decreasing (key : Item.item -> Z) (l : list Item.item) : Prop :=
  StronglySorted (fun a b => key a <= key b) l.

(** The keys of the date sort are in order, in the direction asked for. *)
Definition date_ordered (reverse : bool) (l : list Item.item) : Prop :=
  StronglySorted (fun a b => Spec.date_le reverse a b = true) l.

Definition non_increasing_dates (l : list Item.item) : Prop :=
  StronglySorted
    (fun a b => String.leb (Spec.date_of b) (Spec.date_of a) = true) l.

(** The items with the date [d], and those with the citation count [k]. *)
Definition dated_on (d : string) (x : Item.item) : bool :=
  Spec.has_date x && String.eqb (Spec.date_of x) d.

Definition cited (k : Z) (x : Item.item) : bool := citation_key x =? k.

(** Below the sentinel of the descending sort. *)
Definition below_nines (x : Item.item) : Prop :=
  Spec.has_date x = true -> String.ltb (Spec.date_of x) "9999" = true.

(** [c[x]], which is 0 for a key that is not there. *)
Fixpoint counter_get (c : Recall.counter) (x : string) : nat :=
  match c with
  | [] => O
  | (y, n) :: c' => if String.eqb x y then n else counter_get c' x
  end.

Definition occurrences (l : list string) (x : string) : nat :=
  count_occ string_dec l x.

(** The keyword as the index compares it. *)
Definition normalised (keyword : string) : string :=
  Py.strip (Py.lower keyword).

(** The neighbours of exact matches, and those of substring matches, of an
    already normalised keyword. *)
Definition exact_neighbours (df : list Recall.triple) (k : string)
    : list string :=
  map Recall.object
    (List.filter (fun t => String.eqb (Py.lower (Recall.subject t)) k) df)
  ++ map Recall.subject
       (List.filter (fun t => String.eqb (Py.lower (Recall.object t)) k) df).

Definition substring_neighbours (df : list Recall.triple) (k : string)
    : list string :=
  map Recall.object
    (List.filter (fun t => Py.contains k (Py.lower (Recall.subject t))) df)
  ++ map Recall.subject
       (List.filter (fun t => Py.contains k (Py.lower (Recall.object t))) df).

(** The list [all_related] that is counted. *)
Definition candidates (df : list Recall.triple) (keyword : string) (top_k : Z)
    : list string :=
  let k := normalised keyword in
  let exact := exact_neighbours df k in
  if Z.of_nat (length exact) <? top_k
  then exact ++ substring_neighbours df k
  else exact.

(** [c] is the other end of a triple one end of which holds [k]. *)
Definition linked (df : list Recall.triple) (k c : string) : Prop :=
  exists t, In t df
    /\ ((c = Recall.object t
         /\ Py.contains k (Py.lower (Recall.subject t)) = true)
        \/ (c = Recall.subject t
            /\ Py.contains k (Py.lower (Recall.object t)) = true)).

Definition exactly_linked (df : list Recall.triple) (k c : string) : Prop :=
  exists t, In t df
    /\ ((c = Recall.object t /\ Py.lower (Recall.subject t) = k)
        \/ (c = Recall.subject t /\ Py.lower (Recall.object t) = k)).

(** The string does not begin with white space. *)
Definition starts_clean (s : string) : bool :=
  match s with
  | EmptyString => true
  | String c _ => negb (Py.isspace c)
  end.




(** An upstream that is down for every request. *)
Definition down (e : string) (w : nat) (req : request) : nat * reply :=
  (S w, Failed e).

(** An upstream whose only page is short. *)
Definition one_page (l : list Item.item) (w : nat) (req : request)
    : nat * reply :=
  (S w, Body {| error := None; results := Present l;
               meta_count := Some (Z.of_nat (length l)) |}).

End Terms.

(* ===================================================================== *)
(** * The neighbour answers and the replies, as the specification tells them *)
(* ===================================================================== *)

(** Definitions that follow the words of the specification, to compare the
    code with: the recall step "for each neighbour concept, query the
    client; failures are skipped; tag each item with its concept", the
    merge rule "first seen wins", and the replies of the upstream to a
    sequence of requests. *)
Module Answers.
Import Search.

(** What one neighbour search contributes: its results, each tagged with
    the concept; nothing when the search raised or gave no list. *)
Definition contribution (concept : string) (o : outcome data)
    : list Item.item :=
  match o with
  | Ret d =>
      match get_results d with
      | Some items => map (Recall.tag concept) items
      | None => []
      end
  | _ => []
  end.

(** The first item of [l] that carries the id [i]. *)
Definition first_with_id (i : option string) (l : list Item.item)
    : option Item.item :=
  List.find (fun y => bool_decide (Item.id y = i)) l.

(** The items of a response: [data.get("results", [])], nothing for
    [null]. *)
Definition page_items (d : data) : list Item.item :=
  default [] (get_results d).

Section Client.
Context {World : Type}.
Variable http_get : World -> request -> World * reply.

(** The answers for the concepts, one search after the other, each in the
    state the one before left; and the state after the last. *)
Fixpoint neighbour_answers (concepts : list string) (sort : option string)
    (order : string) (s : state World) : list Item.item * state World :=
  match concepts with
  | [] => ([], s)
  | concept :: rest =>
      let r := search_acemap http_get "work" concept 1 2 order sort s in
      let '(l, s') := neighbour_answers rest sort order (fst r) in
      (contribution concept (snd r) ++ l, s')
  end.

(** The replies of the upstream to the requests, sent in turn from the
    world [w], and the world after the last. *)
Fixpoint replay (w : World) (reqs : list request) : World * list reply :=
  match reqs with
  | [] => (w, [])
  | req :: rest =>
      let '(w1, r) := http_get w req in
      let '(w2, rs) := replay w1 rest in
      (w2, r :: rs)
  end.

End Client.


(** A table with two neighbours of "rock", and an upstream whose answers
    for them repeat a paper of the keyword and a paper of each other. *)
Definition quarry_graph : list Recall.triple :=
  [ {| Recall.subject := "rock"; Recall.relation := "relates_to";
       Recall.object := "mineral"; Recall.paperid := "p1" |};
    {| Recall.subject := "rock"; Recall.relation := "relates_to";
       Recall.object := "granite"; Recall.paperid := "p2" |} ].

Definition quarry (k : string) : reply :=
  if String.eqb k "rock" then
    Fixture.page_of [Fixture.paper "a" (Some 5) None None]
  else if String.eqb k "mineral" then
    Fixture.page_of [Fixture.paper "a" (Some 7) None None;
                     Fixture.paper "b" (Some 10) None None]
  else if String.eqb k "granite" then
    Fixture.page_of [Fixture.paper "b" (Some 3) None None;
                     Fixture.paper "c" (Some 1) None None]
  else Fixture.page_of [].

(** An upstream with two pages: the first is full and announces 101
    papers, the second holds the last paper and announces 1. *)
Definition two_pages (w : nat) (req : request) : nat * reply :=
  (S w,
   if Nat.eqb w 0 then
     Body {| error := None;
             results :=
               Present (repeat (Fixture.paper "w" (Some 1) None None) 100);
             meta_count := Some 101 |}
   else
     Body {| error := None;
             results := Present [Fixture.paper "z" (Some 9) None None];
             meta_count := Some 1 |}).

End Answers.

(* ===================================================================== *)
(** * Facts about the stable sort *)
(* ===================================================================== *)

Section SortFacts.
Context {A : Type} (le : A -> A -> bool).

Lemma insert_perm (x : A) (l : list A) :
  Permutation (Py.insert le x l) (x :: l).
Proof.
  induction l as [|y l IH]; simpl; [reflexivity|].
  destruct (le x y); [reflexivity|].
  rewrite IH. apply perm_swap.
Qed.

Lemma stable_sort_perm (l : list A) : Permutation (Py.stable_sort le l) l.
Proof.
  induction l as [|x l IH]; simpl; [reflexivity|].
  rewrite insert_perm. now constructor.
Qed.

Lemma stable_sort_length (l : list A) :
  length (Py.stable_sort le l) = length l.
Proof. apply Permutation_length, stable_sort_perm. Qed.

(** An element that is below the whole list goes to its front. *)
Lemma insert_front (x : A) (l : list A) :
  Forall (fun y => le x y = true) l -> Py.insert le x l = x :: l.
Proof.
  destruct l as [|y l]; simpl; [reflexivity|].
  intros H. inversion H as [|? ? Hy _]; subst. now rewrite Hy.
Qed.

(** An element passes over a prefix that it is not below. *)
Lemma insert_pass (x : A) (l1 l2 : list A) :
  Forall (fun y => le x y = false) l1 ->
  Py.insert le x (l1 ++ l2) = l1 ++ Py.insert le x l2.
Proof.
  induction 1 as [|y l1 Hy _ IH]; simpl; [reflexivity|].
  now rewrite Hy, IH.
Qed.

(** Stability: a class of items that are pairwise in relation keeps its
    order of arrival. *)
Lemma insert_filter (P : A -> bool) (x : A) (l : list A) :
  (forall a b, P a = true -> P b = true -> le a b = true) ->
  List.filter P (Py.insert le x l) = List.filter P (x :: l).
Proof.
  intros HP. induction l as [|y l IH]; [reflexivity|].
  cbn [Py.insert]. destruct (le x y) eqn:Hxy; [reflexivity|].
  cbn [List.filter] in *. rewrite IH.
  destruct (P x) eqn:Hx, (P y) eqn:Hy; try reflexivity.
  rewrite (HP x y Hx Hy) in Hxy. discriminate.
Qed.

Lemma stable_sort_filter (P : A -> bool) (l : list A) :
  (forall a b, P a = true -> P b = true -> le a b = true) ->
  List.filter P (Py.stable_sort le l) = List.filter P l.
Proof.
  intros HP. induction l as [|x l IH]; [reflexivity|].
  cbn [Py.stable_sort]. rewrite insert_filter by exact HP.
  cbn [List.filter]. now rewrite IH.
Qed.

Section Total.
Hypothesis le_total : forall a b, le a b = false -> le b a = true.

Lemma insert_hdrel (x a : A) (l : list A) :
  le a x = true ->
  HdRel (fun a b => le a b = true) a l ->
  HdRel (fun a b => le a b = true) a (Py.insert le x l).
Proof.
  intros Hax Hl. destruct l as [|y l]; simpl.
  - now constructor.
  - destruct (le x y); constructor; [assumption|].
    now inversion Hl.
Qed.

Lemma insert_sorted (x : A) (l : list A) :
  Sorted (fun a b => le a b = true) l ->
  Sorted (fun a b => le a b = true) (Py.insert le x l).
Proof.
  induction 1 as [|y l Hs IH Hhd]; simpl.
  - repeat constructor.
  - destruct (le x y) eqn:Hxy.
    + constructor; [now constructor|now constructor].
    + constructor; [exact IH|].
      apply insert_hdrel; [now apply le_total|exact Hhd].
Qed.

Lemma stable_sort_sorted (l : list A) :
  Sorted (fun a b => le a b = true) (Py.stable_sort le l).
Proof.
  induction l as [|x l IH]; simpl; [constructor|].
  now apply insert_sorted.
Qed.
End Total.

End SortFacts.

(** Renaming the items by a map under which the order is unchanged commutes
    with the sort. *)
Lemma insert_map {A B : Type} (le : A -> A -> bool) (le' : B -> B -> bool)
    (f : A -> B) (x : A) (l : list A) :
  (forall a b, le' (f a) (f b) = le a b) ->
  Py.insert le' (f x) (map f l) = map f (Py.insert le x l).
Proof.
  intros H. induction l as [|y l IH]; simpl; [reflexivity|].
  rewrite H. destruct (le x y); simpl; [reflexivity|]. now rewrite IH.
Qed.

Lemma stable_sort_map {A B : Type} (le : A -> A -> bool) (le' : B -> B -> bool)
    (f : A -> B) (l : list A) :
  (forall a b, le' (f a) (f b) = le a b) ->
  Py.stable_sort le' (map f l) = map f (Py.stable_sort le l).
Proof.
  intros H. induction l as [|x l IH]; simpl; [reflexivity|].
  rewrite IH. now apply insert_map.
Qed.

(* ===================================================================== *)
(** * The order on strings *)
(* ===================================================================== *)

Lemma leb_refl (s : string) : String.leb s s = true.
Proof.
  destruct (String.leb_total s s) as [H|H]; exact H.
Qed.

Lemma leb_false_flip (a b : string) :
  String.leb a b = false -> String.leb b a = true.
Proof.
  intros H. destruct (String.leb_total a b) as [H'|H']; congruence.
Qed.

Lemma leb_trans (a b c : string) :
  String.leb a b = true -> String.leb b c = true -> String.leb a c = true.
Proof.
  intros Hab Hbc. apply Is_true_true.
  apply Is_true_true in Hab, Hbc.
  exact (@transitivity _ String.le _ a b c Hab Hbc).
Qed.

Lemma ltb_leb (a b : string) : String.ltb a b = true -> String.leb a b = true.
Proof.
  unfold String.ltb, String.leb. destruct (String.compare a b); congruence.
Qed.

Lemma ltb_not_leb (a b : string) :
  String.ltb a b = true -> String.leb b a = false.
Proof.
  unfold String.ltb, String.leb. rewrite (String.compare_antisym b a).
  destruct (String.compare a b); simpl; congruence.
Qed.

Lemma zleb_false_flip (a b : Z) : Z.leb a b = false -> Z.leb b a = true.
Proof. intros H. apply Z.leb_gt in H. apply Z.leb_le. lia. Qed.

(* ===================================================================== *)
(** * The date comparator *)
(* ===================================================================== *)

Section DateSort.
Import Search Spec.

Lemma date_key_cases (reverse : bool) (x : Item.item) :
  date_key reverse x = if has_date x then date_of x else sentinel reverse.
Proof.
  unfold date_key, has_date, date_of, sentinel.
  destruct (Item.publication_date x) as [d|]; simpl; [|reflexivity].
  destruct (Py.truthy d); reflexivity.
Qed.

Lemma date_key_with_year (reverse : bool) (y : option Z) (x : Item.item) :
  date_key reverse (with_year y x) = date_key reverse x.
Proof. reflexivity. Qed.

Lemma sort_results_date (order : string) (l : list Item.item) :
  sort_results "publication_date" order l =
  Py.stable_sort (date_le (String.eqb order "desc")) l.
Proof.
  unfold sort_results, Py.sort_by, date_le. simpl.
  destruct (String.eqb order "desc"); reflexivity.
Qed.

Lemma date_le_total (reverse : bool) (a b : Item.item) :
  date_le reverse a b = false -> date_le reverse b a = true.
Proof. unfold date_le. destruct reverse; apply leb_false_flip. Qed.

Lemma date_le_dateless (reverse : bool) (a b : Item.item) :
  lacks_date a = true -> lacks_date b = true -> date_le reverse a b = true.
Proof.
  unfold lacks_date, date_le. intros Ha Hb.
  apply negb_true_iff in Ha, Hb.
  rewrite !date_key_cases, Ha, Hb. destruct reverse; apply leb_refl.
Qed.

Lemma filter_none {A : Type} (P : A -> bool) (l : list A) :
  Forall (fun x => P x = false) l -> List.filter P l = [].
Proof. induction 1 as [|x l Hx _ IH]; simpl; [|rewrite Hx]; auto. Qed.

Lemma filter_all {A : Type} (P : A -> bool) (l : list A) :
  Forall (fun x => P x = true) l -> List.filter P l = l.
Proof.
  induction 1 as [|x l Hx _ IH]; simpl; [|rewrite Hx, IH]; auto.
Qed.

Lemma filter_holds {A : Type} (P : A -> bool) (l : list A) :
  Forall (fun x => P x = true) (List.filter P l).
Proof.
  induction l as [|x l IH]; simpl; [constructor|].
  destruct (P x) eqn:Hx; [constructor|]; assumption.
Qed.

Lemma filter_keeps {A : Type} (P : A -> bool) (Q : A -> Prop) (l : list A) :
  Forall Q l -> Forall Q (List.filter P l).
Proof.
  induction 1 as [|x l Hx _ IH]; simpl; [constructor|].
  destruct (P x); [constructor|]; assumption.
Qed.

(** Ascending, the items without a date come first, in the order they
    arrived, and the sort of the others follows. *)
Lemma asc_split (l : list Item.item) :
  Forall above_zero l ->
  Py.stable_sort (date_le false) l =
  List.filter lacks_date l ++ Py.stable_sort (date_le false) (List.filter has_date l).
Proof.
  induction 1 as [|x l Hx Hl IH]; [reflexivity|].
  cbn [Py.stable_sort List.filter]. rewrite IH.
  change (lacks_date x) with (negb (has_date x)).
  destruct (has_date x) eqn:Hd; cbn [negb Py.stable_sort].
  - apply insert_pass. eapply List.Forall_impl; [|apply filter_holds].
    intros d Hdl. unfold date_le. apply negb_true_iff in Hdl.
    rewrite !date_key_cases, Hd, Hdl. apply ltb_not_leb, Hx, Hd.
  - apply insert_front. apply List.Forall_app. split.
    + eapply List.Forall_impl; [|apply filter_holds].
      intros d Hdl. apply date_le_dateless; [|exact Hdl].
      unfold lacks_date. now rewrite Hd.
    + eapply Permutation_Forall;
        [apply Permutation_sym, stable_sort_perm|].
      eapply List.Forall_impl;
        [|apply List.Forall_and; [apply filter_holds
                            |apply (filter_keeps has_date _ _ Hl)]].
      intros d [Hdd Hdz]. unfold date_le.
      rewrite !date_key_cases, Hd, Hdd. apply ltb_leb, Hdz, Hdd.
Qed.

Lemma dateless_first_app (l1 l2 : list Item.item) :
  Forall (fun x => lacks_date x = true) l1 ->
  Forall (fun x => has_date x = true) l2 ->
  dateless_first (l1 ++ l2) = true.
Proof.
  intros H1 H2. induction H1 as [|x l1 Hx _ IH]; simpl.
  - destruct l2 as [|y l2]; [reflexivity|]. simpl.
    inversion H2 as [|? ? Hy Hl2]; subst. rewrite Hy.
    apply forallb_forall. now apply List.Forall_forall.
  - unfold lacks_date in Hx. apply negb_true_iff in Hx. now rewrite Hx.
Qed.

Lemma sorted_keys_dates (l : list Item.item) :
  Forall (fun x => has_date x = true) l ->
  Sorted (fun a b => date_le false a b = true) l ->
  non_decreasing_dates l.
Proof.
  intros Hd Hs. unfold non_decreasing_dates.
  apply Sorted_StronglySorted in Hs.
  - induction Hs as [|x l Hs IH Hx]; [constructor|].
    inversion Hd as [|? ? Hdx Hdl]; subst.
    constructor; [now apply IH|].
    eapply List.Forall_impl; [|exact (List.Forall_and Hx Hdl)].
    intros y [Hy Hdy]. unfold date_le in Hy.
    now rewrite !date_key_cases, Hdx, Hdy in Hy.
  - intros a b c. unfold date_le. apply leb_trans.
Qed.

End DateSort.

Section Ranker.
Import Search Spec.

Lemma strongly_sorted_weaken {A : Type} (R R' : A -> A -> Prop) (l : list A) :
  (forall a b, R a b -> R' a b) -> StronglySorted R l -> StronglySorted R' l.
Proof.
  intros HR. induction 1 as [|x l _ IH Hx]; constructor; [exact IH|].
  eapply List.Forall_impl; [|exact Hx]. intros b. apply HR.
Qed.

Lemma sort_results_perm (sort order : string) (l : list Item.item) :
  Permutation (sort_results sort order l) l.
Proof.
  unfold sort_results, Py.sort_by.
  destruct (String.eqb sort "cited_by_count"); [apply stable_sort_perm|].
  destruct (String.eqb sort "publication_date"); [apply stable_sort_perm|].
  reflexivity.
Qed.

(** The citation sort in descending order leaves no item in front of one
    that is cited more. *)
Lemma citation_desc_sorted (l : list Item.item) :
  non_increasing citation_key (Py.sort_by Z.leb citation_key true l).
Proof.
  unfold non_increasing, Py.sort_by.
  eapply strongly_sorted_weaken;
    [|apply Sorted_StronglySorted;
      [|apply stable_sort_sorted; intros a b; apply zleb_false_flip]].
  - intros a b H. now apply Z.leb_le.
  - intros a b c Hab Hbc. apply Z.leb_le in Hab, Hbc. apply Z.leb_le. lia.
Qed.

(** C1, as amended: sorting by date in ascending order puts the items that
    lack a [publication_date] first, under the sentinel key ["0000"] and in
    the order they arrived; the items that carry a date follow them in
    non-decreasing order of [publication_date].  The dates are taken to lie
    above ["0000"], as every ISO date does. *)
Theorem date_asc_dateless_first (l : list Item.item) :
  Forall above_zero l ->
  let out := sort_results "publication_date" "asc" l in
  out = List.filter lacks_date l ++ List.filter has_date out
  /\ Forall (fun x => date_key false x = "0000") (List.filter lacks_date l)
  /\ non_decreasing_dates (List.filter has_date out)
  /\ dateless_first out = true
  /\ Permutation out l.
Proof.
  intros Hl out.
  assert (Hout : out = List.filter lacks_date l ++
                       Py.stable_sort (date_le false) (List.filter has_date l)).
  { subst out. rewrite sort_results_date. now apply asc_split. }
  assert (Hdated : Forall (fun x => has_date x = true)
                     (Py.stable_sort (date_le false) (List.filter has_date l))).
  { eapply Permutation_Forall; [apply Permutation_sym, stable_sort_perm|].
    apply filter_holds. }
  assert (Hnone : Forall (fun x => has_date x = false) (List.filter lacks_date l)).
  { eapply List.Forall_impl; [|apply filter_holds].
    intros x Hx. now apply negb_true_iff. }
  assert (Hfilter : List.filter has_date out =
                    Py.stable_sort (date_le false) (List.filter has_date l)).
  { rewrite Hout, List.filter_app, (filter_none _ _ Hnone), (filter_all _ _ Hdated).
    reflexivity. }
  rewrite Hfilter. repeat split.
  - exact Hout.
  - eapply List.Forall_impl; [|exact Hnone].
    intros x Hx. now rewrite date_key_cases, Hx.
  - apply sorted_keys_dates; [exact Hdated|].
    apply stable_sort_sorted. apply date_le_total.
  - rewrite Hout. apply dateless_first_app; [apply filter_holds|exact Hdated].
  - subst out. apply sort_results_perm.
Qed.

Lemma date_asc_dateless_first_witness :
  Forall above_zero [Fixture.dated; Fixture.undated]
  /\ sort_results "publication_date" "asc" [Fixture.dated; Fixture.undated]
     = [Fixture.undated; Fixture.dated].
Proof.
  assert (H : Forall above_zero [Fixture.dated; Fixture.undated]).
  { constructor 2; [intros _; reflexivity|].
    constructor 2; [intros H; discriminate H|]. constructor 1. }
  split; [exact H|].
  destruct (date_asc_dateless_first _ H) as [Hout _].
  rewrite Hout. reflexivity.
Defined.

(** C1, as first stated, does not hold: with one dated and one undated item
    the undated one is put in front of the dated one, in ascending order
    as in descending order, so it is at the tail in neither. *)
Lemma dateless_not_last :
  dateless_last
    (sort_results "publication_date" "asc" [Fixture.dated; Fixture.undated])
  = false
  /\ dateless_last
       (sort_results "publication_date" "desc" [Fixture.dated; Fixture.undated])
     = false.
Proof. split; reflexivity. Qed.

(** C10: [publication_year] never moves an item in the date sort.  Changing
    the years of the items in any way commutes with the sort; the items
    that lack a date leave the sort in the order they entered it; the key
    of an item is its date or else the sentinel, so two items that lack a
    date have equal keys whatever their years. *)
Theorem date_sort_ignores_year (order : string) (l : list Item.item)
    (f : Item.item -> option Z) (reverse : bool) (x y : Item.item) :
  sort_results "publication_date" order (map (fun x => with_year (f x) x) l)
  = map (fun x => with_year (f x) x) (sort_results "publication_date" order l)
  /\ List.filter lacks_date (sort_results "publication_date" order l)
     = List.filter lacks_date l
  /\ date_key reverse x = (if has_date x then date_of x else sentinel reverse)
  /\ implb (lacks_date x && lacks_date y)
       (String.eqb (date_key reverse x) (date_key reverse y)) = true.
Proof.
  repeat split.
  - rewrite !sort_results_date. apply stable_sort_map. reflexivity.
  - rewrite sort_results_date. apply stable_sort_filter.
    intros a b. apply date_le_dateless.
  - apply date_key_cases.
  - rewrite !date_key_cases. unfold lacks_date.
    destruct (has_date x), (has_date y); simpl; try reflexivity.
    apply String.eqb_refl.
Qed.

End Ranker.

(* ===================================================================== *)
(** * The remote search client and the ranker's loop *)
(* ===================================================================== *)

Section ClientFacts.
Import Search Spec.
Context {World : Type}.
Variable http_get : World -> request -> World * reply.

(** The request of one round of the loop. *)
Lemma loop_request_order (search_type keyword : string) (p : Z) :
  search_type = "work" ->
  build_params search_type keyword p max_page_size "desc" None !! "sort" = None
  /\ build_params search_type keyword p max_page_size "desc" None !! "order"
     = Some (PStr "desc").
Proof. intros ->. split; reflexivity. Qed.

(** One round of the loop, spelled out. *)
Lemma accumulate_round (f : nat) (e st kw : string) (t : Z)
    (all : list Item.item) (p : Z) (last : option data) (s : state World) :
  accumulate http_get (S f) e st kw t all p last s =
  if Z.of_nat (length all) <? t then
    let req := {| url := e;
                  params := build_params st kw p max_page_size "desc" None;
                  timeout := 20 |} in
    let s1 := {| world := fst (http_get (world s) req);
                 sent := sent s ++ [req] |} in
    match snd (http_get (world s) req) with
    | Failed err => (s1, Raise err)
    | Body d =>
        match get_results d with
        | None => (s1, Ret (all, Some d))
        | Some [] => (s1, Ret (all, Some d))
        | Some pr =>
            if Z.of_nat (length pr) <? max_page_size
            then (s1, Ret (all ++ pr, Some d))
            else accumulate http_get f e st kw t (all ++ pr) (p + 1) (Some d) s1
        end
    end
  else (s, Ret (all, last)).
Proof.
  cbn [accumulate]. destruct (Z.of_nat (length all) <? t); [|reflexivity].
  unfold bind, requests_get. cbv zeta.
  destruct (http_get (world s) _) as [w' [err|d]]; cbn [fst snd]; [reflexivity|].
  destruct (get_results d) as [[|x pr]|]; try reflexivity.
  destruct (Z.of_nat (length (x :: pr)) <? max_page_size); reflexivity.
Qed.

Lemma accumulate_stop (f : nat) (e st kw : string) (t : Z)
    (all : list Item.item) (p : Z) (last : option data) (s : state World) :
  t <= Z.of_nat (length all) ->
  accumulate http_get f e st kw t all p last s = (s, Ret (all, last)).
Proof.
  intros H. apply Z.ltb_ge in H. destruct f; cbn [accumulate]; now rewrite H.
Qed.

(** The loop only sends requests of its own making, at most one per unit
    of fuel, and at least one when it is entered. *)
Lemma accumulate_sent (f : nat) (e kw : string) (t : Z) :
  forall (all : list Item.item) (p : Z) (last : option data) (s : state World),
  exists new,
    sent (fst (accumulate http_get f e "work" kw t all p last s)) = sent s ++ new
    /\ (length new <= f)%nat
    /\ Forall (fun req => asks_sort req = None
                          /\ asks_order req = Some (PStr "desc")) new
    /\ (Z.of_nat (length all) < t -> (0 < f)%nat -> new <> []).
Proof.
  induction f as [|f IH]; intros all p last s.
  - exists []. cbn [accumulate].
    destruct (Z.of_nat (length all) <? t); cbn [fst out_of_fuel ret];
      rewrite app_nil_r;
      (split; [reflexivity|]; split; [simpl; lia|]; split; [constructor|];
       intros; lia).
  - rewrite accumulate_round.
    destruct (Z.of_nat (length all) <? t) eqn:Hlt.
    + cbv zeta.
      set (req := {| url := e;
                     params := build_params "work" kw p max_page_size "desc" None;
                     timeout := 20 |}).
      set (s1 := {| world := fst (http_get (world s) req);
                    sent := sent s ++ [req] |}).
      assert (Hreq : asks_sort req = None /\ asks_order req = Some (PStr "desc")).
      { split; reflexivity. }
      assert (Hone : exists new,
                 sent s1 = sent s ++ new /\ (length new <= S f)%nat
                 /\ Forall (fun req => asks_sort req = None
                                       /\ asks_order req = Some (PStr "desc")) new
                 /\ (Z.of_nat (length all) < t -> (0 < S f)%nat -> new <> [])).
      { exists [req]. repeat split; simpl; auto; try lia; try discriminate. }
      destruct (snd (http_get (world s) req)) as [err|d]; [exact Hone|].
      destruct (get_results d) as [[|x pr]|]; [exact Hone| |exact Hone].
      destruct (Z.of_nat (length (x :: pr)) <? max_page_size); [exact Hone|].
      destruct (IH (all ++ x :: pr) (p + 1) (Some d) s1)
        as (new & Hnew & Hlen & Hall & _).
      exists (req :: new). rewrite Hnew. subst s1. cbn [sent].
      rewrite <- app_assoc. repeat split; simpl; auto; try lia; try discriminate.
    + exists []. cbn [fst]. rewrite app_nil_r. apply Z.ltb_ge in Hlt.
      split; [reflexivity|]. split; [simpl; lia|]. split; [constructor|].
      intros. lia.
Qed.

(** With a target of at most 500 the fuel of five rounds is never used up:
    a round that stays in the loop has added a full page. *)
Lemma accumulate_terminates (f : nat) (e st kw : string) (t : Z) :
  t <= 500 ->
  forall (all : list Item.item) (p : Z) (last : option data) (s : state World),
  500 <= Z.of_nat (length all) + 100 * Z.of_nat f ->
  snd (accumulate http_get f e st kw t all p last s) <> Exhausted.
Proof.
  intros Ht. induction f as [|f IH]; intros all p last s Hf.
  - rewrite accumulate_stop by lia. discriminate.
  - rewrite accumulate_round.
    destruct (Z.of_nat (length all) <? t); [|discriminate]. cbv zeta.
    destruct (snd (http_get (world s) _)) as [err|d]; [discriminate|].
    destruct (get_results d) as [[|x pr]|]; try discriminate.
    destruct (Z.of_nat (length (x :: pr)) <? max_page_size) eqn:Hfull;
      [discriminate|].
    apply IH. apply Z.ltb_ge in Hfull. unfold max_page_size in Hfull.
    rewrite length_app. lia.
Qed.

(** When no page exceeds the page size, the sample stays within 500. *)
Lemma accumulate_within (f : nat) (e st kw : string) (t : Z) :
  (forall w req, page_within max_page_size (snd (http_get w req))) ->
  t <= 500 ->
  forall (all : list Item.item) (p : Z) (last : option data) (s : state World)
         (all' : list Item.item) (last' : option data),
  Z.of_nat (length all) + 100 * Z.of_nat f <= 500 ->
  snd (accumulate http_get f e st kw t all p last s) = Ret (all', last') ->
  Z.of_nat (length all') <= 500.
Proof.
  intros Hpage Ht. induction f as [|f IH]; intros all p last s all' last' Hf.
  - cbn [accumulate]. destruct (Z.of_nat (length all) <? t); [discriminate|].
    cbn. intros [= <- _]. lia.
  - rewrite accumulate_round.
    destruct (Z.of_nat (length all) <? t) eqn:Hlt;
      [|cbn; intros [= <- _]; lia].
    cbv zeta. apply Z.ltb_lt in Hlt.
    match goal with
    | |- context [http_get (world s) ?r] =>
        pose proof (Hpage (world s) r) as Hp;
        destruct (snd (http_get (world s) r)) as [err|d]
    end; [discriminate|].
    unfold page_within in Hp.
    destruct (get_results d) as [[|x pr]|];
      try (intros [= <- _]; lia).
    unfold max_page_size in *.
    destruct (Z.of_nat (length (x :: pr)) <? 100).
    + intros [= <- _]. rewrite length_app. lia.
    + apply IH. rewrite length_app. lia.
Qed.

Lemma target_count_range (page size : Z) :
  target_count page size = Z.min (Z.max (page * size) 200) 500
  /\ 200 <= target_count page size <= 500.
Proof.
  unfold target_count. destruct (500 <? Z.max (page * size) 200) eqn:H.
  - apply Z.ltb_lt in H. lia.
  - apply Z.ltb_ge in H. lia.
Qed.

End ClientFacts.

Section ClientClaims.
Import Search Spec.
Context {World : Type}.
Variable http_get : World -> request -> World * reply.

Lemma requests_get_returns (req : request) (s : state World) :
  snd (requests_get http_get req s) <> Exhausted.
Proof.
  unfold requests_get. destruct (http_get (world s) req) as [w' [e|d]];
    discriminate.
Qed.

(** [search_acemap] always comes back: it returns or it raises. *)
Lemma search_acemap_returns (search_type keyword : string) (page size : Z)
    (order : string) (sort : option string) (s : state World) :
  snd (search_acemap http_get search_type keyword page size order sort s)
  <> Exhausted.
Proof.
  unfold search_acemap.
  destruct (ENDPOINTS !! search_type) as [endpoint|]; [|discriminate].
  destruct sort as [srt|]; [|apply requests_get_returns].
  destruct (String.eqb search_type "work" && Py.truthy srt);
    [|apply requests_get_returns].
  unfold bind.
  pose proof (accumulate_terminates http_get 5 endpoint search_type keyword
                (target_count page size)
                (proj2 (proj2 (target_count_range page size)))
                [] 1 None s) as Hacc.
  destruct (accumulate http_get 5 endpoint search_type keyword
              (target_count page size) [] 1 None s)
    as [s1 [[all [d|]]|e|]]; cbn [snd] in *; try discriminate.
  exfalso. apply Hacc; [simpl; lia|reflexivity].
Qed.

(** C2: the target of the accumulation loop is [max(page*size, 200)] capped
    at 500; the loop comes to an end within five requests; and when no
    upstream page carries more than the 100 items asked for, the sample it
    hands over holds at most 500 items. *)
Theorem accumulation_bounded (endpoint keyword : string) (page size : Z)
    (s : state World) :
  (forall w req, page_within max_page_size (snd (http_get w req))) ->
  let target := target_count page size in
  let r := accumulate http_get 5 endpoint "work" keyword target [] 1 None s in
  target = Z.min (Z.max (page * size) 200) 500
  /\ snd r <> Exhausted
  /\ (length (sent (fst r)) <= length (sent s) + 5)%nat
  /\ forall all last, snd r = Ret (all, last) -> Z.of_nat (length all) <= 500.
Proof.
  intros Hpage target r.
  destruct (target_count_range page size) as [Heq [_ Hle]].
  split; [exact Heq|]. split; [|split].
  - apply accumulate_terminates; [exact Hle|simpl; lia].
  - destruct (accumulate_sent http_get 5 endpoint keyword target [] 1 None s)
      as (new & Hnew & Hlen & _).
    subst r. rewrite Hnew, length_app. lia.
  - intros all last. apply accumulate_within; [exact Hpage|exact Hle|simpl; lia].
Qed.

(** C3, as amended: every request that the ranker sends for a work search
    with a sort key leaves the [sort] parameter out and carries the
    [order] parameter with the fixed value ["desc"], whatever order the
    caller asked for; at least one such request is sent. *)
Theorem ranker_requests (keyword : string) (page size : Z) (order srt : string)
    (s : state World) :
  Py.truthy srt = true ->
  let s' := fst (search_acemap http_get "work" keyword page size order
                   (Some srt) s) in
  exists new,
    sent s' = sent s ++ new
    /\ new <> []
    /\ Forall (fun req => asks_sort req = None
                          /\ asks_order req = Some (PStr "desc")) new.
Proof.
  intros Hsrt s'. subst s'. unfold search_acemap.
  assert (E : ENDPOINTS !! "work" = Some (String.append API_BASE "/work/search"))
    by reflexivity.
  rewrite E. cbn [String.eqb Ascii.eqb Bool.eqb andb]. rewrite Hsrt.
  destruct (accumulate_sent http_get 5 (String.append API_BASE "/work/search")
              keyword (target_count page size) [] 1 None s)
    as (new & Hnew & _ & Hall & Hne).
  exists new. split; [|split; [|exact Hall]].
  - rewrite <- Hnew. unfold bind.
    destruct (accumulate http_get 5 _ "work" keyword _ [] 1 None s)
      as [s1 [[all [d|]]|e|]]; reflexivity.
  - apply Hne; [|lia].
    pose proof (target_count_range page size) as [_ [Hlo _]]. simpl. lia.
Qed.

Lemma guarded_call (m : M World data) (s : state World) :
  snd (m s) <> Exhausted ->
  exists d,
    try_except m (fun e => ret (stand_in e)) s = (fst (m s), Ret d)
    /\ captured (snd (m s)) d.
Proof.
  intros H. unfold try_except. destruct (m s) as [s1 [d|e|]]; cbn [fst snd] in *.
  - exists d. split; [reflexivity|constructor].
  - exists (stand_in e). split; [reflexivity|constructor].
  - now contradiction H.
Qed.

Lemma captured_channel (o : outcome data) (d : data) :
  captured o d ->
  match o with
  | Ret d' => d = d'
  | Raise e =>
      d = {| error := Some e; results := Present []; meta_count := None |}
  | Exhausted => False
  end.
Proof. intros []; reflexivity. Qed.

(** C9: [search_all] always returns an envelope with the three channels
    and never raises.  A channel whose search returned holds the dictionary
    it returned, unchanged; a channel whose search raised holds the
    stand-in whose [error] is the text of the exception and whose
    [results] is the empty list, and nothing else.  The searches run one
    after the other, each in the world the one before left, whether that
    one failed or not. *)
Theorem search_all_isolates_failures (keyword : string) (sort : option string)
    (order : string) (s : state World) :
  let r1 := search_acemap http_get "work" keyword 1 5 order sort s in
  let r2 := search_acemap http_get "author" keyword 1 3 "desc" None (fst r1) in
  let r3 := search_acemap http_get "institution" keyword 1 3 "desc" None
              (fst r2) in
  exists env,
    search_all http_get keyword sort order s = (fst r3, Ret env)
    /\ match snd r1 with
       | Ret d => work env = d
       | Raise e =>
           work env = {| error := Some e; results := Present [];
                         meta_count := None |}
       | Exhausted => False
       end
    /\ match snd r2 with
       | Ret d => author env = d
       | Raise e =>
           author env = {| error := Some e; results := Present [];
                           meta_count := None |}
       | Exhausted => False
       end
    /\ match snd r3 with
       | Ret d => institution env = d
       | Raise e =>
           institution env = {| error := Some e; results := Present [];
                                meta_count := None |}
       | Exhausted => False
       end.
Proof.
  intros r1 r2 r3.
  destruct (guarded_call _ s
              (search_acemap_returns "work" keyword 1 5 order sort s))
    as (w & Ew & Cw).
  destruct (guarded_call _ (fst r1)
              (search_acemap_returns "author" keyword 1 3 "desc" None (fst r1)))
    as (a & Ea & Ca).
  destruct (guarded_call _ (fst r2)
              (search_acemap_returns "institution" keyword 1 3 "desc" None
                 (fst r2)))
    as (i & Ei & Ci).
  exists {| work := w; author := a; institution := i |}.
  split.
  - unfold search_all, bind at 1. rewrite Ew.
    unfold bind at 1. fold r1. rewrite Ea.
    unfold bind at 1. fold r2. rewrite Ei. reflexivity.
  - cbn [work author institution].
    split; [exact (captured_channel _ _ Cw)|].
    split; [exact (captured_channel _ _ Ca)|exact (captured_channel _ _ Ci)].
Qed.

End ClientClaims.

Lemma accumulation_bounded_witness :
  (forall w req,
      Spec.page_within Search.max_page_size (snd (Fixture.endless w req)))
  /\ (let target := Search.target_count 10 100 in
      let r := Search.accumulate Fixture.endless 5 "u" "work" "k" target [] 1
                 None Fixture.start in
      target = Z.min (Z.max (10 * 100) 200) 500
      /\ snd r <> Search.Exhausted
      /\ (length (Search.sent (fst r)) <= length (Search.sent Fixture.start) + 5)%nat
      /\ forall all last,
           snd r = Search.Ret (all, last) -> Z.of_nat (length all) <= 500).
Proof.
  assert (H : forall w req,
             Spec.page_within Search.max_page_size (snd (Fixture.endless w req))).
  { intros w req. vm_compute. discriminate. }
  split; [exact H|].
  exact (accumulation_bounded Fixture.endless "u" "k" 10 100 Fixture.start H).
Defined.

Lemma ranker_requests_witness :
  Py.truthy "cited_by_count" = true
  /\ exists new,
       Search.sent
         (fst (Search.search_acemap (Fixture.by_keyword Fixture.rocks) "work"
                 "rock" 1 10 "asc" (Some "cited_by_count") Fixture.start))
       = Search.sent Fixture.start ++ new
       /\ new <> []
       /\ Forall (fun req => Spec.asks_sort req = None
                             /\ Spec.asks_order req = Some (Search.PStr "desc"))
            new.
Proof.
  split; [reflexivity|].
  exact (ranker_requests (Fixture.by_keyword Fixture.rocks) "rock" 1 10 "asc"
           "cited_by_count" Fixture.start eq_refl).
Defined.

(** C3, as first stated, does not hold: the request that the ranker sends
    for ["rock"] sorted by citations carries an [order] parameter. *)
Lemma ranker_sends_order :
  ~ Forall (fun req => Spec.asks_sort req = None /\ Spec.asks_order req = None)
      (Search.sent
         (fst (Search.search_acemap (Fixture.by_keyword Fixture.rocks) "work"
                 "rock" 1 10 "asc" (Some "cited_by_count") Fixture.start))).
Proof.
  intros H.
  assert (E : existsb
                (fun req => match Spec.asks_order req with
                            | Some _ => true
                            | None => false
                            end)
                (Search.sent
                   (fst (Search.search_acemap (Fixture.by_keyword Fixture.rocks)
                           "work" "rock" 1 10 "asc" (Some "cited_by_count")
                           Fixture.start))) = true)
    by (vm_compute; reflexivity).
  apply existsb_exists in E as (req & Hin & Hreq).
  rewrite List.Forall_forall in H. destruct (H req Hin) as [_ Ho].
  rewrite Ho in Hreq. discriminate.
Qed.

(* ===================================================================== *)
(** * The intent parser *)
(* ===================================================================== *)

(** C8: for a query that is not empty [parse] returns a keyword that is not
    empty: when the cleaning leaves nothing, the keyword is the query as it
    was typed, and otherwise it is the cleaned text. *)
Theorem parse_keyword_nonempty (query : string) :
  query <> "" ->
  let i := Intent.parse query in
  let cleaned := Intent.clean (Intent.sort i) (Intent.type i) query in
  Intent.keyword i <> ""
  /\ (cleaned = "" -> Intent.keyword i = query)
  /\ (cleaned <> "" -> Intent.keyword i = cleaned)
  /\ Intent.original_query i = query.
Proof.
  intros Hq. destruct query as [|c q]; [contradiction|].
  unfold Intent.parse. cbn [Py.truthy negb Intent.sort Intent.type
                            Intent.keyword Intent.original_query].
  set (cleaned := Intent.clean _ _ _).
  destruct cleaned as [|c' k]; cbn [Py.truthy negb].
  - repeat split; [discriminate|contradiction].
  - repeat split; [discriminate|discriminate].
Qed.

Lemma parse_keyword_nonempty_witness :
  "latest" <> ""
  /\ (let i := Intent.parse "latest" in
      let cleaned := Intent.clean (Intent.sort i) (Intent.type i) "latest" in
      Intent.keyword i <> ""
      /\ (cleaned = "" -> Intent.keyword i = "latest")
      /\ (cleaned <> "" -> Intent.keyword i = cleaned)
      /\ Intent.original_query i = "latest").
Proof.
  split; [discriminate|].
  apply (parse_keyword_nonempty "latest"). discriminate.
Defined.

(** The fallback is taken on a query made of one intent word. *)
Example parse_latest : Intent.keyword (Intent.parse "latest") = "latest".
Proof. reflexivity. Qed.

Example parse_most_cited :
  Intent.parse "most cited papers on plate tectonics"
  = {| Intent.original_query := "most cited papers on plate tectonics";
       Intent.keyword := "most plate tectonics";
       Intent.sort := Some "citation";
       Intent.type := None |}.
Proof. reflexivity. Qed.

(* ===================================================================== *)
(** * The neighbour index *)
(* ===================================================================== *)

Section NeighbourFacts.
Import Recall.

(** The answer is never longer than [top_k]. *)
Lemma neighbours_length (df : list triple) (keyword : string) (top_k : Z) :
  0 <= top_k ->
  Z.of_nat (length (find_related_concepts df keyword top_k)) <= top_k.
Proof.
  intros Hk. unfold find_related_concepts.
  destruct df as [|t df]; [simpl; lia|].
  rewrite length_map. unfold most_common. rewrite length_take. lia.
Qed.

Lemma counter_del_absent (k : string) (c : counter) :
  ~ In k (map fst (counter_del k c)).
Proof.
  unfold counter_del. intros H. apply in_map_iff in H as ([x n] & Hx & Hin).
  apply filter_In in Hin as [_ Hne]. simpl in *. subst x.
  rewrite String.eqb_refl in Hne. discriminate.
Qed.

(** The lower-cased, trimmed keyword is never in the answer. *)
Lemma neighbours_exclude_normalised (df : list triple) (keyword : string)
    (top_k : Z) :
  ~ In (Py.strip (Py.lower keyword)) (find_related_concepts df keyword top_k).
Proof.
  unfold find_related_concepts. destruct df as [|t df]; [intros []|].
  cbv zeta. intros H. apply in_map_iff in H as (e & He & Hin).
  unfold most_common in Hin.
  apply list_elem_of_In, subseteq_take, list_elem_of_In in Hin.
  apply (Permutation_in _ (stable_sort_perm _ _)) in Hin.
  eapply counter_del_absent. apply in_map_iff. exists e. split; eassumption.
Qed.

End NeighbourFacts.

(** C6: the answer of [find_related_concepts] should never hold the query
    concept.  It does on a table that spells the concept with a capital:
    asked for ["Rock"], the index deletes only ["rock"] from its counter and
    hands ["Rock"] back. *)
Theorem neighbours_return_query :
  Recall.find_related_concepts Fixture.capital "Rock" 3 = ["rocks"; "Rock"]
  /\ In "Rock" (Recall.find_related_concepts Fixture.capital "Rock" 3).
Proof. split; [reflexivity|right; left; reflexivity]. Qed.

(** C7: on the table with the two triples of the scenario the neighbours of
    ["rock"] are ["plate tectonics"] and ["mineral"], in this order (equal
    counts, first met first); and an empty table gives an empty answer for
    every keyword and every [top_k]. *)
Theorem neighbours_scenario :
  Recall.find_related_concepts Fixture.scenario "rock" 3
  = ["plate tectonics"; "mineral"]
  /\ forall keyword top_k, Recall.find_related_concepts [] keyword top_k = [].
Proof. split; reflexivity. Qed.

(** The more frequent neighbour comes first, wherever it was met. *)
Example most_common_by_count :
  map fst (Recall.most_common 2 (Recall.Counter ["a"; "b"; "b"; "c"]))
  = ["b"; "a"].
Proof. reflexivity. Qed.

(* ===================================================================== *)
(** * The recall aggregator *)
(* ===================================================================== *)

Section MergeFacts.
Import Search Recall Spec.

(** What the merge appends: items of [expanded_results] with pairwise
    distinct ids that are not ids of [final_list]. *)
Lemma merge_appends (expanded_results : list Item.item) :
  forall (seen_ids : gset (option string)) (final_list : list Item.item),
  (forall i, (i ∈ seen_ids) <-> (i ∈ ids final_list)) ->
  exists extra,
    merge seen_ids final_list expanded_results = final_list ++ extra
    /\ (forall x, In x extra -> In x expanded_results)
    /\ NoDup (ids extra)
    /\ Forall (fun x => Item.id x ∉ ids final_list) extra.
Proof.
  induction expanded_results as [|item rest IH]; intros seen_ids final_list Hseen.
  - exists []. cbn [merge]. rewrite app_nil_r.
    repeat split; [tauto|constructor|constructor].
  - cbn [merge]. destruct (decide (Item.id item ∈ seen_ids)) as [Hin|Hout].
    + destruct (IH seen_ids final_list Hseen) as (extra & Hm & Hsub & Hnd & Hdis).
      exists extra. repeat split; auto. intros x Hx. right. auto.
    + destruct (IH ({[Item.id item]} ∪ seen_ids) (final_list ++ [item]))
        as (extra & Hm & Hsub & Hnd & Hdis).
      { intros i. unfold ids. rewrite map_app. cbn [map].
        rewrite elem_of_union, elem_of_singleton, elem_of_app, Hseen.
        rewrite list_elem_of_singleton. unfold ids. tauto. }
      assert (Hdis' : Forall (fun x => (Item.id x ∉ ids final_list)
                                       /\ Item.id x <> Item.id item) extra).
      { eapply List.Forall_impl; [|exact Hdis]. intros x Hx.
        unfold ids in *. rewrite map_app, elem_of_app in Hx. cbn [map] in Hx.
        rewrite list_elem_of_singleton in Hx. split; intros ?; apply Hx; auto. }
      exists (item :: extra). rewrite Hm, <- app_assoc. cbn [app].
      repeat split.
      * intros x [->|Hx]; [now left|right; auto].
      * unfold ids. cbn [map]. apply NoDup_cons. split; [|exact Hnd].
        intros Hin. apply list_elem_of_In, in_map_iff in Hin as (x & Hid & Hx).
        rewrite List.Forall_forall in Hdis'. destruct (Hdis' x Hx) as [_ Hne].
        now apply Hne.
      * constructor.
        -- intros Hin. apply Hout, Hseen, Hin.
        -- eapply List.Forall_impl; [|exact Hdis']. now intros x [Hx _].
Qed.

Lemma merge_unique (final_list expanded_results : list Item.item) :
  NoDup (ids final_list) ->
  NoDup (ids (merge (list_to_set (ids final_list)) final_list expanded_results)).
Proof.
  intros Hnd.
  destruct (merge_appends expanded_results (list_to_set (ids final_list))
              final_list) as (extra & -> & _ & Hex & Hdis).
  { intros i. apply elem_of_list_to_set. }
  unfold ids. rewrite map_app. apply NoDup_app. repeat split; auto.
  intros i Hi Hin. apply list_elem_of_In, in_map_iff in Hin as (x & <- & Hx).
  rewrite List.Forall_forall in Hdis. now apply (Hdis x Hx).
Qed.

(** First seen wins: what the merge appends is taken from the neighbour
    results in their order, each appended item is the first of them with
    its id, and an item is left out only when its id is already there. *)
Lemma merge_first_seen (expanded_results : list Item.item) :
  forall (seen_ids : gset (option string)) (final_list : list Item.item),
  (forall i, (i ∈ seen_ids) <-> (i ∈ ids final_list)) ->
  exists extra,
    merge seen_ids final_list expanded_results = final_list ++ extra
    /\ Forall (fun x => Item.id x ∉ ids final_list) extra
    /\ sublist extra expanded_results
    /\ Forall (fun x => Answers.first_with_id (Item.id x) expanded_results
                        = Some x) extra
    /\ Forall (fun y => (Item.id y ∈ ids final_list)
                        \/ (Item.id y ∈ ids extra)) expanded_results.
Proof.
  induction expanded_results as [|item rest IH]; intros seen_ids final_list Hseen.
  - exists []. cbn [merge]. rewrite app_nil_r.
    repeat split; constructor.
  - cbn [merge]. destruct (decide (Item.id item ∈ seen_ids)) as [Hin|Hout].
    + destruct (IH seen_ids final_list Hseen)
        as (extra & Hm & Hdis & Hsub & Hfirst & Hcov).
      exists extra. split; [exact Hm|]. split; [exact Hdis|].
      split; [now apply sublist_cons|]. split.
      * apply List.Forall_forall. intros x Hx.
        rewrite List.Forall_forall in Hdis, Hfirst.
        unfold Answers.first_with_id. cbn [List.find].
        rewrite bool_decide_eq_false_2; [exact (Hfirst x Hx)|].
        intros Heq. apply (Hdis x Hx). rewrite <- Heq. now apply Hseen.
      * constructor; [left; now apply Hseen|exact Hcov].
    + destruct (IH ({[Item.id item]} ∪ seen_ids) (final_list ++ [item]))
        as (extra & Hm & Hdis & Hsub & Hfirst & Hcov).
      { intros i. unfold ids. rewrite map_app. cbn [map].
        rewrite elem_of_union, elem_of_singleton, elem_of_app, Hseen.
        rewrite list_elem_of_singleton. unfold ids. tauto. }
      assert (Hdis' : Forall (fun x => (Item.id x ∉ ids final_list)
                                       /\ Item.id x <> Item.id item) extra).
      { eapply List.Forall_impl; [|exact Hdis]. intros x Hx.
        unfold ids in *. rewrite map_app, elem_of_app in Hx. cbn [map] in Hx.
        rewrite list_elem_of_singleton in Hx. split; intros ?; apply Hx; auto. }
      exists (item :: extra). rewrite Hm, <- app_assoc. cbn [app].
      split; [reflexivity|]. split; [|split; [now apply sublist_skip|split]].
      * constructor.
        -- intros Hin. apply Hout, Hseen, Hin.
        -- eapply List.Forall_impl; [|exact Hdis']. now intros x [Hx _].
      * constructor.
        -- unfold Answers.first_with_id. cbn [List.find].
           now rewrite bool_decide_eq_true_2.
        -- apply List.Forall_forall. intros x Hx.
           rewrite List.Forall_forall in Hdis', Hfirst.
           unfold Answers.first_with_id. cbn [List.find].
           rewrite bool_decide_eq_false_2; [exact (Hfirst x Hx)|].
           intros Heq. now apply (proj2 (Hdis' x Hx)).
      * unfold ids. cbn [map]. constructor; [right; apply elem_of_cons; now left|].
        eapply List.Forall_impl; [|exact Hcov]. intros y [Hy|Hy].
        -- unfold ids in Hy. rewrite map_app, elem_of_app in Hy. cbn [map] in Hy.
           rewrite list_elem_of_singleton in Hy.
           destruct Hy as [Hy|Hy]; [now left|].
           right. apply elem_of_cons. now left.
        -- right. apply elem_of_cons. now right.
Qed.

End MergeFacts.

Section RecallClaims.
Import Search Recall Spec.
Context {World : Type}.
Variable http_get : World -> request -> World * reply.

Lemma tag_tagged (concepts : list string) (c : string) (items : list Item.item) :
  In c concepts -> Forall (tagged_from concepts) (map (tag c) items).
Proof.
  intros Hc. induction items as [|x items IH]; cbn [map]; constructor; auto.
  exists c. split; [exact Hc|reflexivity].
Qed.

(** Every item gathered for the related concepts carries the tag of one of
    them. *)
Lemma search_concepts_tagged (all : list string) (sort : option string)
    (order : string) (concepts : list string) :
  (forall c, In c concepts -> In c all) ->
  forall (expanded : list Item.item) (s s' : state World)
         (res : list Item.item),
  Forall (tagged_from all) expanded ->
  search_concepts http_get concepts sort order expanded s = (s', Ret res) ->
  Forall (tagged_from all) res.
Proof.
  induction concepts as [|c rest IH]; intros Hsub expanded s s' res Hexp.
  - cbn. now intros [= _ <-].
  - cbn [search_concepts]. unfold bind, try_except.
    destruct (search_acemap http_get "work" c 1 2 order sort s)
      as [s1 [d|e|]].
    + destruct (get_results d) as [items|]; cbn.
      * apply IH; [intros; apply Hsub; now right|].
        apply List.Forall_app. split; [exact Hexp|].
        apply tag_tagged, Hsub. now left.
      * apply IH; [intros; apply Hsub; now right|exact Hexp].
    + cbn. apply IH; [intros; apply Hsub; now right|exact Hexp].
    + discriminate.
Qed.

(** The loop over the concepts always comes to an end. *)
Lemma search_concepts_returns (sort : option string) (order : string)
    (concepts : list string) :
  forall (expanded : list Item.item) (s : state World),
  exists s' res,
    search_concepts http_get concepts sort order expanded s = (s', Ret res).
Proof.
  induction concepts as [|c rest IH]; intros expanded s.
  - now exists s, expanded.
  - cbn [search_concepts]. unfold bind, try_except.
    pose proof (search_acemap_returns http_get "work" c 1 2 order sort s) as Hr.
    destruct (search_acemap http_get "work" c 1 2 order sort s)
      as [s1 [d|e|]]; [| |now contradiction Hr].
    + destruct (get_results d) as [items|]; cbn; apply IH.
    + cbn. apply IH.
Qed.

Lemma neighbour_answers_cons (concept : string) (rest : list string)
    (sort : option string) (order : string) (s : state World) :
  fst (Answers.neighbour_answers http_get (concept :: rest) sort order s)
  = Answers.contribution concept
      (snd (search_acemap http_get "work" concept 1 2 order sort s))
    ++ fst (Answers.neighbour_answers http_get rest sort order
              (fst (search_acemap http_get "work" concept 1 2 order sort s))).
Proof.
  cbn [Answers.neighbour_answers]. cbv zeta.
  now destruct (Answers.neighbour_answers http_get rest sort order _).
Qed.

(** The loop over the concepts gathers the neighbour answers: what each
    search returned, tagged, in the order of the concepts, the searches
    that failed adding nothing. *)
Lemma search_concepts_answers (sort : option string) (order : string)
    (concepts : list string) :
  forall (expanded : list Item.item) (s s' : state World)
         (res : list Item.item),
  search_concepts http_get concepts sort order expanded s = (s', Ret res) ->
  res = expanded
        ++ fst (Answers.neighbour_answers http_get concepts sort order s).
Proof.
  induction concepts as [|c rest IH]; intros expanded s s' res.
  - cbn. intros [= _ <-]. now rewrite app_nil_r.
  - rewrite neighbour_answers_cons.
    cbn [search_concepts]. unfold bind, try_except.
    destruct (search_acemap http_get "work" c 1 2 order sort s)
      as [s1 [d|e|]]; cbn [fst snd Answers.contribution].
    + destruct (get_results d) as [items|]; cbn; intros Hrest;
        apply IH in Hrest; rewrite Hrest, <- ?app_assoc; reflexivity.
    + cbn. intros Hrest. apply IH in Hrest. now rewrite Hrest.
    + discriminate.
Qed.

(** C4, as amended: in what [search_with_recall] returns, the results of
    the original keyword come first and unchanged, and the items that follow
    are taken from the neighbour answers (the results of the searches for
    the related concepts, in the order of the concepts, each item tagged
    with its concept): they stand in the order of those answers, each is
    the first of the answers with its id, and an answer is left out only
    when its id is an id of the original results or of an item kept before
    it.  So the items that follow have pairwise distinct ids that are not
    ids of the original results, and the merged list has no two items with
    the same id as soon as the original results have none.  This holds
    whether or not a sort is requested. *)
Theorem recall_merge_unique (keyword : string) (df : list triple)
    (sort : option string) (order : string) (s s' : state World) (r : recall) :
  search_with_recall http_get keyword df sort order s = (s', Ret r) ->
  let first := search_acemap http_get "work" keyword 1 5 order sort s in
  let answers :=
    fst (Answers.neighbour_answers http_get (find_related_concepts df keyword 3)
           sort order (fst first)) in
  exists orig extra,
    recall_results r = orig ++ extra
    /\ match snd first with
       | Ret d => get_results d = Some orig
       | _ => orig = []
       end
    /\ Forall (tagged_from (related_concepts r)) extra
    /\ NoDup (ids extra)
    /\ Forall (fun x => Item.id x ∉ ids orig) extra
    /\ (NoDup (ids orig) -> NoDup (ids (recall_results r)))
    /\ related_concepts r = find_related_concepts df keyword 3
    /\ sublist extra answers
    /\ Forall (fun x => Answers.first_with_id (Item.id x) answers = Some x)
         extra
    /\ Forall (fun y => (Item.id y ∈ ids orig) \/ (Item.id y ∈ ids extra))
         answers.
Proof.
  intros Hrun first answers.
  assert (Hcore : exists orig expanded s1,
            match snd first with
            | Ret d => get_results d = Some orig
            | _ => orig = []
            end
            /\ search_concepts http_get (find_related_concepts df keyword 3)
                 sort order [] (fst first) = (s1, Ret expanded)
            /\ recall_results r
               = merge (list_to_set (ids orig)) orig expanded
            /\ related_concepts r = find_related_concepts df keyword 3).
  { revert Hrun. subst answers first.
    unfold search_with_recall, bind at 1, try_except.
    pose proof (search_acemap_returns http_get "work" keyword 1 5 order sort s)
      as Hfirst.
    destruct (search_acemap http_get "work" keyword 1 5 order sort s)
      as [s1 [d|e|]]; cbn [fst snd ret] in *; [| |now contradiction Hfirst].
    - unfold bind.
      destruct (search_concepts http_get (find_related_concepts df keyword 3)
                  sort order [] s1) as [s2 [expanded|e|]] eqn:Hexp;
        [|discriminate|discriminate].
      destruct (get_results d) as [orig|]; [|discriminate].
      cbn. intros [= _ <-]. exists orig, expanded, s2. auto.
    - unfold bind.
      destruct (search_concepts http_get (find_related_concepts df keyword 3)
                  sort order [] s1) as [s2 [expanded|e'|]] eqn:Hexp;
        [|discriminate|discriminate].
      cbn. intros [= _ <-]. exists [], expanded, s2. auto. }
  destruct Hcore as (orig & expanded & s1 & Horig & Hexp & Hres & Hrel).
  assert (Hans : expanded = answers).
  { apply search_concepts_answers in Hexp. exact Hexp. }
  assert (Hinv : forall i, (i ∈ (list_to_set (ids orig) : gset (option string)))
                           <-> (i ∈ ids orig)).
  { intros i. apply elem_of_list_to_set. }
  destruct (merge_appends expanded (list_to_set (ids orig)) orig Hinv)
    as (extra & Hm & Hsub & Hnd & Hdis).
  destruct (merge_first_seen expanded (list_to_set (ids orig)) orig Hinv)
    as (extra' & Hm' & _ & Hsl & Hfirst & Hcov).
  assert (extra' = extra) by (apply (app_inv_head orig); congruence).
  subst extra' expanded.
  exists orig, extra. rewrite Hres, Hm, Hrel.
  split; [reflexivity|]. split; [exact Horig|]. split.
  { apply List.Forall_forall. intros x Hx.
    pose proof (search_concepts_tagged (find_related_concepts df keyword 3)
                  sort order _ (fun c H => H) [] _ _ _
                  (List.Forall_nil _) Hexp) as Htag.
    rewrite List.Forall_forall in Htag. apply Htag, Hsub, Hx. }
  split; [exact Hnd|]. split; [exact Hdis|]. split.
  { intros Ho. rewrite <- Hm. now apply merge_unique. }
  split; [reflexivity|]. split; [exact Hsl|]. split; [exact Hfirst|exact Hcov].
Qed.

(** C5, as amended: the merged list is sorted again by the page script,
    on what [search_with_recall] returned, with the comparators of the
    ranker; sorted by citations in descending order, the list it shows is
    non-increasing in [cited_by_count], a missing count being 0. *)
Theorem enhanced_search_sorted (keyword : string) (df : list triple)
    (srt order : string) (s s' : state World) (items : list Item.item) :
  Py.truthy srt = true ->
  App.enhanced_search http_get keyword df (Some srt) order s = (s', Ret items) ->
  exists r,
    search_with_recall http_get keyword df (Some srt) order s = (s', Ret r)
    /\ items = sort_results srt order (recall_results r)
    /\ (srt = "cited_by_count" -> order = "desc" ->
        non_increasing citation_key items).
Proof.
  intros Hsrt. unfold App.enhanced_search, bind.
  destruct (search_with_recall http_get keyword df (Some srt) order s)
    as [s1 [r|e|]]; [|discriminate|discriminate].
  cbn. intros [= <- <-]. exists r. split; [reflexivity|].
  unfold App.enhanced_work_items. rewrite Hsrt. split.
  - unfold sort_results.
    destruct (String.eqb srt "cited_by_count"); [reflexivity|].
    destruct (String.eqb srt "publication_date"); reflexivity.
  - intros -> ->. apply citation_desc_sorted.
Qed.

End RecallClaims.

Lemma recall_merge_unique_witness :
  exists s' r,
    Recall.search_with_recall (Fixture.by_keyword Answers.quarry) "rock"
      Answers.quarry_graph None "desc" Fixture.start = (s', Search.Ret r)
    /\ (let first :=
          Search.search_acemap (Fixture.by_keyword Answers.quarry) "work" "rock"
            1 5 "desc" None Fixture.start in
        let answers :=
          fst (Answers.neighbour_answers (Fixture.by_keyword Answers.quarry)
                 (Recall.find_related_concepts Answers.quarry_graph "rock" 3)
                 None "desc" (fst first)) in
        exists orig extra,
          Recall.recall_results r = orig ++ extra
          /\ match snd first with
             | Search.Ret d => Search.get_results d = Some orig
             | _ => orig = []
             end
          /\ Forall (Spec.tagged_from (Recall.related_concepts r)) extra
          /\ NoDup (Spec.ids extra)
          /\ Forall (fun x => Item.id x ∉ Spec.ids orig) extra
          /\ (NoDup (Spec.ids orig) ->
              NoDup (Spec.ids (Recall.recall_results r)))
          /\ Recall.related_concepts r
             = Recall.find_related_concepts Answers.quarry_graph "rock" 3
          /\ sublist extra answers
          /\ Forall (fun x => Answers.first_with_id (Item.id x) answers = Some x)
               extra
          /\ Forall (fun y => (Item.id y ∈ Spec.ids orig)
                              \/ (Item.id y ∈ Spec.ids extra)) answers).
Proof.
  destruct (Recall.search_with_recall (Fixture.by_keyword Answers.quarry) "rock"
              Answers.quarry_graph None "desc" Fixture.start)
    as [s' [r|e|]] eqn:E.
  - exists s', r. split; [reflexivity|].
    exact (recall_merge_unique (Fixture.by_keyword Answers.quarry) "rock"
             Answers.quarry_graph None "desc" Fixture.start s' r E).
  - vm_compute in E. discriminate E.
  - vm_compute in E. discriminate E.
Defined.

(** The run of the witness: the neighbour answers are the papers a and b
    for "mineral" and the papers b and c for "granite"; a is left out for
    the paper of the keyword, and of the two papers b the one of "mineral",
    met first, is kept. *)
Example recall_first_seen_run :
  exists r,
    snd (Recall.search_with_recall (Fixture.by_keyword Answers.quarry) "rock"
           Answers.quarry_graph None "desc" Fixture.start) = Search.Ret r
    /\ map (fun x => (Item.id x, Item.cited_by_count x, Item.source_concept x))
         (Recall.recall_results r)
       = [(Some "a", Some 5, None);
          (Some "b", Some 10, Some "mineral");
          (Some "c", Some 1, Some "granite")]
    /\ map (fun x => (Item.id x, Item.cited_by_count x, Item.source_concept x))
         (fst (Answers.neighbour_answers (Fixture.by_keyword Answers.quarry)
                 (Recall.find_related_concepts Answers.quarry_graph "rock" 3)
                 None "desc"
                 (fst (Search.search_acemap (Fixture.by_keyword Answers.quarry)
                         "work" "rock" 1 5 "desc" None Fixture.start))))
       = [(Some "a", Some 7, Some "mineral");
          (Some "b", Some 10, Some "mineral");
          (Some "b", Some 3, Some "granite");
          (Some "c", Some 1, Some "granite")].
Proof. eexists. repeat split; reflexivity. Qed.

(** C4, as first stated, does not hold: when the search for the original
    keyword answers the same paper twice, both copies are in the merged
    list. *)
Lemma recall_keeps_duplicates :
  exists r,
    snd (Recall.search_with_recall (Fixture.by_keyword Fixture.twice) "rock" []
           None "desc" Fixture.start) = Search.Ret r
    /\ ~ NoDup (Spec.ids (Recall.recall_results r)).
Proof.
  eexists. split; [reflexivity|].
  cbn [Recall.recall_results]. intros H.
  apply NoDup_cons in H as [Hn _]. apply Hn. constructor.
Qed.

Lemma enhanced_search_sorted_witness :
  Py.truthy "cited_by_count" = true
  /\ exists s' items,
       App.enhanced_search (Fixture.by_keyword Fixture.rocks) "rock"
         Fixture.rock_graph (Some "cited_by_count") "desc" Fixture.start
       = (s', Search.Ret items)
       /\ exists r,
            Recall.search_with_recall (Fixture.by_keyword Fixture.rocks) "rock"
              Fixture.rock_graph (Some "cited_by_count") "desc" Fixture.start
            = (s', Search.Ret r)
            /\ items = Search.sort_results "cited_by_count" "desc"
                         (Recall.recall_results r)
            /\ ("cited_by_count" = "cited_by_count" -> "desc" = "desc" ->
                Spec.non_increasing Search.citation_key items).
Proof.
  split; [reflexivity|].
  destruct (App.enhanced_search (Fixture.by_keyword Fixture.rocks) "rock"
              Fixture.rock_graph (Some "cited_by_count") "desc" Fixture.start)
    as [s' [items|e|]] eqn:E.
  - exists s', items. split; [reflexivity|].
    exact (enhanced_search_sorted (Fixture.by_keyword Fixture.rocks) "rock"
             Fixture.rock_graph "cited_by_count" "desc" Fixture.start s' items
             eq_refl E).
  - vm_compute in E. discriminate E.
  - vm_compute in E. discriminate E.
Defined.

(** C5, as first stated, does not hold: sorted by citations in descending
    order, [search_with_recall] returns the paper of the original keyword,
    cited 5 times, in front of the paper of the neighbour, cited 10 times. *)
Lemma recall_leaves_unsorted :
  exists r,
    snd (Recall.search_with_recall (Fixture.by_keyword Fixture.rocks) "rock"
           Fixture.rock_graph (Some "cited_by_count") "desc" Fixture.start)
    = Search.Ret r
    /\ map Search.citation_key (Recall.recall_results r) = [5; 10]
    /\ ~ Spec.non_increasing Search.citation_key (Recall.recall_results r).
Proof.
  eexists. split; [reflexivity|]. split; [reflexivity|].
  cbn [Recall.recall_results]. intros H.
  apply StronglySorted_inv in H as [_ H]. apply Forall_inv in H.
  vm_compute in H. apply H. reflexivity.
Qed.

(** The scenario of the specification for [search_all]: the institution
    endpoint raises, the envelope carries its message, and the two other
    channels hold their results. *)
Example search_all_scenario :
  exists env,
    snd (Search.search_all Fixture.no_institution "rock" None "desc"
           Fixture.start) = Search.Ret env
    /\ Search.institution env
       = {| Search.error := Some "UpstreamError";
            Search.results := Search.Present [];
            Search.meta_count := None |}
    /\ Search.error (Search.work env) = None
    /\ Search.error (Search.author env) = None
    /\ Search.get_results (Search.work env)
       = Some [Fixture.paper "a" (Some 5) None None]
    /\ Search.get_results (Search.author env)
       = Some [Fixture.paper "a" (Some 5) None None].
Proof. eexists. repeat split; reflexivity. Qed.

(* ===================================================================== *)
(** * More on the remote search client *)
(* ===================================================================== *)

Section SliceFacts.
Context {A : Type}.

Lemma slice_window (l : list A) (start size : Z) :
  0 <= size -> Z.of_nat (length (Py.slice l start (start + size))) <= size.
Proof.
  intros Hs. unfold Py.slice. rewrite length_take, length_drop.
  destruct (start <? 0) eqn:Ha, (start + size <? 0) eqn:Hb;
    try apply Z.ltb_lt in Ha; try apply Z.ltb_ge in Ha;
    try apply Z.ltb_lt in Hb; try apply Z.ltb_ge in Hb; lia.
Qed.

Lemma slice_forall (P : A -> Prop) (l : list A) (start stop : Z) :
  Forall P l -> Forall P (Py.slice l start stop).
Proof. intros H. unfold Py.slice. now apply Forall_take, Forall_drop. Qed.

Lemma strongly_sorted_drop (R : A -> A -> Prop) (n : nat) (l : list A) :
  StronglySorted R l -> StronglySorted R (drop n l).
Proof.
  revert l. induction n as [|n IH]; intros l H; [exact H|].
  destruct l as [|x l]; [exact H|]. cbn [drop skipn].
  apply IH. now apply StronglySorted_inv in H.
Qed.

Lemma strongly_sorted_take (R : A -> A -> Prop) (n : nat) (l : list A) :
  StronglySorted R l -> StronglySorted R (take n l).
Proof.
  revert l. induction n as [|n IH]; intros l H; [constructor|].
  destruct l as [|x l]; [constructor|]. cbn [take firstn].
  apply StronglySorted_inv in H as [Hl Hx].
  constructor; [now apply IH|now apply Forall_take].
Qed.

Lemma strongly_sorted_slice (R : A -> A -> Prop) (l : list A) (start stop : Z) :
  StronglySorted R l -> StronglySorted R (Py.slice l start stop).
Proof.
  intros H. unfold Py.slice.
  now apply strongly_sorted_take, strongly_sorted_drop.
Qed.

End SliceFacts.

Section CitationSort.
Import Search Spec Terms.

Lemma citation_asc_sorted (l : list Item.item) :
  non_decreasing citation_key (Py.sort_by Z.leb citation_key false l).
Proof.
  unfold non_decreasing, Py.sort_by.
  eapply strongly_sorted_weaken;
    [|apply Sorted_StronglySorted;
      [|apply stable_sort_sorted; intros a b; apply zleb_false_flip]].
  - intros a b H. now apply Z.leb_le.
  - intros a b c Hab Hbc. apply Z.leb_le in Hab, Hbc. apply Z.leb_le. lia.
Qed.

Lemma sort_results_citation (order : string) (l : list Item.item) :
  sort_results "cited_by_count" order l
  = Py.sort_by Z.leb citation_key (String.eqb order "desc") l.
Proof. reflexivity. Qed.

End CitationSort.

Section ClientMore.
Import Search Spec Terms.
Context {World : Type}.
Variable http_get : World -> request -> World * reply.

Lemma accumulate_raise (f : nat) (e st kw : string) (t : Z) :
  forall (all : list Item.item) (p : Z) (last : option data) (s : state World)
         (err : string),
  snd (accumulate http_get f e st kw t all p last s) = Raise err ->
  exists w req w', http_get w req = (w', Failed err).
Proof.
  induction f as [|f IH]; intros all p last s err.
  - cbn [accumulate]. destruct (Z.of_nat (length all) <? t); discriminate.
  - rewrite accumulate_round.
    destruct (Z.of_nat (length all) <? t); [|discriminate]. cbv zeta.
    match goal with
    | |- context [http_get (world s) ?r] =>
        destruct (http_get (world s) r) as [w' [err'|d]] eqn:Hget
    end; cbn [fst snd].
    + intros [= <-]. eauto.
    + destruct (get_results d) as [[|x pr]|]; try discriminate.
      destruct (Z.of_nat (length (x :: pr)) <? max_page_size);
        [discriminate|]. apply IH.
Qed.

Lemma accumulate_last (f : nat) (e st kw : string) (t : Z) :
  forall (all : list Item.item) (p : Z) (last : option data) (s : state World)
         (all' : list Item.item) (last' : option data),
  Z.of_nat (length all) < t \/ upstream_body http_get last ->
  snd (accumulate http_get f e st kw t all p last s) = Ret (all', last') ->
  upstream_body http_get last'.
Proof.
  induction f as [|f IH]; intros all p last s all' last' Hin.
  - cbn [accumulate]. destruct (Z.of_nat (length all) <? t) eqn:Hlt;
      [discriminate|].
    apply Z.ltb_ge in Hlt. cbn. intros [= _ <-].
    destruct Hin as [Hin|Hin]; [lia|exact Hin].
  - rewrite accumulate_round.
    destruct (Z.of_nat (length all) <? t) eqn:Hlt.
    + cbv zeta.
      match goal with
      | |- context [http_get (world s) ?r] =>
          destruct (http_get (world s) r) as [w' [err'|d]] eqn:Hget
      end; cbn [fst snd]; [discriminate|].
      assert (Hd : upstream_body http_get (Some d)) by (unfold upstream_body; eauto 8).
      destruct (get_results d) as [[|x pr]|];
        try (intros [= _ <-]; exact Hd).
      destruct (Z.of_nat (length (x :: pr)) <? max_page_size);
        [intros [= _ <-]; exact Hd|].
      apply IH. now right.
    + apply Z.ltb_ge in Hlt. cbn. intros [= _ <-].
      destruct Hin as [Hin|Hin]; [lia|exact Hin].
Qed.

Lemma accumulate_from_upstream (f : nat) (e st kw : string) (t : Z) :
  forall (all : list Item.item) (p : Z) (last : option data) (s : state World)
         (all' : list Item.item) (last' : option data),
  Forall (from_upstream http_get) all ->
  snd (accumulate http_get f e st kw t all p last s) = Ret (all', last') ->
  Forall (from_upstream http_get) all'.
Proof.
  induction f as [|f IH]; intros all p last s all' last' Hall.
  - cbn [accumulate]. destruct (Z.of_nat (length all) <? t); [discriminate|].
    cbn. now intros [= <- _].
  - rewrite accumulate_round.
    destruct (Z.of_nat (length all) <? t); [|cbn; now intros [= <- _]].
    cbv zeta.
    match goal with
    | |- context [http_get (world s) ?r] =>
        destruct (http_get (world s) r) as [w' [err'|d]] eqn:Hget
    end; cbn [fst snd]; [discriminate|].
    destruct (get_results d) as [[|x pr]|] eqn:Hres;
      try (now intros [= <- _]).
    assert (Hnew : Forall (from_upstream http_get) (all ++ x :: pr)).
    { apply List.Forall_app. split; [exact Hall|].
      apply List.Forall_forall. intros y Hy. unfold from_upstream. eauto 10. }
    destruct (Z.of_nat (length (x :: pr)) <? max_page_size);
      [now intros [= <- _]|]. now apply IH.
Qed.

(** The pages are asked for one after the other, from [p] on, and no page
    is asked for once the sample has reached the target. *)
Lemma accumulate_pages (f : nat) (kw : string) (t : Z) :
  forall (all : list Item.item) (p : Z) (last : option data) (s : state World),
  exists k,
    (k <= f)%nat
    /\ sent (fst (accumulate http_get f (String.append API_BASE "/work/search")
                    "work" kw t all p last s))
       = sent s ++ map (fun i => loop_request kw (p + Z.of_nat i)) (seq 0 k)
    /\ (Z.of_nat (length all) < t -> (0 < f)%nat -> (1 <= k)%nat)
    /\ ((1 <= k)%nat -> Z.of_nat (length all) + 100 * (Z.of_nat k - 1) < t).
Proof.
  induction f as [|f IH]; intros all p last s.
  - exists O. cbn [accumulate].
    destruct (Z.of_nat (length all) <? t); cbn [fst out_of_fuel ret seq map];
      rewrite app_nil_r; repeat split; auto; lia.
  - rewrite accumulate_round.
    destruct (Z.of_nat (length all) <? t) eqn:Hlt.
    + apply Z.ltb_lt in Hlt. cbv zeta.
      change {| url := String.append API_BASE "/work/search";
                params := build_params "work" kw p max_page_size "desc" None;
                timeout := 20 |} with (loop_request kw p).
      set (s1 := {| world := fst (http_get (world s) (loop_request kw p));
                    sent := sent s ++ [loop_request kw p] |}).
      assert (Hone : exists k,
                 (k <= S f)%nat
                 /\ sent s1 = sent s ++ map (fun i => loop_request kw (p + Z.of_nat i))
                                          (seq 0 k)
                 /\ (Z.of_nat (length all) < t -> (0 < S f)%nat -> (1 <= k)%nat)
                 /\ ((1 <= k)%nat ->
                     Z.of_nat (length all) + 100 * (Z.of_nat k - 1) < t)).
      { exists 1%nat. cbn [seq map]. rewrite Z.add_0_r.
        repeat split; auto; lia. }
      destruct (snd (http_get (world s) (loop_request kw p))) as [err|d];
        [exact Hone|].
      destruct (get_results d) as [[|x pr]|]; [exact Hone| |exact Hone].
      destruct (Z.of_nat (length (x :: pr)) <? max_page_size) eqn:Hfull;
        [exact Hone|].
      apply Z.ltb_ge in Hfull. unfold max_page_size in Hfull.
      destruct (IH (all ++ x :: pr) (p + 1) (Some d) s1)
        as (k & Hk & Hsent & _ & Hbound).
      exists (S k). rewrite Hsent. subst s1. cbn [sent].
      rewrite <- app_assoc. cbn [seq map app]. rewrite Z.add_0_r.
      rewrite <- seq_shift, map_map.
      split; [lia|]. split; [|split; [lia|]].
      * do 2 f_equal. apply map_ext. intros i. f_equal. lia.
      * intros _. destruct k as [|k]; [lia|].
        rewrite length_app in Hbound. lia.
    + exists O. cbn [fst seq map]. rewrite app_nil_r.
      repeat split; auto; lia.
Qed.

(** The ranker, spelled out on the outcome of its loop. *)
Lemma ranker_unfold (keyword : string) (page size : Z) (order srt : string)
    (s : state World) :
  Py.truthy srt = true ->
  search_acemap http_get "work" keyword page size order (Some srt) s
  = match accumulate http_get 5 (String.append API_BASE "/work/search") "work"
            keyword (target_count page size) [] 1 None s with
    | (s1, Ret (all, Some d)) =>
        (s1, Ret (set_results d
                    (Py.slice (sort_results srt order all)
                       ((page - 1) * size) ((page - 1) * size + size))))
    | (s1, Ret (all, None)) => (s1, Raise "name 'data' is not defined")
    | (s1, Raise e) => (s1, Raise e)
    | (s1, Exhausted) => (s1, Exhausted)
    end.
Proof.
  intros Hsrt. unfold search_acemap.
  assert (E : ENDPOINTS !! "work" = Some (String.append API_BASE "/work/search"))
    by reflexivity.
  rewrite E. cbn [String.eqb Ascii.eqb Bool.eqb andb]. rewrite Hsrt.
  unfold bind.
  destruct (accumulate http_get 5 _ "work" keyword _ [] 1 None s)
    as [s1 [[all [d|]]|e|]]; reflexivity.
Qed.

Lemma ranker_returns (keyword : string) (page size : Z) (order srt : string)
    (s s' : state World) (d : data) :
  Py.truthy srt = true ->
  search_acemap http_get "work" keyword page size order (Some srt) s
  = (s', Ret d) ->
  exists all last,
    accumulate http_get 5 (String.append API_BASE "/work/search") "work"
      keyword (target_count page size) [] 1 None s = (s', Ret (all, Some last))
    /\ d = set_results last
             (Py.slice (sort_results srt order all)
                ((page - 1) * size) ((page - 1) * size + size)).
Proof.
  intros Hsrt. rewrite ranker_unfold by exact Hsrt.
  destruct (accumulate http_get 5 _ "work" keyword _ [] 1 None s)
    as [s1 [[all [last|]]|e|]]; try discriminate.
  intros [= <- <-]. eauto.
Qed.

End ClientMore.

Section ClientExtras.
Import Search Spec Terms.
Context {World : Type}.
Variable http_get : World -> request -> World * reply.

Lemma endpoints_only (search_type : string) :
  search_type <> "work" -> search_type <> "author" ->
  search_type <> "institution" -> ENDPOINTS !! search_type = None.
Proof.
  intros Hw Ha Hi. unfold ENDPOINTS.
  rewrite !lookup_insert_ne by congruence. apply lookup_empty.
Qed.

Lemma search_acemap_plain (search_type endpoint keyword : string)
    (page size : Z) (order : string) (sort : option string) (s : state World) :
  ENDPOINTS !! search_type = Some endpoint ->
  search_type <> "work" \/ sort_given sort = false ->
  search_acemap http_get search_type keyword page size order sort s
  = requests_get http_get
      (plain_request endpoint search_type keyword page size order sort) s.
Proof.
  intros He Hplain. unfold search_acemap. rewrite He.
  destruct sort as [srt|]; [|reflexivity].
  destruct (String.eqb search_type "work" && Py.truthy srt) eqn:Hc;
    [|reflexivity].
  apply andb_true_iff in Hc as [Hw Ht]. apply String.eqb_eq in Hw.
  destruct Hplain as [Hne|Hng]; [contradiction|].
  cbn in Hng. congruence.
Qed.

Lemma requests_get_eq (req : request) (s : state World) :
  requests_get http_get req s
  = ({| world := fst (http_get (world s) req); sent := sent s ++ [req] |},
     outcome_of (snd (http_get (world s) req))).
Proof.
  unfold requests_get. destruct (http_get (world s) req) as [w' [e|d]];
    reflexivity.
Qed.

(** A search type that is not one of the three raises the [ValueError]
    before anything is sent. *)
Theorem search_acemap_invalid_type (search_type keyword : string)
    (page size : Z) (order : string) (sort : option string) (s : state World) :
  search_type <> "work" -> search_type <> "author" ->
  search_type <> "institution" ->
  search_acemap http_get search_type keyword page size order sort s
  = (s, Raise (invalid_type search_type)).
Proof.
  intros Hw Ha Hi. unfold search_acemap.
  now rewrite (endpoints_only search_type Hw Ha Hi).
Qed.

(** A search for authors or institutions, or for works without a sort key,
    is one request with the caller's keyword, page and size, and its
    outcome is the upstream's: the body as it came, or the exception.
    Requests for authors and institutions carry neither [order] nor [sort],
    even when the caller gave them; a work request carries the caller's
    [order]. *)
Theorem search_acemap_pass_through (search_type endpoint keyword : string)
    (page size : Z) (order : string) (sort : option string) (s : state World) :
  ENDPOINTS !! search_type = Some endpoint ->
  search_type <> "work" \/ sort_given sort = false ->
  let req := plain_request endpoint search_type keyword page size order sort in
  search_acemap http_get search_type keyword page size order sort s
  = ({| world := fst (http_get (world s) req); sent := sent s ++ [req] |},
     outcome_of (snd (http_get (world s) req)))
  /\ params req !! "keyword" = Some (PStr keyword)
  /\ params req !! "page" = Some (PInt page)
  /\ params req !! "size" = Some (PInt size)
  /\ (search_type <> "work" -> asks_sort req = None /\ asks_order req = None)
  /\ (search_type = "work" ->
      asks_sort req = None /\ asks_order req = Some (PStr order)).
Proof.
  intros He Hplain req. split.
  { rewrite (search_acemap_plain _ _ _ _ _ _ _ _ He Hplain).
    apply requests_get_eq. }
  subst req. unfold asks_sort, asks_order, plain_request. cbn [params].
  unfold build_params.
  destruct (String.eqb search_type "work") eqn:Hw.
  - apply String.eqb_eq in Hw. subst search_type.
    destruct Hplain as [Hne|Hng]; [contradiction|].
    destruct sort as [srt|]; cbn in Hng; [rewrite Hng|];
      repeat split; try reflexivity; contradiction.
  - apply String.eqb_neq in Hw.
    repeat split; try reflexivity; contradiction.
Qed.

(** On responses of the shape of [data] (a JSON object whose [results] is
    absent, [null] or a list of objects with integer or absent counts and
    string or absent dates and ids), when the ranker raises, the exception
    is one the upstream raised: the loop has always bound [data] when it
    ends, and nothing of the sample gathered so far is returned.  Responses
    of another shape, on which [list.sort] itself raises, are outside the
    embedding. *)
Theorem ranker_raises_upstream (keyword : string) (page size : Z)
    (order srt : string) (s s' : state World) (e : string) :
  Py.truthy srt = true ->
  search_acemap http_get "work" keyword page size order (Some srt) s
  = (s', Raise e) ->
  exists w req w', http_get w req = (w', Failed e).
Proof.
  intros Hsrt. rewrite ranker_unfold by exact Hsrt.
  destruct (accumulate http_get 5 _ "work" keyword _ [] 1 None s)
    as [s1 [[all [last|]]|err|]] eqn:Hacc; try discriminate.
  - exfalso.
    assert (Hl : upstream_body http_get None).
    { eapply accumulate_last; [|rewrite Hacc; reflexivity].
      left. pose proof (target_count_range page size) as [_ [Hlo _]].
      simpl. lia. }
    destruct Hl as (d & _ & _ & _ & Hd & _). discriminate.
  - intros [= _ <-]. eapply accumulate_raise. rewrite Hacc. reflexivity.
Qed.

(** The page the ranker returns is a list of at most [size] items. *)
Theorem ranker_window (keyword : string) (page size : Z) (order srt : string)
    (s s' : state World) (d : data) :
  Py.truthy srt = true ->
  0 <= size ->
  search_acemap http_get "work" keyword page size order (Some srt) s
  = (s', Ret d) ->
  exists l, results d = Present l /\ Z.of_nat (length l) <= size.
Proof.
  intros Hsrt Hsize Hret.
  destruct (ranker_returns http_get _ _ _ _ _ _ _ _ Hsrt Hret)
    as (all & last & _ & ->).
  eexists. split; [reflexivity|]. now apply slice_window.
Qed.

(** A page that starts at or beyond the 500th item comes back empty, when
    no upstream page carries more than the 100 items asked for. *)
Theorem ranker_beyond_cap (keyword : string) (page size : Z)
    (order srt : string) (s s' : state World) (d : data) :
  (forall w req, page_within max_page_size (snd (http_get w req))) ->
  Py.truthy srt = true ->
  500 <= (page - 1) * size ->
  search_acemap http_get "work" keyword page size order (Some srt) s
  = (s', Ret d) ->
  results d = Present [].
Proof.
  intros Hpage Hsrt Hfar Hret.
  destruct (ranker_returns http_get _ _ _ _ _ _ _ _ Hsrt Hret)
    as (all & last & Hacc & ->).
  cbn [results set_results]. f_equal.
  assert (Hlen : Z.of_nat (length all) <= 500).
  { apply (accumulate_within http_get 5 (String.append API_BASE "/work/search")
             "work" keyword (target_count page size) Hpage
             (proj2 (proj2 (target_count_range page size)))
             [] 1 None s all (Some last));
      [simpl; lia|rewrite Hacc; reflexivity]. }
  assert (Hlen' : length (sort_results srt order all) = length all)
    by apply Permutation_length, sort_results_perm.
  unfold Py.slice. rewrite Hlen'.
  assert (Hneg : ((page - 1) * size <? 0) = false) by (apply Z.ltb_ge; lia).
  rewrite Hneg. rewrite drop_ge; [now destruct (Z.to_nat _)|].
  rewrite Hlen'. lia.
Qed.

Lemma date_sort_ordered (reverse : bool) (l : list Item.item) :
  date_ordered reverse (Py.stable_sort (date_le reverse) l).
Proof.
  unfold date_ordered. apply Sorted_StronglySorted.
  - intros a b c. unfold date_le. destruct reverse; intros H1 H2.
    + exact (leb_trans _ _ _ H2 H1).
    + exact (leb_trans _ _ _ H1 H2).
  - apply stable_sort_sorted. apply date_le_total.
Qed.

(** The page the ranker returns is in order: by [cited_by_count], falling
    for the order ["desc"] and rising for any other order; by the date key,
    in the direction asked for. *)
Theorem ranker_sorted_page (keyword : string) (page size : Z)
    (order srt : string) (s s' : state World) (d : data) :
  Py.truthy srt = true ->
  search_acemap http_get "work" keyword page size order (Some srt) s
  = (s', Ret d) ->
  exists l,
    results d = Present l
    /\ (srt = "cited_by_count" ->
        if String.eqb order "desc" then non_increasing citation_key l
        else non_decreasing citation_key l)
    /\ (srt = "publication_date" ->
        date_ordered (String.eqb order "desc") l).
Proof.
  intros Hsrt Hret.
  destruct (ranker_returns http_get _ _ _ _ _ _ _ _ Hsrt Hret)
    as (all & last & _ & ->).
  eexists. split; [reflexivity|]. split; intros ->.
  - rewrite sort_results_citation.
    destruct (String.eqb order "desc"); apply strongly_sorted_slice.
    + apply citation_desc_sorted.
    + apply citation_asc_sorted.
  - rewrite sort_results_date. apply strongly_sorted_slice, date_sort_ordered.
Qed.

Lemma replay_cons (w : World) (req : request) (rest : list request) :
  Answers.replay http_get w (req :: rest)
  = (fst (Answers.replay http_get (fst (http_get w req)) rest),
     snd (http_get w req)
     :: snd (Answers.replay http_get (fst (http_get w req)) rest)).
Proof.
  cbn [Answers.replay]. destruct (http_get w req) as [w1 r]. cbn [fst snd].
  now destruct (Answers.replay http_get w1 rest).
Qed.

(** What the loop hands over, told by the replies of the upstream: the
    sample is what it had, followed by the items of the responses in turn,
    and [data] is the last response. *)
Lemma accumulate_replay (f : nat) (kw : string) (t : Z) :
  forall (all : list Item.item) (p : Z) (final : option data)
         (s s' : state World) (all' : list Item.item) (final' : option data),
  accumulate http_get f (String.append API_BASE "/work/search") "work" kw t
    all p final s = (s', Ret (all', final')) ->
  exists bodies,
    (length bodies <= f)%nat
    /\ sent s' = sent s
                 ++ map (fun i => loop_request kw (p + Z.of_nat i))
                      (seq 0 (length bodies))
    /\ Answers.replay http_get (world s)
         (map (fun i => loop_request kw (p + Z.of_nat i))
            (seq 0 (length bodies)))
       = (world s', map Body bodies)
    /\ all' = all ++ concat (map Answers.page_items bodies)
    /\ final' = match last bodies with
                | Some d => Some d
                | None => final
                end.
Proof.
  induction f as [|f IH]; intros all p final s s' all' final'.
  - cbn [accumulate]. destruct (Z.of_nat (length all) <? t); [discriminate|].
    cbn. intros [= <- <- <-]. exists []. cbn. rewrite !app_nil_r.
    repeat split; auto.
  - rewrite accumulate_round.
    destruct (Z.of_nat (length all) <? t).
    + cbv zeta.
      change {| url := String.append API_BASE "/work/search";
                params := build_params "work" kw p max_page_size "desc" None;
                timeout := 20 |} with (loop_request kw p).
      destruct (http_get (world s) (loop_request kw p)) as [w1 [err|d]] eqn:Hget;
        cbn [fst snd]; [discriminate|].
      assert (Hone : forall extra_items,
                 Answers.page_items d = extra_items ->
                 exists bodies,
                   (length bodies <= S f)%nat
                   /\ sent {| world := w1; sent := sent s ++ [loop_request kw p] |}
                      = sent s ++ map (fun i => loop_request kw (p + Z.of_nat i))
                                    (seq 0 (length bodies))
                   /\ Answers.replay http_get (world s)
                        (map (fun i => loop_request kw (p + Z.of_nat i))
                           (seq 0 (length bodies)))
                      = (world {| world := w1;
                                  sent := sent s ++ [loop_request kw p] |},
                         map Body bodies)
                   /\ all ++ extra_items
                      = all ++ concat (map Answers.page_items bodies)
                   /\ Some d = match last bodies with
                               | Some d' => Some d'
                               | None => final
                               end).
      { intros extra_items Hitems. exists [d].
        cbn [length seq map concat last]. rewrite Z.add_0_r, app_nil_r.
        repeat split; auto; [lia| |now rewrite Hitems].
        cbn [Answers.replay]. now rewrite Hget. }
      unfold Answers.page_items in Hone.
      destruct (get_results d) as [[|x pr]|] eqn:Hres.
      * intros [= <- <- <-]. specialize (Hone [] eq_refl).
        rewrite app_nil_r in Hone. exact Hone.
      * destruct (Z.of_nat (length (x :: pr)) <? max_page_size).
        -- intros [= <- <- <-]. exact (Hone (x :: pr) eq_refl).
        -- intros Hrest. apply IH in Hrest.
           destruct Hrest as (bodies & Hlen & Hsent & Hrep & Hall & Hfin).
           exists (d :: bodies). cbn [length seq map concat world sent] in *.
           rewrite Z.add_0_r. split; [lia|]. split; [|split; [|split]].
           ++ rewrite Hsent, <- app_assoc. cbn [app].
              rewrite <- seq_shift, map_map. do 2 f_equal.
              apply map_ext. intros i. f_equal. lia.
           ++ rewrite replay_cons, Hget. cbn [fst snd].
              rewrite <- seq_shift, map_map.
              rewrite (map_ext (fun i => loop_request kw (p + Z.of_nat (S i)))
                         (fun i => loop_request kw (p + 1 + Z.of_nat i)));
                [now rewrite Hrep|].
              intros i. f_equal. lia.
           ++ rewrite Hall. unfold Answers.page_items at 2. rewrite Hres.
              cbn [default]. now rewrite <- app_assoc.
           ++ rewrite Hfin. destruct bodies as [|b bodies]; [reflexivity|].
              rewrite last_cons_cons.
              destruct (last (b :: bodies)) eqn:Hl; [reflexivity|].
              apply last_None in Hl. discriminate Hl.
      * intros [= <- <- <-]. specialize (Hone [] eq_refl).
        rewrite app_nil_r in Hone. exact Hone.
    + cbn. intros [= <- <- <-]. exists []. cbn. rewrite !app_nil_r.
      repeat split; auto. lia.
Qed.

(** The dictionary the ranker returns is that of the last response fetched,
    with [results] replaced: the upstream, asked for the pages 1 to k in
    turn from the world of the call, gave k bodies; the sample is their
    items, in the order of the pages; the page returned is the slice of the
    sorted sample, and [error] and [meta] are those of the k-th body.  So
    every item returned was in the results of a response of the
    upstream. *)
Theorem ranker_provenance (keyword : string) (page size : Z)
    (order srt : string) (s s' : state World) (d : data) :
  Py.truthy srt = true ->
  search_acemap http_get "work" keyword page size order (Some srt) s
  = (s', Ret d) ->
  exists l final bodies,
    results d = Present l
    /\ Forall (from_upstream http_get) l
    /\ upstream_body http_get (Some final)
    /\ error d = error final
    /\ meta_count d = meta_count final
    /\ (1 <= length bodies <= 5)%nat
    /\ Answers.replay http_get (world s)
         (map (fun i => loop_request keyword (1 + Z.of_nat i))
            (seq 0 (length bodies)))
       = (world s', map Body bodies)
    /\ last bodies = Some final
    /\ l = Py.slice
             (sort_results srt order (concat (map Answers.page_items bodies)))
             ((page - 1) * size) ((page - 1) * size + size).
Proof.
  intros Hsrt Hret.
  destruct (ranker_returns http_get _ _ _ _ _ _ _ _ Hsrt Hret)
    as (all & final & Hacc & ->).
  destruct (accumulate_replay 5 keyword _ _ _ _ _ _ _ _ Hacc)
    as (bodies & Hlen & _ & Hrep & Hall & Hfin).
  cbn [app] in Hall. subst all.
  assert (Hlast : last bodies = Some final).
  { destruct (last bodies) as [b|]; [congruence|discriminate]. }
  exists (Py.slice
            (sort_results srt order (concat (map Answers.page_items bodies)))
            ((page - 1) * size) ((page - 1) * size + size)), final, bodies.
  split; [reflexivity|]. split; [|split].
  - apply slice_forall.
    eapply Permutation_Forall; [apply Permutation_sym, sort_results_perm|].
    eapply (accumulate_from_upstream http_get 5);
      [constructor|rewrite Hacc; reflexivity].
  - eapply accumulate_last; [|rewrite Hacc; reflexivity].
    left. pose proof (target_count_range page size) as [_ [Hlo _]].
    simpl. lia.
  - split; [reflexivity|]. split; [reflexivity|]. split; [|auto].
    split; [|exact Hlen]. destruct bodies; [discriminate|cbn; lia].
Qed.

(** The ranker asks for the pages 1, 2, ... in turn, one hundred items
    each, for at least one and at most five pages, and for no page that
    starts at or beyond its target. *)
Theorem ranker_pages (keyword : string) (page size : Z) (order srt : string)
    (s : state World) :
  Py.truthy srt = true ->
  exists k,
    (1 <= k <= 5)%nat
    /\ sent (fst (search_acemap http_get "work" keyword page size order
                    (Some srt) s))
       = sent s ++ map (fun i => loop_request keyword (1 + Z.of_nat i)) (seq 0 k)
    /\ 100 * (Z.of_nat k - 1) < target_count page size
    /\ forall p, params (loop_request keyword p) !! "page" = Some (PInt p)
                 /\ params (loop_request keyword p) !! "size" = Some (PInt 100)
                 /\ params (loop_request keyword p) !! "keyword"
                    = Some (PStr keyword).
Proof.
  intros Hsrt.
  destruct (accumulate_pages http_get 5 keyword (target_count page size)
              [] 1 None s) as (k & Hk & Hsent & Hone & Hbound).
  pose proof (target_count_range page size) as [_ [Hlo _]].
  assert (Hk1 : (1 <= k)%nat) by (apply Hone; [simpl; lia|lia]).
  exists k. split; [lia|]. split; [|split].
  - rewrite <- Hsent. rewrite ranker_unfold by exact Hsrt.
    destruct (accumulate http_get 5 _ "work" keyword _ [] 1 None s)
      as [s1 [[all [last|]]|e|]]; reflexivity.
  - specialize (Hbound Hk1). simpl in Hbound. lia.
  - intros p. repeat split; reflexivity.
Qed.

Lemma guarded_sent (m : M World data) (s : state World) :
  snd (m s) <> Exhausted ->
  fst (try_except m (fun e => ret (stand_in e)) s) = fst (m s).
Proof.
  intros H. destruct (guarded_call m s H) as (d & -> & _). reflexivity.
Qed.

(** [search_all] sends the requests of the work search, then one request
    for authors and one for institutions, both for page 1 with three items
    and without [order] or [sort]; the author and institution requests are
    sent whatever became of the searches before them.  Without a sort key
    the work search is the single request for page 1 with five items. *)
Theorem search_all_requests (keyword : string) (sort : option string)
    (order : string) (s : state World) :
  let author_req :=
    plain_request (String.append API_BASE "/author/search") "author" keyword
      1 3 "desc" None in
  let institution_req :=
    plain_request (String.append API_BASE "/institution/search") "institution"
      keyword 1 3 "desc" None in
  exists work_reqs,
    sent (fst (search_all http_get keyword sort order s))
    = sent s ++ work_reqs ++ [author_req; institution_req]
    /\ work_reqs
       = drop (length (sent s))
           (sent (fst (search_acemap http_get "work" keyword 1 5 order sort s)))
    /\ (if sort_given sort then True
        else work_reqs
             = [plain_request (String.append API_BASE "/work/search") "work"
                  keyword 1 5 order sort])
    /\ params author_req
       = <["size" := PInt 3]> (<["page" := PInt 1]>
                                 (<["keyword" := PStr keyword]> ∅))
    /\ params institution_req = params author_req.
Proof.
  intros author_req institution_req.
  set (r1 := search_acemap http_get "work" keyword 1 5 order sort s).
  assert (Hwork : exists work_reqs,
             sent (fst r1) = sent s ++ work_reqs
             /\ (sort_given sort = false ->
                 work_reqs
                 = [plain_request (String.append API_BASE "/work/search") "work"
                      keyword 1 5 order sort])).
  { subst r1. destruct (sort_given sort) eqn:Hg.
    - destruct sort as [srt|]; [|discriminate]. cbn in Hg.
      destruct (accumulate_sent http_get 5
                  (String.append API_BASE "/work/search") keyword
                  (target_count 1 5) [] 1 None s) as (new & Hnew & _).
      exists new. split; [|discriminate].
      rewrite <- Hnew. rewrite ranker_unfold by exact Hg.
      destruct (accumulate http_get 5 _ "work" keyword _ [] 1 None s)
        as [s1 [[all [last|]]|e|]]; reflexivity.
    - eexists. split; [|reflexivity].
      rewrite (search_acemap_plain "work"
                 (String.append API_BASE "/work/search"));
        [|reflexivity|now right].
      now rewrite requests_get_eq. }
  destruct Hwork as (work_reqs & Hw & Hplain).
  exists work_reqs.
  split; [|split; [|split; [|split; reflexivity]]];
    [| |destruct (sort_given sort); [exact I|now apply Hplain]].
  - unfold search_all, bind at 1.
    destruct (guarded_call _ s
                (search_acemap_returns http_get "work" keyword 1 5 order sort s))
      as (w & -> & _). fold r1.
    unfold bind at 1.
    destruct (guarded_call _ (fst r1)
                (search_acemap_returns http_get "author" keyword 1 3 "desc" None
                   (fst r1))) as (a & -> & _).
    unfold bind at 1.
    destruct (guarded_call _
                (fst (search_acemap http_get "author" keyword 1 3 "desc" None
                        (fst r1)))
                (search_acemap_returns http_get "institution" keyword 1 3 "desc"
                   None _)) as (i & -> & _).
    cbn [fst ret].
    rewrite (search_acemap_plain "institution"
               (String.append API_BASE "/institution/search"));
      [|reflexivity|now left].
    rewrite requests_get_eq. cbn [fst sent].
    rewrite (search_acemap_plain "author"
               (String.append API_BASE "/author/search"));
      [|reflexivity|now left].
    rewrite requests_get_eq. cbn [fst sent].
    rewrite Hw, <- !app_assoc. reflexivity.
  - fold r1. rewrite Hw. now rewrite drop_app_length.
Qed.

End ClientExtras.

(* ===================================================================== *)
(** * More on the sort of the sample *)
(* ===================================================================== *)

Section SortExtras.
Import Search Spec Terms.

(** Sorting loses and invents nothing: the sorted sample is a permutation
    of the sample, for every sort key and order; a key that is neither
    [cited_by_count] nor [publication_date] leaves the sample as it is. *)
Theorem sort_results_keeps_items (sort order : string) (l : list Item.item) :
  Permutation (sort_results sort order l) l
  /\ length (sort_results sort order l) = length l
  /\ (if String.eqb sort "cited_by_count" || String.eqb sort "publication_date"
      then True else sort_results sort order l = l).
Proof.
  split; [apply sort_results_perm|].
  split; [apply Permutation_length, sort_results_perm|].
  unfold sort_results.
  destruct (String.eqb sort "cited_by_count"); [exact I|].
  destruct (String.eqb sort "publication_date"); [exact I|reflexivity].
Qed.

(** The citation sort puts the counts in falling order for the order
    ["desc"] and in rising order for every other order string; items with
    the same count keep the order they had. *)
Theorem citation_sort_ordered_stable (order : string) (l : list Item.item)
    (k : Z) :
  let out := sort_results "cited_by_count" order l in
  (if String.eqb order "desc" then non_increasing citation_key out
   else non_decreasing citation_key out)
  /\ List.filter (cited k) out = List.filter (cited k) l.
Proof.
  intros out. subst out. rewrite sort_results_citation. split.
  - destruct (String.eqb order "desc");
      [apply citation_desc_sorted|apply citation_asc_sorted].
  - unfold Py.sort_by. apply stable_sort_filter.
    intros a b Ha Hb. unfold cited in *.
    apply Z.eqb_eq in Ha, Hb. rewrite Ha, Hb.
    destruct (String.eqb order "desc"); apply Z.leb_refl.
Qed.

(** The date sort puts the keys in order in the direction asked for; items
    with the same date keep the order they had. *)
Theorem date_sort_ordered_stable (order : string) (l : list Item.item)
    (d : string) :
  let out := sort_results "publication_date" order l in
  date_ordered (String.eqb order "desc") out
  /\ List.filter (dated_on d) out = List.filter (dated_on d) l.
Proof.
  intros out. subst out. rewrite sort_results_date. split.
  - apply date_sort_ordered.
  - apply stable_sort_filter. intros a b Ha Hb. unfold dated_on in *.
    apply andb_true_iff in Ha as [Ha Ea], Hb as [Hb Eb].
    apply String.eqb_eq in Ea, Eb. unfold date_le.
    rewrite !date_key_cases, Ha, Hb, Ea, Eb.
    destruct (String.eqb order "desc"); apply leb_refl.
Qed.

Lemma desc_split (l : list Item.item) :
  Forall below_nines l ->
  Py.stable_sort (date_le true) l =
  List.filter lacks_date l ++ Py.stable_sort (date_le true) (List.filter has_date l).
Proof.
  induction 1 as [|x l Hx Hl IH]; [reflexivity|].
  cbn [Py.stable_sort List.filter]. rewrite IH.
  change (lacks_date x) with (negb (has_date x)).
  destruct (has_date x) eqn:Hd; cbn [negb Py.stable_sort].
  - apply insert_pass. eapply List.Forall_impl; [|apply filter_holds].
    intros y Hy. unfold date_le. apply negb_true_iff in Hy.
    rewrite !date_key_cases, Hd, Hy. apply ltb_not_leb, Hx, Hd.
  - apply insert_front. apply List.Forall_app. split.
    + eapply List.Forall_impl; [|apply filter_holds].
      intros y Hy. apply date_le_dateless; [|exact Hy].
      unfold lacks_date. now rewrite Hd.
    + eapply Permutation_Forall;
        [apply Permutation_sym, stable_sort_perm|].
      eapply List.Forall_impl;
        [|apply List.Forall_and; [apply filter_holds
                                 |apply (filter_keeps has_date _ _ Hl)]].
      intros y [Hyd Hyz]. unfold date_le.
      rewrite !date_key_cases, Hd, Hyd. apply ltb_leb, Hyz, Hyd.
Qed.

Lemma sorted_keys_dates_desc (l : list Item.item) :
  Forall (fun x => has_date x = true) l ->
  date_ordered true l -> non_increasing_dates l.
Proof.
  intros Hd Hs. unfold non_increasing_dates, date_ordered in *.
  induction Hs as [|x l Hs IH Hx]; [constructor|].
  inversion Hd as [|? ? Hdx Hdl]; subst.
  constructor; [now apply IH|].
  eapply List.Forall_impl; [|exact (List.Forall_and Hx Hdl)].
  intros y [Hy Hdy]. unfold date_le in Hy.
  now rewrite !date_key_cases, Hdx, Hdy in Hy.
Qed.

(** Sorting by date in descending order puts the items that lack a
    [publication_date] first as well: they take the key ["9999"], stay in
    the order they arrived, and the items that carry a date follow them,
    latest first.  The dates are taken to lie below ["9999"]. *)
Theorem date_desc_dateless_first (l : list Item.item) :
  Forall below_nines l ->
  let out := sort_results "publication_date" "desc" l in
  out = List.filter lacks_date l ++ List.filter has_date out
  /\ Forall (fun x => date_key true x = "9999") (List.filter lacks_date l)
  /\ non_increasing_dates (List.filter has_date out)
  /\ dateless_first out = true.
Proof.
  intros Hl out.
  assert (Hout : out = List.filter lacks_date l ++
                       Py.stable_sort (date_le true) (List.filter has_date l)).
  { subst out. rewrite sort_results_date. now apply desc_split. }
  assert (Hdated : Forall (fun x => has_date x = true)
                     (Py.stable_sort (date_le true) (List.filter has_date l))).
  { eapply Permutation_Forall; [apply Permutation_sym, stable_sort_perm|].
    apply filter_holds. }
  assert (Hnone : Forall (fun x => has_date x = false) (List.filter lacks_date l)).
  { eapply List.Forall_impl; [|apply filter_holds].
    intros x Hx. now apply negb_true_iff. }
  assert (Hfilter : List.filter has_date out =
                    Py.stable_sort (date_le true) (List.filter has_date l)).
  { rewrite Hout, List.filter_app, (filter_none _ _ Hnone), (filter_all _ _ Hdated).
    reflexivity. }
  rewrite Hfilter. repeat split.
  - exact Hout.
  - eapply List.Forall_impl; [|exact Hnone].
    intros x Hx. now rewrite date_key_cases, Hx.
  - apply sorted_keys_dates_desc; [exact Hdated|apply date_sort_ordered].
  - rewrite Hout. apply dateless_first_app; [apply filter_holds|exact Hdated].
Qed.

End SortExtras.

(* ===================================================================== *)
(** * More on the neighbour index *)
(* ===================================================================== *)

Section CounterFacts.
Import Recall Terms.

Lemma counter_get_add (x y : string) (c : counter) :
  counter_get (counter_add x c) y
  = if String.eqb y x then S (counter_get c x) else counter_get c y.
Proof.
  induction c as [|[z n] c IH]; cbn [counter_add counter_get].
  - destruct (String.eqb y x); reflexivity.
  - destruct (String.eqb x z) eqn:Hxz; cbn [counter_get].
    + apply String.eqb_eq in Hxz as ->.
      destruct (String.eqb y z); reflexivity.
    + rewrite IH. destruct (String.eqb y z) eqn:Hyz; [|reflexivity].
      apply String.eqb_eq in Hyz as ->.
      rewrite String.eqb_sym in Hxz. now rewrite Hxz.
Qed.

Lemma counter_get_fold (l : list string) (c : counter) (y : string) :
  counter_get (fold_left (fun c x => counter_add x c) l c) y
  = (counter_get c y + occurrences l y)%nat.
Proof.
  revert c. induction l as [|x l IH]; intros c; cbn [fold_left].
  - unfold occurrences. simpl. lia.
  - rewrite IH, counter_get_add. unfold occurrences. cbn [count_occ].
    destruct (string_dec x y) as [->|Hne].
    + rewrite String.eqb_refl. lia.
    + assert (H : String.eqb y x = false) by (apply String.eqb_neq; congruence).
      now rewrite H.
Qed.

Lemma counter_add_keys (x : string) (c : counter) :
  map fst (counter_add x c)
  = map fst c ++ (if existsb (String.eqb x) (map fst c) then [] else [x]).
Proof.
  induction c as [|[z n] c IH]; cbn [counter_add map existsb fst app];
    [reflexivity|].
  destruct (String.eqb x z); cbn [map fst orb].
  - now rewrite app_nil_r.
  - now rewrite IH.
Qed.

Lemma counter_add_nodup (x : string) (c : counter) :
  List.NoDup (map fst c) -> List.NoDup (map fst (counter_add x c)).
Proof.
  intros H. rewrite counter_add_keys.
  destruct (existsb (String.eqb x) (map fst c)) eqn:Hex.
  - now rewrite app_nil_r.
  - apply NoDup_app_remove_l with (l := []). simpl.
    apply List.NoDup_rev in H.
    apply Permutation_NoDup with (l := x :: map fst c).
    + apply Permutation_cons_append.
    + constructor; [|now apply List.NoDup_rev in H; rewrite rev_involutive in H].
      intros Hin.
      assert (Hex' : existsb (String.eqb x) (map fst c) = true).
      { apply existsb_exists. exists x. split; [exact Hin|apply String.eqb_refl]. }
      congruence.
Qed.

Lemma counter_fold_nodup (l : list string) (c : counter) :
  List.NoDup (map fst c) ->
  List.NoDup (map fst (fold_left (fun c x => counter_add x c) l c)).
Proof.
  revert c. induction l as [|x l IH]; intros c H; cbn [fold_left]; [exact H|].
  apply IH. now apply counter_add_nodup.
Qed.

Lemma counter_get_in (c : counter) (x : string) (n : nat) :
  List.NoDup (map fst c) -> In (x, n) c -> counter_get c x = n.
Proof.
  induction c as [|[z m] c IH]; intros Hnd Hin; [destruct Hin|].
  cbn [map fst] in Hnd. apply List.NoDup_cons_iff in Hnd as [Hz Hnd].
  cbn [counter_get]. destruct Hin as [[= -> ->]|Hin].
  - now rewrite String.eqb_refl.
  - destruct (String.eqb x z) eqn:Hxz; [|now apply IH].
    apply String.eqb_eq in Hxz. subst z. exfalso. apply Hz.
    apply in_map_iff. now exists (x, n).
Qed.

Lemma counter_get_zero (c : counter) (x : string) :
  ~ In x (map fst c) -> counter_get c x = O.
Proof.
  induction c as [|[z m] c IH]; intros Hx; [reflexivity|].
  cbn [counter_get map fst] in *.
  destruct (String.eqb x z) eqn:Hxz.
  - apply String.eqb_eq in Hxz. subst z. exfalso. apply Hx. now left.
  - apply IH. intros H. apply Hx. now right.
Qed.

Lemma counter_get_key (c : counter) (x : string) :
  In x (map fst c) -> exists n, In (x, n) c.
Proof.
  intros H. apply in_map_iff in H as ([y n] & Hy & Hin). simpl in Hy.
  subst y. now exists n.
Qed.

Lemma counter_positive (l : list string) (c : counter) :
  Forall (fun e => (1 <= snd e)%nat) c ->
  Forall (fun e => (1 <= snd e)%nat)
    (fold_left (fun c x => counter_add x c) l c).
Proof.
  revert c. induction l as [|x l IH]; intros c H; cbn [fold_left]; [exact H|].
  apply IH. clear IH. induction H as [|[z n] c Hz Hc IHc]; cbn [counter_add].
  - repeat constructor.
  - destruct (String.eqb x z); constructor; simpl in *; auto; lia.
Qed.

Lemma occurrences_in (l : list string) (x : string) :
  In x l <-> (1 <= occurrences l x)%nat.
Proof. unfold occurrences. apply count_occ_In. Qed.

End CounterFacts.

Section StringFacts.
Import Terms.

Lemma lower_char_idem (c : ascii) :
  Py.lower_char (Py.lower_char c) = Py.lower_char c.
Proof. destruct c as [[] [] [] [] [] [] [] []]; reflexivity. Qed.

Lemma isspace_lower_char (c : ascii) :
  Py.isspace (Py.lower_char c) = Py.isspace c.
Proof. destruct c as [[] [] [] [] [] [] [] []]; reflexivity. Qed.

Lemma lower_idem (s : string) : Py.lower (Py.lower s) = Py.lower s.
Proof.
  induction s as [|c s IH]; cbn [Py.lower]; [reflexivity|].
  now rewrite lower_char_idem, IH.
Qed.

Lemma lower_lstrip (s : string) : Py.lower (Py.lstrip s) = Py.lstrip (Py.lower s).
Proof.
  induction s as [|c s IH]; cbn [Py.lower Py.lstrip]; [reflexivity|].
  rewrite isspace_lower_char. destruct (Py.isspace c); [exact IH|reflexivity].
Qed.

Lemma lower_rstrip (s : string) : Py.lower (Py.rstrip s) = Py.rstrip (Py.lower s).
Proof.
  induction s as [|c s IH]; cbn [Py.lower Py.rstrip]; [reflexivity|].
  rewrite <- IH, isspace_lower_char.
  destruct (Py.rstrip s) as [|a r]; cbn [Py.lower]; [|reflexivity].
  destruct (Py.isspace c); reflexivity.
Qed.

Lemma lower_strip (s : string) : Py.lower (Py.strip s) = Py.strip (Py.lower s).
Proof. unfold Py.strip. now rewrite lower_rstrip, lower_lstrip. Qed.

Lemma lstrip_starts_clean (s : string) : starts_clean (Py.lstrip s) = true.
Proof.
  induction s as [|c s IH]; cbn [Py.lstrip]; [reflexivity|].
  destruct (Py.isspace c) eqn:Hc; [exact IH|]. cbn. now rewrite Hc.
Qed.

Lemma lstrip_clean (s : string) : starts_clean s = true -> Py.lstrip s = s.
Proof.
  destruct s as [|c s]; cbn; [reflexivity|]. intros H.
  apply negb_true_iff in H. now rewrite H.
Qed.

Lemma rstrip_starts_clean (s : string) :
  starts_clean s = true -> starts_clean (Py.rstrip s) = true.
Proof.
  destruct s as [|c s]; cbn [Py.rstrip starts_clean]; [reflexivity|].
  intros H. apply negb_true_iff in H.
  destruct (Py.rstrip s); [rewrite H|]; cbn; now rewrite H.
Qed.

Lemma rstrip_idem (s : string) : Py.rstrip (Py.rstrip s) = Py.rstrip s.
Proof.
  induction s as [|c s IH]; cbn [Py.rstrip]; [reflexivity|].
  destruct (Py.rstrip s) as [|a r] eqn:Hr.
  - destruct (Py.isspace c) eqn:Hc; cbn [Py.rstrip]; [reflexivity|].
    now rewrite Hc.
  - cbn [Py.rstrip] in *. now rewrite IH.
Qed.

Lemma strip_idem (s : string) : Py.strip (Py.strip s) = Py.strip s.
Proof.
  unfold Py.strip.
  rewrite (lstrip_clean (Py.rstrip (Py.lstrip s)))
    by apply rstrip_starts_clean, lstrip_starts_clean.
  apply rstrip_idem.
Qed.

Lemma normalised_idem (keyword : string) :
  normalised (normalised keyword) = normalised keyword.
Proof.
  unfold normalised. now rewrite lower_strip, lower_idem, strip_idem.
Qed.

Lemma startswith_refl (s : string) : Py.startswith s s = true.
Proof.
  induction s as [|c s IH]; cbn; [reflexivity|].
  now rewrite Ascii.eqb_refl, IH.
Qed.

Lemma contains_refl (s : string) : Py.contains s s = true.
Proof. destruct s; cbn; [reflexivity|]. now rewrite Ascii.eqb_refl, startswith_refl. Qed.

End StringFacts.

Section NeighbourExtras.
Import Recall Terms.

Lemma counter_get_del (k y : string) (c : counter) :
  counter_get (counter_del k c) y
  = if String.eqb y k then O else counter_get c y.
Proof.
  unfold counter_del.
  induction c as [|[z n] c IH]; cbn [List.filter counter_get fst].
  - now destruct (String.eqb y k).
  - destruct (String.eqb z k) eqn:Hzk; cbn [negb counter_get].
    + rewrite IH. apply String.eqb_eq in Hzk as ->.
      now destruct (String.eqb y k).
    + rewrite IH. destruct (String.eqb y z) eqn:Hyz; [|reflexivity].
      apply String.eqb_eq in Hyz as ->. now rewrite Hzk.
Qed.

Lemma counter_summary (l : list string) (x k : string) :
  NoDup (map fst (Counter l))
  /\ counter_get (Counter l) x = occurrences l x
  /\ Forall (fun e => snd e = occurrences l (fst e) /\ (1 <= snd e)%nat)
       (Counter l)
  /\ (In x l <-> In x (map fst (Counter l)))
  /\ counter_get (counter_del k (Counter l)) x
     = (if String.eqb x k then O else occurrences l x).
Proof.
  assert (Hnd : List.NoDup (map fst (Counter l))).
  { apply counter_fold_nodup. constructor. }
  assert (Hget : forall y, counter_get (Counter l) y = occurrences l y).
  { intros y. unfold Counter. now rewrite counter_get_fold. }
  split; [now apply NoDup_ListNoDup|]. split; [apply Hget|].
  split; [|split].
  - apply List.Forall_forall. intros [y n] Hin. cbn [fst snd].
    rewrite <- Hget, (counter_get_in _ _ _ Hnd Hin). split; [reflexivity|].
    pose proof (counter_positive l [] (List.Forall_nil _)) as Hpos.
    rewrite List.Forall_forall in Hpos. exact (Hpos _ Hin).
  - rewrite occurrences_in, <- Hget. split.
    + intros Hpos. destruct (in_dec string_dec x (map fst (Counter l)))
        as [Hin|Hout]; [exact Hin|].
      rewrite (counter_get_zero _ _ Hout) in Hpos. lia.
    + intros Hin. destruct (counter_get_key _ _ Hin) as (n & Hn).
      rewrite (counter_get_in _ _ _ Hnd Hn).
      pose proof (counter_positive l [] (List.Forall_nil _)) as Hpos.
      rewrite List.Forall_forall in Hpos. exact (Hpos _ Hn).
  - now rewrite counter_get_del, Hget.
Qed.

Lemma most_common_sub (n : Z) (c : counter) (e : string * nat) :
  In e (most_common n c) -> In e c.
Proof.
  unfold most_common, Py.sort_by. intros H.
  apply list_elem_of_In, subseteq_take, list_elem_of_In in H.
  now apply (Permutation_in _ (stable_sort_perm _ _)) in H.
Qed.

Lemma most_common_sorted (n : Z) (c : counter) :
  StronglySorted (fun a b => (snd b <= snd a)%nat) (most_common n c).
Proof.
  unfold most_common, Py.sort_by. apply strongly_sorted_take.
  eapply strongly_sorted_weaken;
    [|apply Sorted_StronglySorted; [|apply stable_sort_sorted]].
  - intros a b H. now apply Nat.leb_le.
  - intros a b d Hab Hbd. apply Nat.leb_le in Hab, Hbd. apply Nat.leb_le. lia.
  - intros a b H. apply Nat.leb_gt in H. apply Nat.leb_le. lia.
Qed.

Lemma nodup_take {A : Type} (n : nat) (l : list A) :
  List.NoDup l -> List.NoDup (take n l).
Proof.
  revert l. induction n as [|n IH]; intros l H; [constructor|].
  destruct l as [|x l]; [constructor|]. cbn [take firstn].
  apply List.NoDup_cons_iff in H as [Hx Hl]. constructor; [|now apply IH].
  intros Hin. apply Hx.
  now apply list_elem_of_In, subseteq_take, list_elem_of_In in Hin.
Qed.

Lemma most_common_nodup (n : Z) (c : counter) :
  List.NoDup (map fst c) -> List.NoDup (map fst (most_common n c)).
Proof.
  intros H. unfold most_common, Py.sort_by. rewrite <- firstn_map.
  apply nodup_take.
  eapply Permutation_NoDup; [|exact H].
  apply Permutation_map, Permutation_sym, stable_sort_perm.
Qed.

Lemma counter_del_nodup (k : string) (c : counter) :
  List.NoDup (map fst c) -> List.NoDup (map fst (counter_del k c)).
Proof.
  unfold counter_del. induction c as [|[z n] c IH]; intros H; [constructor|].
  cbn [map fst] in H. apply List.NoDup_cons_iff in H as [Hz Hc].
  cbn [List.filter fst]. destruct (negb (String.eqb z k)); [|now apply IH].
  cbn [map fst]. constructor; [|now apply IH].
  intros Hin. apply Hz. apply in_map_iff in Hin as (e & He & Hin).
  apply filter_In in Hin as [Hin _]. apply in_map_iff. now exists e.
Qed.

(** The answer of the index, on a table that is not empty. *)
Lemma find_related_unfold (df : list triple) (keyword : string) (top_k : Z) :
  df <> [] ->
  find_related_concepts df keyword top_k
  = map fst (most_common top_k
               (counter_del (normalised keyword)
                  (Counter (candidates df keyword top_k)))).
Proof. destruct df; [contradiction|reflexivity]. Qed.

Lemma neighbour_is_candidate (df : list triple) (keyword : string) (top_k : Z)
    (c : string) :
  In c (find_related_concepts df keyword top_k) ->
  exists n,
    In (c, n) (most_common top_k
                 (counter_del (normalised keyword)
                    (Counter (candidates df keyword top_k))))
    /\ n = occurrences (candidates df keyword top_k) c
    /\ (1 <= n)%nat
    /\ In c (candidates df keyword top_k).
Proof.
  destruct df as [|t df]; [intros []|].
  rewrite find_related_unfold by discriminate.
  intros H. apply in_map_iff in H as ([c' n] & Hc & Hin). simpl in Hc.
  subst c'. exists n. split; [exact Hin|].
  apply most_common_sub in Hin. unfold counter_del in Hin.
  apply filter_In in Hin as [Hin _].
  destruct (counter_summary (candidates (t :: df) keyword top_k) c c)
    as (_ & _ & Hall & Hiff & _).
  rewrite List.Forall_forall in Hall. destruct (Hall _ Hin) as [Hn Hpos].
  cbn [fst snd] in *. repeat split; auto.
  apply Hiff, in_map_iff. now exists (c, n).
Qed.

End NeighbourExtras.

Section NeighbourTheorems.
Import Recall Terms.

(** [Counter(l)] holds each distinct element of [l] once, with the number
    of times it occurs in [l], which is what [c[x]] reads; an element that
    does not occur reads 0; after [del c[k]] the key [k] reads 0 and the
    other keys read as before. *)
Theorem Counter_counts (l : list string) (x k : string) :
  NoDup (map fst (Counter l))
  /\ counter_get (Counter l) x = occurrences l x
  /\ Forall (fun e => snd e = occurrences l (fst e) /\ (1 <= snd e)%nat)
       (Counter l)
  /\ (In x l <-> In x (map fst (Counter l)))
  /\ counter_get (counter_del k (Counter l)) x
     = (if String.eqb x k then O else occurrences l x).
Proof. apply counter_summary. Qed.

(** [most_common(n)] gives at most [n] entries of the counter, none twice,
    by falling count; asked for as many entries as the counter has, or
    more, it gives them all. *)
Theorem most_common_order (n : Z) (c : counter) :
  StronglySorted (fun a b => (snd b <= snd a)%nat) (most_common n c)
  /\ length (most_common n c) = Nat.min (Z.to_nat n) (length c)
  /\ Forall (fun e => In e c) (most_common n c)
  /\ (if Z.of_nat (length c) <=? n then Permutation (most_common n c) c
      else True).
Proof.
  split; [apply most_common_sorted|]. split; [|split].
  - unfold most_common, Py.sort_by. now rewrite length_take, stable_sort_length.
  - apply List.Forall_forall. intros e. apply most_common_sub.
  - destruct (Z.of_nat (length c) <=? n) eqn:Hn; [|exact I].
    apply Z.leb_le in Hn. unfold most_common, Py.sort_by.
    rewrite firstn_all2; [apply stable_sort_perm|].
    rewrite stable_sort_length. lia.
Qed.

(** No concept is in the answer twice. *)
Theorem neighbours_distinct (df : list triple) (keyword : string) (top_k : Z) :
  NoDup (find_related_concepts df keyword top_k).
Proof.
  apply NoDup_ListNoDup. destruct df as [|t df]; [constructor|].
  rewrite find_related_unfold by discriminate.
  apply most_common_nodup, counter_del_nodup, counter_fold_nodup. constructor.
Qed.

Lemma exact_is_linked (df : list triple) (k c : string) :
  In c (exact_neighbours df k) -> exactly_linked df k c.
Proof.
  unfold exact_neighbours, exactly_linked. intros H.
  apply in_app_or in H as [H|H]; apply in_map_iff in H as (t & <- & Ht);
    apply filter_In in Ht as [Ht Hm]; apply String.eqb_eq in Hm;
    exists t; split; auto.
Qed.

Lemma substring_is_linked (df : list triple) (k c : string) :
  In c (substring_neighbours df k) -> linked df k c.
Proof.
  unfold substring_neighbours, linked. intros H.
  apply in_app_or in H as [H|H]; apply in_map_iff in H as (t & <- & Ht);
    apply filter_In in Ht as [Ht Hm]; exists t; split; auto.
Qed.

Lemma exactly_linked_linked (df : list triple) (k c : string) :
  exactly_linked df k c -> linked df k c.
Proof.
  intros (t & Ht & [[-> <-]|[-> <-]]); exists t; split; auto;
    [left|right]; split; auto; apply contains_refl.
Qed.

(** Every concept of the answer is the other end of a triple of the table
    one end of which, in lower case, contains the normalised keyword; and
    when the exact matches alone number [top_k] or more, one end of which
    is the normalised keyword. *)
Theorem neighbours_linked (df : list triple) (keyword : string) (top_k : Z)
    (c : string) :
  In c (find_related_concepts df keyword top_k) ->
  linked df (normalised keyword) c
  /\ (top_k <= Z.of_nat (length (exact_neighbours df (normalised keyword))) ->
      exactly_linked df (normalised keyword) c).
Proof.
  intros H. apply neighbour_is_candidate in H as (n & _ & _ & _ & Hc).
  unfold candidates in Hc. cbv zeta in Hc.
  destruct (Z.of_nat (length (exact_neighbours df (normalised keyword)))
            <? top_k) eqn:Hlt.
  - apply Z.ltb_lt in Hlt. split; [|lia].
    apply in_app_or in Hc as [Hc|Hc];
      [apply exactly_linked_linked, exact_is_linked|apply substring_is_linked];
      exact Hc.
  - split; [apply exactly_linked_linked|intros _]; now apply exact_is_linked.
Qed.

(** The answer is in order of falling frequency among the candidates, and
    every concept of it occurs among them. *)
Theorem neighbours_by_frequency (df : list triple) (keyword : string)
    (top_k : Z) :
  let cands := candidates df keyword top_k in
  StronglySorted (fun a b => (occurrences cands b <= occurrences cands a)%nat)
    (find_related_concepts df keyword top_k)
  /\ Forall (fun c => (1 <= occurrences cands c)%nat)
       (find_related_concepts df keyword top_k).
Proof.
  intros cands. split.
  - destruct df as [|t df]; [constructor|].
    rewrite find_related_unfold by discriminate. fold cands.
    set (L := most_common top_k _).
    assert (Hs : StronglySorted (fun a b => (snd b <= snd a)%nat) L)
      by apply most_common_sorted.
    assert (Hc : Forall (fun e => snd e = occurrences cands (fst e)) L).
    { apply List.Forall_forall. intros [c n] Hin. cbn [fst snd].
      apply most_common_sub in Hin. unfold counter_del in Hin.
      apply filter_In in Hin as [Hin _].
      destruct (counter_summary cands c c) as (_ & _ & Hall & _).
      rewrite List.Forall_forall in Hall. now destruct (Hall _ Hin). }
    clearbody L. induction Hs as [|e L Hs IH He]; [constructor|].
    inversion Hc as [|? ? Hce HcL]; subst. cbn [map].
    constructor; [now apply IH|].
    apply List.Forall_forall. intros c Hin.
    apply in_map_iff in Hin as (e' & <- & Hin').
    rewrite List.Forall_forall in He, HcL.
    rewrite <- Hce, <- (HcL _ Hin'). now apply He.
  - apply List.Forall_forall. intros c Hin.
    apply neighbour_is_candidate in Hin as (n & _ & -> & Hpos & _). exact Hpos.
Qed.

(** When the candidates other than the keyword are no more than [top_k]
    distinct concepts, all of them are in the answer. *)
Theorem neighbours_complete (df : list triple) (keyword : string) (top_k : Z)
    (c : string) :
  In c (candidates df keyword top_k) ->
  c <> normalised keyword ->
  Z.of_nat (length (counter_del (normalised keyword)
                      (Counter (candidates df keyword top_k)))) <= top_k ->
  In c (find_related_concepts df keyword top_k).
Proof.
  intros Hc Hne Hlen.
  destruct df as [|t df].
  { exfalso. unfold candidates, exact_neighbours, substring_neighbours in Hc.
    simpl in Hc. destruct (_ <? top_k) in Hc; exact Hc. }
  rewrite find_related_unfold by discriminate.
  destruct (counter_summary (candidates (t :: df) keyword top_k) c c)
    as (_ & _ & _ & Hiff & _).
  apply Hiff in Hc. apply in_map_iff in Hc as ([c' n] & Hc' & Hin).
  simpl in Hc'. subst c'.
  apply in_map_iff. exists (c, n). split; [reflexivity|].
  unfold most_common, Py.sort_by.
  rewrite firstn_all2 by (rewrite stable_sort_length; lia).
  apply (Permutation_in _ (Permutation_sym (stable_sort_perm _ _))).
  unfold counter_del. apply filter_In. split; [exact Hin|].
  cbn [fst]. apply negb_true_iff, String.eqb_neq, Hne.
Qed.

(** The answer depends on the keyword only through its lower-cased,
    trimmed form: case and surrounding white space of the query make no
    difference. *)
Theorem neighbours_query_normalised (df : list triple) (keyword : string)
    (top_k : Z) :
  find_related_concepts df keyword top_k
  = find_related_concepts df (normalised keyword) top_k
  /\ find_related_concepts df (Py.lower keyword) top_k
     = find_related_concepts df keyword top_k
  /\ find_related_concepts df (Py.strip keyword) top_k
     = find_related_concepts df keyword top_k.
Proof.
  assert (H : forall k1 k2, normalised k1 = normalised k2 ->
                find_related_concepts df k1 top_k
                = find_related_concepts df k2 top_k).
  { intros k1 k2 Hk. destruct df as [|t df]; [reflexivity|].
    rewrite !find_related_unfold by discriminate.
    unfold candidates. now rewrite Hk. }
  split; [|split]; apply H.
  - symmetry. apply normalised_idem.
  - unfold normalised. now rewrite lower_idem.
  - unfold normalised. now rewrite lower_strip, strip_idem.
Qed.

End NeighbourTheorems.

(* ===================================================================== *)
(** * More on the recall aggregator *)
(* ===================================================================== *)

Section MergeExtras.
Import Search Recall Spec Terms.

Lemma merge_cover (expanded_results : list Item.item) :
  forall (seen_ids : gset (option string)) (final_list : list Item.item),
  (forall i, (i ∈ seen_ids) <-> (i ∈ ids final_list)) ->
  forall i,
    (i ∈ ids (merge seen_ids final_list expanded_results))
    <-> (i ∈ ids final_list) \/ (i ∈ ids expanded_results).
Proof.
  induction expanded_results as [|item rest IH];
    intros seen_ids final_list Hseen i.
  - cbn [merge ids map]. rewrite elem_of_nil. tauto.
  - cbn [merge]. unfold ids in *. cbn [map]. rewrite elem_of_cons.
    destruct (decide (Item.id item ∈ seen_ids)) as [Hin|Hout].
    + rewrite (IH seen_ids final_list Hseen i). apply Hseen in Hin.
      split; [tauto|]. intros [H|[->|H]]; auto.
    + rewrite (IH ({[Item.id item]} ∪ seen_ids) (final_list ++ [item])).
      * rewrite map_app, elem_of_app. cbn [map].
        rewrite list_elem_of_singleton. tauto.
      * intros j. rewrite map_app. cbn [map].
        rewrite elem_of_union, elem_of_singleton, elem_of_app, Hseen.
        rewrite list_elem_of_singleton. tauto.
Qed.

Lemma merge_length (expanded_results : list Item.item) :
  forall (seen_ids : gset (option string)) (final_list : list Item.item),
  (length final_list <= length (merge seen_ids final_list expanded_results)
   <= length final_list + length expanded_results)%nat.
Proof.
  induction expanded_results as [|item rest IH]; intros seen_ids final_list;
    cbn [merge length]; [lia|].
  destruct (decide (Item.id item ∈ seen_ids)).
  - specialize (IH seen_ids final_list). lia.
  - specialize (IH ({[Item.id item]} ∪ seen_ids) (final_list ++ [item])).
    rewrite length_app in IH. cbn [length] in IH. lia.
Qed.

Lemma merge_skip (expanded_results : list Item.item) :
  forall (seen_ids : gset (option string)) (final_list : list Item.item),
  (forall x, In x expanded_results -> Item.id x ∈ seen_ids) ->
  merge seen_ids final_list expanded_results = final_list.
Proof.
  induction expanded_results as [|item rest IH]; intros seen_ids final_list H;
    cbn [merge]; [reflexivity|].
  destruct (decide (Item.id item ∈ seen_ids)) as [Hin|Hout].
  - apply IH. intros x Hx. apply H. now right.
  - exfalso. apply Hout, H. now left.
Qed.

(** The merge keeps the ids of both lists and no other: an id is in the
    merged list exactly when it is in the original results or in the
    neighbour results.  The merged list is no shorter than the original
    results and no longer than the two lists together, and merging the
    same neighbour results into it once more changes nothing. *)
Theorem merge_ids (final_list expanded_results : list Item.item)
    (i : option string) :
  let merged :=
    merge (list_to_set (ids final_list)) final_list expanded_results in
  ((i ∈ ids merged) <-> (i ∈ ids final_list) \/ (i ∈ ids expanded_results))
  /\ (length final_list <= length merged
      <= length final_list + length expanded_results)%nat
  /\ merge (list_to_set (ids merged)) merged expanded_results = merged.
Proof.
  intros merged.
  assert (Hcover : forall j, (j ∈ ids merged)
                             <-> (j ∈ ids final_list) \/ (j ∈ ids expanded_results)).
  { intros j. apply merge_cover. intros k. apply elem_of_list_to_set. }
  split; [apply Hcover|]. split; [apply merge_length|].
  apply merge_skip. intros x Hx. apply elem_of_list_to_set, Hcover. right.
  unfold ids. apply list_elem_of_In, in_map, Hx.
Qed.

End MergeExtras.

Section RecallExtras.
Import Search Recall Spec Terms.
Context {World : Type}.
Variable http_get : World -> request -> World * reply.

(** The requests of one work search: all for the work endpoint, all with
    the keyword searched. *)
Lemma work_search_requests (keyword : string) (page size : Z) (order : string)
    (sort : option string) (s : state World) :
  exists new,
    sent (fst (search_acemap http_get "work" keyword page size order sort s))
    = sent s ++ new
    /\ Forall (fun req => url req = String.append API_BASE "/work/search"
                          /\ params req !! "keyword" = Some (PStr keyword)) new.
Proof.
  destruct (sort_given sort) eqn:Hg.
  - destruct sort as [srt|]; [|discriminate]. cbn in Hg.
    destruct (accumulate_pages http_get 5 keyword (target_count page size)
                [] 1 None s) as (k & _ & Hsent & _).
    eexists. split.
    + rewrite <- Hsent. rewrite ranker_unfold by exact Hg.
      destruct (accumulate http_get 5 _ "work" keyword _ [] 1 None s)
        as [s1 [[all [last|]]|e|]]; reflexivity.
    + apply List.Forall_forall. intros req Hin.
      apply in_map_iff in Hin as (i & <- & _). split; reflexivity.
  - eexists. split.
    + rewrite (search_acemap_plain http_get "work"
                 (String.append API_BASE "/work/search"));
        [|reflexivity|now right].
      now rewrite requests_get_eq.
    + constructor; [|constructor]. split; [reflexivity|].
      unfold plain_request, build_params. cbn [params String.eqb Ascii.eqb Bool.eqb].
      destruct sort as [srt|]; [cbn in Hg; rewrite Hg|]; reflexivity.
Qed.

Lemma search_concepts_requests (sort : option string) (order : string)
    (concepts : list string) :
  forall (expanded : list Item.item) (s : state World),
  exists new,
    sent (fst (search_concepts http_get concepts sort order expanded s))
    = sent s ++ new
    /\ Forall (fun req =>
                 url req = String.append API_BASE "/work/search"
                 /\ exists c, In c concepts
                              /\ params req !! "keyword" = Some (PStr c)) new.
Proof.
  induction concepts as [|c rest IH]; intros expanded s.
  - exists []. cbn. rewrite app_nil_r. split; [reflexivity|constructor].
  - destruct (work_search_requests c 1 2 order sort s) as (new1 & Hs1 & Hall1).
    assert (Hall1' : Forall (fun req =>
                 url req = String.append API_BASE "/work/search"
                 /\ exists c', In c' (c :: rest)
                               /\ params req !! "keyword" = Some (PStr c')) new1).
    { eapply List.Forall_impl; [|exact Hall1]. intros req [Hu Hk].
      split; [exact Hu|]. exists c. split; [now left|exact Hk]. }
    cbn [search_concepts]. unfold bind, try_except.
    destruct (search_acemap http_get "work" c 1 2 order sort s)
      as [s1 [d|e|]]; cbn [fst] in Hs1.
    + assert (Hnext : forall ex, exists new,
                 sent (fst (search_concepts http_get rest sort order ex s1))
                 = sent s ++ new
                 /\ Forall (fun req =>
                      url req = String.append API_BASE "/work/search"
                      /\ exists c', In c' (c :: rest)
                           /\ params req !! "keyword" = Some (PStr c')) new).
      { intros ex. destruct (IH ex s1) as (new2 & Hs2 & Hall2).
        exists (new1 ++ new2). rewrite Hs2, Hs1, <- app_assoc.
        split; [reflexivity|]. apply List.Forall_app. split; [exact Hall1'|].
        eapply List.Forall_impl; [|exact Hall2]. intros req [Hu (c' & Hc' & Hk)].
        split; [exact Hu|]. exists c'. split; [now right|exact Hk]. }
      destruct (get_results d) as [items|]; cbn; apply Hnext.
    + cbn. destruct (IH expanded s1) as (new2 & Hs2 & Hall2).
      exists (new1 ++ new2). rewrite Hs2, Hs1, <- app_assoc.
      split; [reflexivity|]. apply List.Forall_app. split; [exact Hall1'|].
      eapply List.Forall_impl; [|exact Hall2]. intros req [Hu (c' & Hc' & Hk)].
      split; [exact Hu|]. exists c'. split; [now right|exact Hk].
    + exists new1. cbn [fst]. split; [exact Hs1|exact Hall1'].
Qed.

Lemma search_concepts_length (srt order : string) (concepts : list string) :
  Py.truthy srt = true ->
  forall (expanded : list Item.item) (s s' : state World)
         (res : list Item.item),
  search_concepts http_get concepts (Some srt) order expanded s = (s', Ret res) ->
  (length res <= length expanded + 2 * length concepts)%nat.
Proof.
  intros Hsrt. induction concepts as [|c rest IH]; intros expanded s s' res.
  - cbn. intros [= _ <-]. lia.
  - cbn [search_concepts]. unfold bind, try_except.
    destruct (search_acemap http_get "work" c 1 2 order (Some srt) s)
      as [s1 [d|e|]] eqn:Hfirst.
    + destruct (ranker_returns http_get _ _ _ _ _ _ _ _ Hsrt Hfirst)
        as (all & last & _ & ->).
      cbn [get_results results set_results]. cbn.
      intros Hrest. apply IH in Hrest.
      rewrite length_app, length_map in Hrest.
      pose proof (slice_window (sort_results srt order all) ((1 - 1) * 2) 2)
        as Hw. cbn [length] in *. lia.
    + cbn. intros Hrest. apply IH in Hrest. cbn [length]. lia.
    + discriminate.
Qed.

(** [search_with_recall] searches nothing but the keyword and the related
    concepts of the index: every request it sends goes to the work
    endpoint and carries the keyword or one of the related concepts. *)
Theorem recall_requests (keyword : string) (df : list triple)
    (sort : option string) (order : string) (s : state World) :
  exists new,
    sent (fst (search_with_recall http_get keyword df sort order s))
    = sent s ++ new
    /\ Forall (fun req =>
                 url req = String.append API_BASE "/work/search"
                 /\ exists k,
                      params req !! "keyword" = Some (PStr k)
                      /\ (k = keyword
                          \/ In k (find_related_concepts df keyword 3))) new.
Proof.
  destruct (work_search_requests keyword 1 5 order sort s)
    as (new1 & Hs1 & Hall1).
  assert (Hall1' : Forall (fun req =>
               url req = String.append API_BASE "/work/search"
               /\ exists k, params req !! "keyword" = Some (PStr k)
                   /\ (k = keyword
                       \/ In k (find_related_concepts df keyword 3))) new1).
  { eapply List.Forall_impl; [|exact Hall1]. intros req [Hu Hk].
    split; [exact Hu|]. exists keyword. split; [exact Hk|now left]. }
  assert (Hnext : forall s1, sent s1 = sent s ++ new1 ->
            forall orig, exists new,
              sent (fst (bind (search_concepts http_get
                                 (find_related_concepts df keyword 3) sort order [])
                           (fun expanded_results =>
                              match get_results orig with
                              | None => raise "'NoneType' object is not iterable"
                              | Some final_list =>
                                  ret {| original_keyword := keyword;
                                         related_concepts :=
                                           find_related_concepts df keyword 3;
                                         recall_results :=
                                           merge (list_to_set (map Item.id final_list))
                                             final_list expanded_results;
                                         total_count :=
                                           Z.of_nat
                                             (length
                                                (merge
                                                   (list_to_set
                                                      (map Item.id final_list))
                                                   final_list expanded_results)) |}
                              end) s1))
              = sent s ++ new
              /\ Forall (fun req =>
                   url req = String.append API_BASE "/work/search"
                   /\ exists k, params req !! "keyword" = Some (PStr k)
                       /\ (k = keyword
                           \/ In k (find_related_concepts df keyword 3))) new).
  { intros s1 Hsent orig.
    destruct (search_concepts_requests sort order
                (find_related_concepts df keyword 3) [] s1)
      as (new2 & Hs2 & Hall2).
    exists (new1 ++ new2). split.
    - unfold bind.
      destruct (search_concepts http_get _ sort order [] s1)
        as [s2 [expanded|e|]]; cbn [fst] in *;
        [destruct (get_results orig); cbn| |];
        rewrite Hs2, Hsent, <- app_assoc; reflexivity.
    - apply List.Forall_app. split; [exact Hall1'|].
      eapply List.Forall_impl; [|exact Hall2].
      intros req [Hu (c & Hc & Hk)]. split; [exact Hu|]. exists c. auto. }
  unfold search_with_recall, bind at 1, try_except.
  destruct (search_acemap http_get "work" keyword 1 5 order sort s)
    as [s1 [d|e|]]; cbn [fst] in Hs1.
  - apply (Hnext s1 Hs1 d).
  - cbn [ret]. apply (Hnext s1 Hs1).
  - exists new1. cbn [fst]. split; [exact Hs1|exact Hall1'].
Qed.

Lemma recall_after_first (keyword : string) (df : list triple)
    (sort : option string) (order : string) (s s1 : state World)
    (o : outcome data) :
  search_acemap http_get "work" keyword 1 5 order sort s = (s1, o) ->
  exists s2 expanded,
    search_with_recall http_get keyword df sort order s
    = (s2,
       match o with
       | Exhausted => Exhausted
       | _ =>
           match get_results
                   match o with
                   | Ret d => d
                   | _ => {| error := None; results := Present [];
                             meta_count := None |}
                   end with
           | Some final_list =>
               Ret {| original_keyword := keyword;
                      related_concepts := find_related_concepts df keyword 3;
                      recall_results :=
                        merge (list_to_set (map Item.id final_list)) final_list
                          expanded;
                      total_count :=
                        Z.of_nat
                          (length
                             (merge (list_to_set (map Item.id final_list))
                                final_list expanded)) |}
           | None => Raise "'NoneType' object is not iterable"
           end
       end).
Proof.
  intros Hfirst. unfold search_with_recall, bind at 1, try_except.
  rewrite Hfirst. destruct o as [d|e|].
  - unfold bind.
    destruct (search_concepts_returns http_get sort order
                (find_related_concepts df keyword 3) [] s1)
      as (s2 & expanded & ->).
    exists s2, expanded. destruct (get_results d); reflexivity.
  - cbn [ret]. unfold bind.
    destruct (search_concepts_returns http_get sort order
                (find_related_concepts df keyword 3) [] s1)
      as (s2 & expanded & ->).
    exists s2, expanded. reflexivity.
  - exists s1, []. reflexivity.
Qed.

(** On responses of the shape of [data] (a JSON object whose [results] is
    absent, [null] or a list of objects with string or absent ids),
    [search_with_recall] raises in one case only, the [TypeError] of a
    response to the original search whose [results] is [null]; a failed
    original search, and failed neighbour searches or ones whose [results]
    is [null], leave it returning; with a sort key it always returns.
    Responses of another shape, on which the id set of the merge raises,
    are outside the embedding. *)
Theorem recall_outcome (keyword : string) (df : list triple)
    (sort : option string) (order : string) (s : state World) :
  let first := search_acemap http_get "work" keyword 1 5 order sort s in
  let out := search_with_recall http_get keyword df sort order s in
  match snd first with
  | Ret d =>
      match results d with
      | Null => snd out = Raise "'NoneType' object is not iterable"
      | _ => exists r, snd out = Ret r
      end
  | _ => exists r, snd out = Ret r
  end
  /\ (if sort_given sort then exists r, snd out = Ret r else True).
Proof.
  intros first out. subst first out.
  pose proof (search_acemap_returns http_get "work" keyword 1 5 order sort s)
    as Hret.
  destruct (search_acemap http_get "work" keyword 1 5 order sort s)
    as [s1 o] eqn:Hfirst.
  destruct (recall_after_first keyword df sort order s s1 o Hfirst)
    as (s2 & expanded & ->).
  cbn [snd] in *. split.
  - destruct o as [d|e|]; [|cbn; eauto|now contradiction Hret].
    unfold get_results. destruct (results d); eauto.
  - destruct (sort_given sort) eqn:Hg; [|exact I].
    destruct sort as [srt|]; [|discriminate]. cbn in Hg.
    destruct o as [d|e|]; [|cbn; eauto|now contradiction Hret].
    destruct (ranker_returns http_get _ _ _ _ _ _ _ _ Hg Hfirst)
      as (all & last & _ & ->).
    cbn. eauto.
Qed.

(** With an empty table [search_with_recall] is the plain search for the
    keyword: it sends no request beyond those of that search, finds no
    related concept, and returns the results of that search as they came,
    or none when that search failed. *)
Theorem recall_empty_graph (keyword : string) (sort : option string)
    (order : string) (s : state World) :
  let first := search_acemap http_get "work" keyword 1 5 order sort s in
  let out := search_with_recall http_get keyword [] sort order s in
  fst out = fst first
  /\ match snd first with
     | Ret d =>
         match get_results d with
         | Some l =>
             snd out = Ret {| original_keyword := keyword;
                              related_concepts := [];
                              recall_results := l;
                              total_count := Z.of_nat (length l) |}
         | None => snd out = Raise "'NoneType' object is not iterable"
         end
     | Raise e =>
         snd out = Ret {| original_keyword := keyword;
                          related_concepts := [];
                          recall_results := [];
                          total_count := 0 |}
     | Exhausted => False
     end.
Proof.
  intros first out. subst first out.
  unfold search_with_recall, bind, try_except.
  pose proof (search_acemap_returns http_get "work" keyword 1 5 order sort s)
    as Hfirst.
  destruct (search_acemap http_get "work" keyword 1 5 order sort s)
    as [s1 [d|e|]]; cbn [fst snd ret] in *; [| |now contradiction Hfirst].
  - cbn [find_related_concepts search_concepts ret].
    destruct (get_results d) as [l|]; cbn; split; reflexivity.
  - cbn. split; reflexivity.
Qed.

(** What [search_with_recall] returns names the keyword it was given and
    at most three related concepts, those of the index, and counts its
    results; with a sort key the results are at most eleven, five for the
    keyword and two for each related concept. *)
Theorem recall_bounds (keyword : string) (df : list triple)
    (sort : option string) (order : string) (s s' : state World) (r : recall) :
  search_with_recall http_get keyword df sort order s = (s', Ret r) ->
  original_keyword r = keyword
  /\ related_concepts r = find_related_concepts df keyword 3
  /\ (length (related_concepts r) <= 3)%nat
  /\ total_count r = Z.of_nat (length (recall_results r))
  /\ (if sort_given sort then (length (recall_results r) <= 11)%nat else True).
Proof.
  pose proof (neighbours_length df keyword 3 ltac:(lia)) as Hthree.
  unfold search_with_recall, bind at 1, try_except.
  destruct (search_acemap http_get "work" keyword 1 5 order sort s)
    as [s1 [d|e|]] eqn:Hfirst; cbn [ret]; [| |discriminate].
  - unfold bind.
    destruct (search_concepts http_get (find_related_concepts df keyword 3)
                sort order [] s1) as [s2 [expanded|e|]] eqn:Hexp;
      [|discriminate|discriminate].
    destruct (get_results d) as [orig|] eqn:Horig; [|discriminate].
    cbn. intros [= _ <-].
    cbn [original_keyword related_concepts recall_results total_count].
    repeat split; try lia.
    destruct (sort_given sort) eqn:Hg; [|exact I].
    destruct sort as [srt|]; [|discriminate]. cbn in Hg.
    destruct (ranker_returns http_get _ _ _ _ _ _ _ _ Hg Hfirst)
      as (all & last & _ & ->).
    cbn [get_results results set_results] in Horig.
    injection Horig as <-.
    pose proof (slice_window (sort_results srt order all) ((1 - 1) * 5) 5)
      as Hw.
    pose proof (search_concepts_length srt order _ Hg _ _ _ _ Hexp) as Hlen.
    pose proof (merge_length expanded
                  (list_to_set
                     (map Item.id
                        (Py.slice (sort_results srt order all) ((1 - 1) * 5)
                           ((1 - 1) * 5 + 5))))
                  (Py.slice (sort_results srt order all) ((1 - 1) * 5)
                     ((1 - 1) * 5 + 5))) as Hm.
    cbn [length] in *. lia.
  - unfold bind.
    destruct (search_concepts http_get (find_related_concepts df keyword 3)
                sort order [] s1) as [s2 [expanded|e'|]] eqn:Hexp;
      [|discriminate|discriminate].
    cbn. intros [= _ <-].
    cbn [original_keyword related_concepts recall_results total_count].
    repeat split; try lia.
    destruct (sort_given sort) eqn:Hg; [|exact I].
    destruct sort as [srt|]; [|discriminate]. cbn in Hg.
    pose proof (search_concepts_length srt order _ Hg _ _ _ _ Hexp) as Hlen.
    pose proof (merge_length expanded ∅ []) as Hm.
    cbn [length] in *. lia.
Qed.

End RecallExtras.

(* ===================================================================== *)
(** * More on the intent parser *)
(* ===================================================================== *)

Section SplitFacts.
Import Terms.
















End SplitFacts.

Section IntentExtras.
Import Terms.

Lemma truthy_lower (q : string) : Py.truthy (Py.lower q) = Py.truthy q.
Proof. now destruct q. Qed.

Lemma parse_sort (q : string) :
  Intent.sort (Intent.parse q)
  = if Py.truthy q then Intent.sort_intent (Py.lower q) else None.
Proof. now destruct q. Qed.

Lemma parse_type (q : string) :
  Intent.type (Intent.parse q)
  = if Py.truthy q then Intent.type_intent (Py.lower q) else None.
Proof. now destruct q. Qed.

(** The sort and type intents do not depend on the case of the query, and
    each takes one of three values. *)
Theorem parse_case_insensitive (query : string) :
  Intent.sort (Intent.parse (Py.lower query)) = Intent.sort (Intent.parse query)
  /\ Intent.type (Intent.parse (Py.lower query))
     = Intent.type (Intent.parse query)
  /\ In (Intent.sort (Intent.parse query)) [None; Some "citation"; Some "date"]
  /\ In (Intent.type (Intent.parse query))
       [None; Some "author"; Some "institution"].
Proof.
  rewrite !parse_sort, !parse_type, truthy_lower, lower_idem.
  split; [reflexivity|]. split; [reflexivity|].
  unfold Intent.sort_intent, Intent.type_intent.
  destruct (Py.truthy query); split; cbn [In]; auto;
    repeat match goal with
           | |- context [if ?b then _ else _] => destruct b
           end; auto.
Qed.


End IntentExtras.

Section NeighbourBounds.
Import Recall Terms.

(** The answer holds at most [top_k] concepts, none at all for a [top_k]
    of zero or less, and never the lower-cased, trimmed keyword. *)
Theorem neighbours_bounded (df : list triple) (keyword : string) (top_k : Z) :
  Z.of_nat (length (find_related_concepts df keyword top_k)) <= Z.max top_k 0
  /\ (if top_k <=? 0 then find_related_concepts df keyword top_k = [] else True)
  /\ ~ In (normalised keyword) (find_related_concepts df keyword top_k).
Proof.
  assert (Hzero : top_k <= 0 -> find_related_concepts df keyword top_k = []).
  { intros Hk. destruct df as [|t df]; [reflexivity|].
    rewrite find_related_unfold by discriminate. unfold most_common.
    replace (Z.to_nat top_k) with O by lia. reflexivity. }
  split; [|split].
  - destruct (Z.le_gt_cases top_k 0) as [Hk|Hk].
    + rewrite (Hzero Hk). simpl. lia.
    + pose proof (neighbours_length df keyword top_k ltac:(lia)). lia.
  - destruct (top_k <=? 0) eqn:Hk; [|exact I]. apply Hzero. now apply Z.leb_le.
  - apply neighbours_exclude_normalised.
Qed.

End NeighbourBounds.

(* ===================================================================== *)
(** * The page *)
(* ===================================================================== *)

Section PageExtras.
Import Search Recall Spec Terms.
Context {World : Type}.
Variable http_get : World -> request -> World * reply.

Lemma enhanced_items (sort_param : option string) (order_param : string)
    (r : recall) :
  App.enhanced_work_items sort_param order_param r
  = match sort_param with
    | Some srt =>
        if Py.truthy srt then sort_results srt order_param (recall_results r)
        else recall_results r
    | None => recall_results r
    end.
Proof.
  unfold App.enhanced_work_items, sort_results.
  destruct sort_param as [srt|]; [|reflexivity].
  destruct (Py.truthy srt); [|reflexivity].
  destruct (String.eqb srt "cited_by_count"); [reflexivity|].
  destruct (String.eqb srt "publication_date"); reflexivity.
Qed.

Lemma enhanced_items_perm (sort_param : option string) (order_param : string)
    (r : recall) :
  Permutation (App.enhanced_work_items sort_param order_param r)
    (recall_results r).
Proof.
  rewrite enhanced_items. destruct sort_param as [srt|]; [|reflexivity].
  destruct (Py.truthy srt); [apply sort_results_perm|reflexivity].
Qed.

Lemma sort_map_values (sort_option : string) :
  In (Page.sort_map sort_option)
    [(None, "desc"); (Some "cited_by_count", "desc");
     (Some "cited_by_count", "asc"); (Some "publication_date", "desc");
     (Some "publication_date", "asc")].
Proof.
  unfold Page.sort_map.
  repeat match goal with
         | |- context [if ?b then _ else _] => destruct b
         end; cbn [In]; auto 10.
Qed.

(** What the page shows for a keyword: the work channel never carries an
    error and counts its own items, which are the results of the recall
    search, reordered by the sort option when there is one and as they came
    when there is none; the results of the work search of [search_all] are
    not shown; the author and institution channels are those of
    [search_all]; the recall search runs after [search_all], in the world
    that one left. *)
Theorem page_work_channel (keyword : string) (df : list triple)
    (sort_option : string) (s s' : state World) (sh : Page.shown) :
  Page.run http_get keyword df sort_option s = (s', Ret (Some sh)) ->
  let search_keyword := Intent.keyword (Intent.parse keyword) in
  let sort_param := fst (Page.sort_map sort_option) in
  let order_param := snd (Page.sort_map sort_option) in
  exists env s1 r items,
    search_all http_get search_keyword sort_param order_param s = (s1, Ret env)
    /\ search_with_recall http_get search_keyword df sort_param order_param s1
       = (s', Ret r)
    /\ work (Page.all_results sh)
       = {| error := None; results := Present items;
            meta_count := Some (Z.of_nat (length items)) |}
    /\ author (Page.all_results sh) = author env
    /\ institution (Page.all_results sh) = institution env
    /\ Page.related_concepts sh = related_concepts r
    /\ Permutation items (recall_results r)
    /\ match sort_param with
       | Some srt => items = sort_results srt order_param (recall_results r)
                     /\ (srt = "cited_by_count" \/ srt = "publication_date")
       | None => items = recall_results r
       end.
Proof.
  unfold Page.run. destruct (Py.truthy keyword); [|discriminate].
  cbv zeta.
  pose proof (sort_map_values sort_option) as Hmap.
  destruct (Page.sort_map sort_option) as [sort_param order_param].
  cbn [fst snd]. unfold bind at 1.
  destruct (search_all http_get _ sort_param order_param s)
    as [s1 [env|e|]]; [|discriminate|discriminate].
  unfold bind.
  destruct (search_with_recall http_get _ df sort_param order_param s1)
    as [s2 [r|e|]] eqn:Hrec; [|discriminate|discriminate].
  cbn. intros [= <- <-]. cbn [Page.all_results Page.related_concepts work
                              author institution].
  exists env, s1, r, (App.enhanced_work_items sort_param order_param r).
  split; [reflexivity|]. split; [exact Hrec|].
  do 4 (split; [reflexivity|]).
  split; [apply enhanced_items_perm|].
  rewrite enhanced_items. cbn [In] in Hmap.
  destruct Hmap as [H|[H|[H|[H|[H|[]]]]]]; injection H as <- <-;
    cbn [Py.truthy]; auto.
Qed.

Lemma down_search (e : string) :
  (forall w req, snd (http_get w req) = Failed e) ->
  forall (search_type endpoint keyword : string) (page size : Z)
         (order : string) (sort : option string) (s : state World),
  ENDPOINTS !! search_type = Some endpoint ->
  snd (search_acemap http_get search_type keyword page size order sort s)
  = Raise e.
Proof.
  intros Hdown search_type endpoint keyword page size order sort s He.
  destruct (String.eqb search_type "work" && sort_given sort) eqn:Hc.
  - apply andb_true_iff in Hc as [Hw Hg]. apply String.eqb_eq in Hw as ->.
    destruct sort as [srt|]; [|discriminate]. cbn in Hg.
    rewrite ranker_unfold by exact Hg. rewrite accumulate_round.
    pose proof (target_count_range page size) as [_ [Hlo _]].
    assert (Hlt : (Z.of_nat (length (@nil Item.item)) <? target_count page size)
                  = true) by (apply Z.ltb_lt; simpl; lia).
    rewrite Hlt. cbv zeta. now rewrite Hdown.
  - rewrite (search_acemap_plain http_get _ _ _ _ _ _ _ _ He).
    + rewrite requests_get_eq. cbn [snd]. now rewrite Hdown.
    + apply andb_false_iff in Hc as [Hc|Hc]; [left|now right].
      now apply String.eqb_neq.
Qed.

Lemma down_channel (e : string) :
  (forall w req, snd (http_get w req) = Failed e) ->
  forall (search_type endpoint keyword : string) (page size : Z)
         (order : string) (sort : option string) (s : state World),
  ENDPOINTS !! search_type = Some endpoint ->
  exists s1,
    try_except
      (search_acemap http_get search_type keyword page size order sort)
      (fun e => ret (stand_in e)) s = (s1, Ret (stand_in e)).
Proof.
  intros Hdown search_type endpoint keyword page size order sort s He.
  pose proof (down_search e Hdown search_type endpoint keyword page size order
                sort s He) as Hr.
  unfold try_except.
  destruct (search_acemap http_get search_type keyword page size order sort s)
    as [s1 o]. cbn [snd] in Hr. subst o. now exists s1.
Qed.

Lemma down_concepts (e : string) (sort : option string) (order : string) :
  (forall w req, snd (http_get w req) = Failed e) ->
  forall (concepts : list string) (expanded : list Item.item) (s : state World),
  exists s',
    search_concepts http_get concepts sort order expanded s = (s', Ret expanded).
Proof.
  intros Hdown. induction concepts as [|c rest IH]; intros expanded s.
  - now exists s.
  - cbn [search_concepts]. unfold bind, try_except.
    pose proof (down_search e Hdown "work" _ c 1 2 order sort s eq_refl) as Hr.
    destruct (search_acemap http_get "work" c 1 2 order sort s) as [s1 o].
    cbn [snd] in Hr. subst o. cbn. apply IH.
Qed.

(** When the upstream fails every request with the message [e], the page
    still comes back: the author and institution channels are the
    dictionaries with [error] set to [e] and an empty [results], while the
    work channel shows an empty list with count 0 and no [error] key, the
    failures of the recall search having been swallowed; the related
    concepts are shown all the same. *)
Theorem page_upstream_down (e keyword : string) (df : list triple)
    (sort_option : string) (s : state World) :
  (forall w req, snd (http_get w req) = Failed e) ->
  Py.truthy keyword = true ->
  exists s',
    Page.run http_get keyword df sort_option s
    = (s',
       Ret (Some
              {| Page.all_results :=
                   {| work := {| error := None; results := Present [];
                                 meta_count := Some 0 |};
                      author := {| error := Some e; results := Present [];
                                   meta_count := None |};
                      institution := {| error := Some e; results := Present [];
                                        meta_count := None |} |};
                 Page.related_concepts :=
                   find_related_concepts df
                     (Intent.keyword (Intent.parse keyword)) 3 |})).
Proof.
  intros Hdown Hkw. unfold Page.run. rewrite Hkw. cbv zeta.
  destruct (Page.sort_map sort_option) as [sort_param order_param].
  set (kw := Intent.keyword (Intent.parse keyword)).
  unfold bind at 1. unfold search_all.
  unfold bind at 1.
  destruct (down_channel e Hdown "work" _ kw 1 5 order_param sort_param s
              eq_refl) as (s1 & ->).
  unfold bind at 1.
  destruct (down_channel e Hdown "author" _ kw 1 3 "desc" None s1 eq_refl)
    as (s2 & ->).
  unfold bind at 1.
  destruct (down_channel e Hdown "institution" _ kw 1 3 "desc" None s2 eq_refl)
    as (s3 & ->).
  cbn [ret]. unfold bind at 1. unfold search_with_recall.
  unfold bind at 1, try_except.
  pose proof (down_search e Hdown "work" _ kw 1 5 order_param sort_param s3
                eq_refl) as Hr.
  destruct (search_acemap http_get "work" kw 1 5 order_param sort_param s3)
    as [s4 o]. cbn [snd] in Hr. subst o. cbn [ret]. unfold bind at 1.
  destruct (down_concepts e sort_param order_param Hdown
              (find_related_concepts df kw 3) [] s4) as (s5 & ->).
  cbn [get_results results merge length]. cbn [ret author institution].
  exists s5. rewrite enhanced_items.
  cbn [recall_results related_concepts].
  destruct sort_param as [srt|]; [|reflexivity].
  destruct (Py.truthy srt); [|reflexivity].
  unfold sort_results.
  destruct (String.eqb srt "cited_by_count"); [reflexivity|].
  destruct (String.eqb srt "publication_date"); reflexivity.
Qed.

End PageExtras.

(* ===================================================================== *)
(** * The further properties on concrete inputs *)
(* ===================================================================== *)

Section Instances.
Import Search Recall Spec Terms.

Lemma search_acemap_invalid_type_witness :
  "paper" <> "work" /\ "paper" <> "author" /\ "paper" <> "institution"
  /\ search_acemap Fixture.endless "paper" "rock" 1 10 "desc" None Fixture.start
     = (Fixture.start, Raise (invalid_type "paper")).
Proof.
  split; [discriminate|]. split; [discriminate|]. split; [discriminate|].
  apply (search_acemap_invalid_type Fixture.endless "paper" "rock" 1 10 "desc"
           None Fixture.start); discriminate.
Defined.

Lemma search_acemap_pass_through_witness :
  ENDPOINTS !! "author" = Some (String.append API_BASE "/author/search")
  /\ ("author" <> "work" \/ sort_given (Some "cited_by_count") = false)
  /\ (let req := plain_request (String.append API_BASE "/author/search")
                   "author" "rock" 1 3 "asc" (Some "cited_by_count") in
      search_acemap (Fixture.by_keyword Fixture.rocks) "author" "rock" 1 3 "asc"
        (Some "cited_by_count") Fixture.start
      = ({| world := fst (Fixture.by_keyword Fixture.rocks
                            (world Fixture.start) req);
            sent := sent Fixture.start ++ [req] |},
         outcome_of (snd (Fixture.by_keyword Fixture.rocks
                            (world Fixture.start) req)))
      /\ params req !! "keyword" = Some (PStr "rock")
      /\ params req !! "page" = Some (PInt 1)
      /\ params req !! "size" = Some (PInt 3)
      /\ ("author" <> "work" -> asks_sort req = None /\ asks_order req = None)
      /\ ("author" = "work" ->
          asks_sort req = None /\ asks_order req = Some (PStr "asc"))).
Proof.
  split; [reflexivity|]. split; [left; discriminate|].
  apply (search_acemap_pass_through (Fixture.by_keyword Fixture.rocks) "author"
           (String.append API_BASE "/author/search") "rock" 1 3 "asc"
           (Some "cited_by_count") Fixture.start);
    [reflexivity|left; discriminate].
Defined.

Lemma ranker_raises_upstream_witness :
  Py.truthy "cited_by_count" = true
  /\ exists s',
       search_acemap (down "boom") "work" "rock" 1 5 "desc"
         (Some "cited_by_count") Fixture.start = (s', Raise "boom")
       /\ exists w req w', down "boom" w req = (w', Failed "boom").
Proof.
  split; [reflexivity|].
  destruct (search_acemap (down "boom") "work" "rock" 1 5 "desc"
              (Some "cited_by_count") Fixture.start) as [s' o] eqn:E.
  assert (Ho : o = Raise "boom").
  { apply (f_equal snd) in E. vm_compute in E. now symmetry. }
  subst o. exists s'. split; [reflexivity|].
  exact (ranker_raises_upstream (down "boom") "rock" 1 5 "desc" "cited_by_count"
           Fixture.start s' "boom" eq_refl E).
Defined.

Lemma ranker_window_witness :
  Py.truthy "cited_by_count" = true /\ 0 <= 5
  /\ exists s' d,
       search_acemap (Fixture.by_keyword Fixture.rocks) "work" "rock" 1 5 "desc"
         (Some "cited_by_count") Fixture.start = (s', Ret d)
       /\ exists l, results d = Present l /\ Z.of_nat (length l) <= 5.
Proof.
  split; [reflexivity|]. split; [lia|].
  destruct (search_acemap (Fixture.by_keyword Fixture.rocks) "work" "rock" 1 5
              "desc" (Some "cited_by_count") Fixture.start)
    as [s' [d|e|]] eqn:E.
  - exists s', d. split; [reflexivity|].
    exact (ranker_window (Fixture.by_keyword Fixture.rocks) "rock" 1 5 "desc"
             "cited_by_count" Fixture.start s' d eq_refl ltac:(lia) E).
  - vm_compute in E. discriminate E.
  - vm_compute in E. discriminate E.
Defined.

Lemma ranker_beyond_cap_witness :
  (forall w req, page_within max_page_size (snd (Fixture.endless w req)))
  /\ Py.truthy "cited_by_count" = true
  /\ 500 <= (6 - 1) * 100
  /\ exists s' d,
       search_acemap Fixture.endless "work" "rock" 6 100 "desc"
         (Some "cited_by_count") Fixture.start = (s', Ret d)
       /\ results d = Present [].
Proof.
  assert (H : forall w req,
             page_within max_page_size (snd (Fixture.endless w req))).
  { intros w req. vm_compute. discriminate. }
  split; [exact H|]. split; [reflexivity|]. split; [lia|].
  destruct (search_acemap Fixture.endless "work" "rock" 6 100 "desc"
              (Some "cited_by_count") Fixture.start)
    as [s' [d|e|]] eqn:E.
  - exists s', d. split; [reflexivity|].
    exact (ranker_beyond_cap Fixture.endless "rock" 6 100 "desc"
             "cited_by_count" Fixture.start s' d H eq_refl ltac:(lia) E).
  - apply (f_equal snd) in E. vm_compute in E. discriminate E.
  - apply (f_equal snd) in E. vm_compute in E. discriminate E.
Defined.

Lemma ranker_sorted_page_witness :
  Py.truthy "cited_by_count" = true
  /\ exists s' d,
       search_acemap (Fixture.by_keyword Fixture.twice) "work" "rock" 1 5 "desc"
         (Some "cited_by_count") Fixture.start = (s', Ret d)
       /\ exists l,
            results d = Present l
            /\ ("cited_by_count" = "cited_by_count" ->
                if String.eqb "desc" "desc" then non_increasing citation_key l
                else non_decreasing citation_key l)
            /\ ("cited_by_count" = "publication_date" ->
                date_ordered (String.eqb "desc" "desc") l).
Proof.
  split; [reflexivity|].
  destruct (search_acemap (Fixture.by_keyword Fixture.twice) "work" "rock" 1 5
              "desc" (Some "cited_by_count") Fixture.start)
    as [s' [d|e|]] eqn:E.
  - exists s', d. split; [reflexivity|].
    exact (ranker_sorted_page (Fixture.by_keyword Fixture.twice) "rock" 1 5
             "desc" "cited_by_count" Fixture.start s' d eq_refl E).
  - vm_compute in E. discriminate E.
  - vm_compute in E. discriminate E.
Defined.

Lemma ranker_provenance_witness :
  Py.truthy "cited_by_count" = true
  /\ exists s' d,
       search_acemap Answers.two_pages "work" "rock" 1 5
         "desc" (Some "cited_by_count") Fixture.start = (s', Ret d)
       /\ exists l final bodies,
            results d = Present l
            /\ Forall (from_upstream Answers.two_pages) l
            /\ upstream_body Answers.two_pages (Some final)
            /\ error d = error final
            /\ meta_count d = meta_count final
            /\ (1 <= length bodies <= 5)%nat
            /\ Answers.replay Answers.two_pages
                 (world Fixture.start)
                 (map (fun i => loop_request "rock" (1 + Z.of_nat i))
                    (seq 0 (length bodies)))
               = (world s', map Body bodies)
            /\ last bodies = Some final
            /\ l = Py.slice
                     (sort_results "cited_by_count" "desc"
                        (concat (map Answers.page_items bodies)))
                     ((1 - 1) * 5) ((1 - 1) * 5 + 5).
Proof.
  split; [reflexivity|].
  destruct (search_acemap Answers.two_pages "work" "rock"
              1 5 "desc" (Some "cited_by_count") Fixture.start)
    as [s' [d|e|]] eqn:E.
  - exists s', d. split; [reflexivity|].
    exact (ranker_provenance Answers.two_pages "rock" 1 5
             "desc" "cited_by_count" Fixture.start s' d eq_refl E).
  - vm_compute in E. discriminate E.
  - vm_compute in E. discriminate E.
Defined.

(** The run of the witness: two pages are fetched, and the dictionary
    returned carries the count of the second with the five most cited
    papers of both. *)
Example ranker_last_meta_run :
  snd (search_acemap Answers.two_pages "work" "rock" 1 5 "desc"
         (Some "cited_by_count") Fixture.start)
  = Ret {| error := None;
           results :=
             Present (Fixture.paper "z" (Some 9) None None
                      :: repeat (Fixture.paper "w" (Some 1) None None) 4);
           meta_count := Some 1 |}
  /\ length (sent (fst (search_acemap Answers.two_pages "work" "rock" 1 5 "desc"
                          (Some "cited_by_count") Fixture.start))) = 2%nat.
Proof. split; vm_compute; reflexivity. Qed.

Lemma ranker_pages_witness :
  Py.truthy "cited_by_count" = true
  /\ exists k,
       (1 <= k <= 5)%nat
       /\ sent (fst (search_acemap Fixture.endless "work" "rock" 1 5 "desc"
                       (Some "cited_by_count") Fixture.start))
          = sent Fixture.start
            ++ map (fun i => loop_request "rock" (1 + Z.of_nat i)) (seq 0 k)
       /\ 100 * (Z.of_nat k - 1) < target_count 1 5
       /\ forall p,
            params (loop_request "rock" p) !! "page" = Some (PInt p)
            /\ params (loop_request "rock" p) !! "size" = Some (PInt 100)
            /\ params (loop_request "rock" p) !! "keyword" = Some (PStr "rock").
Proof.
  split; [reflexivity|].
  exact (ranker_pages Fixture.endless "rock" 1 5 "desc" "cited_by_count"
           Fixture.start eq_refl).
Defined.

Lemma date_desc_dateless_first_witness :
  Forall below_nines [Fixture.dated; Fixture.undated]
  /\ (let out := sort_results "publication_date" "desc"
                   [Fixture.dated; Fixture.undated] in
      out = List.filter lacks_date [Fixture.dated; Fixture.undated]
            ++ List.filter has_date out
      /\ Forall (fun x => date_key true x = "9999")
           (List.filter lacks_date [Fixture.dated; Fixture.undated])
      /\ non_increasing_dates (List.filter has_date out)
      /\ dateless_first out = true).
Proof.
  assert (H : Forall below_nines [Fixture.dated; Fixture.undated]).
  { constructor 2; [intros _; reflexivity|].
    constructor 2; [intros H; discriminate H|]. constructor 1. }
  split; [exact H|].
  exact (date_desc_dateless_first [Fixture.dated; Fixture.undated] H).
Defined.

Lemma neighbours_linked_witness :
  In "mineral" (find_related_concepts Fixture.scenario "rock" 3)
  /\ linked Fixture.scenario (normalised "rock") "mineral"
  /\ (3 <= Z.of_nat (length (exact_neighbours Fixture.scenario
                               (normalised "rock"))) ->
      exactly_linked Fixture.scenario (normalised "rock") "mineral").
Proof.
  assert (H : In "mineral" (find_related_concepts Fixture.scenario "rock" 3)).
  { right. left. reflexivity. }
  split; [exact H|].
  exact (neighbours_linked Fixture.scenario "rock" 3 "mineral" H).
Defined.

Lemma neighbours_complete_witness :
  In "mineral" (candidates Fixture.scenario "rock" 3)
  /\ "mineral" <> normalised "rock"
  /\ Z.of_nat (length (counter_del (normalised "rock")
                         (Counter (candidates Fixture.scenario "rock" 3)))) <= 3
  /\ In "mineral" (find_related_concepts Fixture.scenario "rock" 3).
Proof.
  assert (H1 : In "mineral" (candidates Fixture.scenario "rock" 3)).
  { right. left. reflexivity. }
  assert (H2 : "mineral" <> normalised "rock").
  { vm_compute. discriminate. }
  assert (H3 : Z.of_nat (length (counter_del (normalised "rock")
                           (Counter (candidates Fixture.scenario "rock" 3))))
               <= 3).
  { vm_compute. discriminate. }
  split; [exact H1|]. split; [exact H2|]. split; [exact H3|].
  exact (neighbours_complete Fixture.scenario "rock" 3 "mineral" H1 H2 H3).
Defined.

Lemma recall_bounds_witness :
  exists s' r,
    search_with_recall (Fixture.by_keyword Fixture.rocks) "rock"
      Fixture.rock_graph (Some "cited_by_count") "desc" Fixture.start
    = (s', Ret r)
    /\ original_keyword r = "rock"
    /\ related_concepts r = find_related_concepts Fixture.rock_graph "rock" 3
    /\ (length (related_concepts r) <= 3)%nat
    /\ total_count r = Z.of_nat (length (recall_results r))
    /\ (if sort_given (Some "cited_by_count")
        then (length (recall_results r) <= 11)%nat else True).
Proof.
  destruct (search_with_recall (Fixture.by_keyword Fixture.rocks) "rock"
              Fixture.rock_graph (Some "cited_by_count") "desc" Fixture.start)
    as [s' [r|e|]] eqn:E.
  - exists s', r. split; [reflexivity|].
    exact (recall_bounds (Fixture.by_keyword Fixture.rocks) "rock"
             Fixture.rock_graph (Some "cited_by_count") "desc" Fixture.start
             s' r E).
  - vm_compute in E. discriminate E.
  - vm_compute in E. discriminate E.
Defined.


Lemma page_work_channel_witness :
  exists s' sh,
    Page.run (Fixture.by_keyword Fixture.rocks) "rock" Fixture.rock_graph
      "引用最多" Fixture.start = (s', Ret (Some sh))
    /\ exists env s1 r items,
         search_all (Fixture.by_keyword Fixture.rocks)
           (Intent.keyword (Intent.parse "rock"))
           (fst (Page.sort_map "引用最多")) (snd (Page.sort_map "引用最多"))
           Fixture.start = (s1, Ret env)
         /\ search_with_recall (Fixture.by_keyword Fixture.rocks)
              (Intent.keyword (Intent.parse "rock")) Fixture.rock_graph
              (fst (Page.sort_map "引用最多")) (snd (Page.sort_map "引用最多")) s1
            = (s', Ret r)
         /\ work (Page.all_results sh)
            = {| error := None; results := Present items;
                 meta_count := Some (Z.of_nat (length items)) |}
         /\ author (Page.all_results sh) = author env
         /\ institution (Page.all_results sh) = institution env
         /\ Page.related_concepts sh = related_concepts r
         /\ Permutation items (recall_results r)
         /\ match fst (Page.sort_map "引用最多") with
            | Some srt =>
                items = sort_results srt (snd (Page.sort_map "引用最多"))
                          (recall_results r)
                /\ (srt = "cited_by_count" \/ srt = "publication_date")
            | None => items = recall_results r
            end.
Proof.
  destruct (Page.run (Fixture.by_keyword Fixture.rocks) "rock"
              Fixture.rock_graph "引用最多" Fixture.start)
    as [s' [[sh|]|e|]] eqn:E.
  - exists s', sh. split; [reflexivity|].
    exact (page_work_channel (Fixture.by_keyword Fixture.rocks) "rock"
             Fixture.rock_graph "引用最多" Fixture.start s' sh E).
  - vm_compute in E. discriminate E.
  - vm_compute in E. discriminate E.
  - vm_compute in E. discriminate E.
Defined.

Lemma page_upstream_down_witness :
  (forall w req, snd (down "boom" w req) = Failed "boom")
  /\ Py.truthy "rock" = true
  /\ exists s',
       Page.run (down "boom") "rock" Fixture.rock_graph "引用最多" Fixture.start
       = (s',
          Ret (Some
                 {| Page.all_results :=
                      {| work := {| error := None; results := Present [];
                                    meta_count := Some 0 |};
                         author := {| error := Some "boom"; results := Present [];
                                      meta_count := None |};
                         institution := {| error := Some "boom";
                                           results := Present [];
                                           meta_count := None |} |};
                    Page.related_concepts :=
                      find_related_concepts Fixture.rock_graph
                        (Intent.keyword (Intent.parse "rock")) 3 |})).
Proof.
  split; [reflexivity|]. split; [reflexivity|].
  exact (page_upstream_down (down "boom") "boom" "rock" Fixture.rock_graph
           "引用最多" Fixture.start (fun w req => eq_refl) eq_refl).
Defined.

End Instances.
